(** * Student statistics scripts: a shallow embedding and its properties

  The repository is a set of reporting scripts that read student
  documents from a document store, classify each one, and count.  One
  script writes: it replaces the skill list of the documents named in a
  CSV file.

  Documents are dynamically typed, so they are embedded as a small
  universe of Python values with the builtins the scripts call on them;
  every builtin that can raise returns in the [res] monad. *)

From Stdlib Require Import ZArith QArith Ascii String List Lia Bool.
From stdpp Require Import gmap strings list fin_maps.
Import ListNotations.

Set Warnings "-register-all".
Local Open Scope Z_scope.

(* ===================================================================== *)
(** * Python values and builtins *)
(* ===================================================================== *)

Module Py.

(** The exceptions the scripts can meet. *)
Inductive exn : Type :=
| TypeError
| AttributeError
| KeyError
| ZeroDivisionError
| InvalidId
| UnboundLocalError.

(** Outcome of an expression or statement that may raise. *)
Inductive res (A : Type) : Type :=
| Ok (a : A)
| Raise (e : exn).
Arguments Ok {A} a.
Arguments Raise {A} e.

Definition bind {A B} (m : res A) (k : A -> res B) : res B :=
  match m with
  | Ok a => k a
  | Raise e => Raise e
  end.

Definition raises {A} (m : res A) : bool :=
  match m with Ok _ => false | Raise _ => true end.

(** A value as the driver hands it to the scripts: the decoded form of
    a stored document.  A finite double is kept as the rational it
    denotes, an object id as the number its twelve bytes spell; a dict
    keeps its items in stored order and is looked up by first match. *)
Inductive value : Type :=
| VNone
| VBool (b : bool)
| VInt (n : Z)
| VFloat (q : Q)
| VStr (s : string)
| VObjectId (oid : N)
| VList (l : list value)
| VDict (d : list (string * value)).

Definition is_None (v : value) : bool :=
  match v with VNone => true | _ => false end.

(** [v is True]: identity with the singleton, so only the boolean. *)
Definition is_True (v : value) : bool :=
  match v with VBool true => true | _ => false end.

(** [isinstance(v, int)], with the integer it denotes ([bool] is a
    subclass of [int]). *)
Definition as_int (v : value) : option Z :=
  match v with
  | VInt n => Some n
  | VBool b => Some (if b then 1 else 0)
  | _ => None
  end.

(** Truth value testing. *)
Definition truthy (v : value) : bool :=
  match v with
  | VNone => false
  | VBool b => b
  | VInt n => negb (n =? 0)
  | VFloat q => negb (Qeq_bool q 0)
  | VStr s => negb (String.eqb s "")
  | VObjectId _ => true
  | VList l => match l with [] => false | _ => true end
  | VDict d => match d with [] => false | _ => true end
  end.

(** [v == n] for an integer literal [n]. *)
Definition eq_int (v : value) (n : Z) : bool :=
  match v with
  | VInt m => m =? n
  | VBool b => (if b then 1 else 0) =? n
  | VFloat q => Qeq_bool q (inject_Z n)
  | _ => false
  end.

(** [len(v)]. *)
Definition len (v : value) : res Z :=
  match v with
  | VStr s => Ok (Z.of_nat (String.length s))
  | VList l => Ok (Z.of_nat (List.length l))
  | VDict d => Ok (Z.of_nat (List.length d))
  | _ => Raise TypeError
  end.

Fixpoint lookup_item (k : string) (d : list (string * value)) : option value :=
  match d with
  | [] => None
  | (k', v) :: rest => if String.eqb k k' then Some v else lookup_item k rest
  end.

(** [v.get(k, default)]; only a dict has the method. *)
Definition get (v : value) (k : string) (default : value) : res value :=
  match v with
  | VDict d => Ok (match lookup_item k d with Some x => x | None => default end)
  | _ => Raise AttributeError
  end.

(** The elements a [for] loop over [v] visits. *)
Definition iter (v : value) : res (list value) :=
  match v with
  | VList l => Ok l
  | VStr s => Ok (map (fun c => VStr (String c "")) (list_ascii_of_string s))
  | VDict d => Ok (map (fun kv => VStr (fst kv)) d)
  | _ => Raise TypeError
  end.

(** [a / b] on integers: true division, a float. *)
Definition truediv (a b : Z) : res Q :=
  if b =? 0 then Raise ZeroDivisionError
  else Ok (inject_Z a / inject_Z b)%Q.

(** Dict update and removal, used to build documents. *)
Fixpoint set_item (k : string) (v : value) (d : list (string * value))
  : list (string * value) :=
  match d with
  | [] => [(k, v)]
  | (k', v') :: rest =>
      if String.eqb k k' then (k, v) :: rest else (k', v') :: set_item k v rest
  end.


(** [v[k]] with a string key: the item of a dict, KeyError when the dict
    lacks the key, TypeError on a value that has no string keys. *)
Definition getitem (v : value) (k : string) : res value :=
  match v with
  | VDict d =>
      match lookup_item k d with
      | Some x => Ok x
      | None => Raise KeyError
      end
  | _ => Raise TypeError
  end.

End Py.

Import Py.

#[global] Instance res_bind : MBind res := λ A B k m, Py.bind m k.
#[global] Instance res_ret : MRet res := @Py.Ok.

(** Reading a counter: [m[k]] on a dict of counts whose absent keys
    stand for zero (every key is initialised, or the dict is a
    [defaultdict(int)]). *)
Definition count_of (m : gmap string Z) (k : string) : Z :=
  default 0 (m !! k).

(* ===================================================================== *)
(** * Skill bands (skill.py, college_skill.py, skill_year.py) *)
(* ===================================================================== *)

Module SkillBand.

(** The if/elif chain that the three scripts share, on the skill
    count. *)
Definition skills_category (skills_count : Z) : string :=
  if skills_count =? 0 then "0 skills"
  else if (1 <=? skills_count) && (skills_count <=? 3) then "1-3 skills"
  else if (4 <=? skills_count) && (skills_count <=? 6) then "4-6 skills"
  else if (7 <=? skills_count) && (skills_count <=? 10) then "7-10 skills"
  else "10+ skills".

(** [get_skills_count]: [len(skills) if skills else 0] on
    [student.get('skills', [])]. *)
Definition get_skills_count (student : value) : res Z :=
  skills ← get student "skills" (VList []);
  if truthy skills then len skills else Ok 0.

End SkillBand.

(* ===================================================================== *)
(** * Data frames, as far as the scripts use them *)
(* ===================================================================== *)

Module Frame.

(** Equality of stored values, part by part.  The store uses it to see
    whether an update changed a document.  The frame uses it to compare
    the cells of a column: on texts it is the equality pandas groups and
    selects by; pandas also takes 1, 1.0 and True for one value and has
    cells that equal nothing, which this comparison does not follow. *)
Fixpoint value_eqb (a b : value) {struct a} : bool :=
  match a, b with
  | VNone, VNone => true
  | VBool x, VBool y => Bool.eqb x y
  | VInt x, VInt y => x =? y
  | VFloat x, VFloat y => Qeq_bool x y
  | VStr x, VStr y => String.eqb x y
  | VObjectId x, VObjectId y => (x =? y)%N
  | VList l, VList m =>
      (fix all2 (l m : list value) {struct l} : bool :=
         match l, m with
         | [], [] => true
         | x :: l', y :: m' => value_eqb x y && all2 l' m'
         | _, _ => false
         end) l m
  | VDict d, VDict e =>
      (fix all2 (d e : list (string * value)) {struct d} : bool :=
         match d, e with
         | [], [] => true
         | (k, x) :: d', (k', y) :: e' =>
             String.eqb k k' && value_eqb x y && all2 d' e'
         | _, _ => false
         end) d e
  | _, _ => false
  end.

(** A data frame: its column labels and its rows. *)
Record frame : Type := {
  columns : gset string;
  rows : list (gmap string value)
}.

(** [pd.DataFrame(rows)] on a list of dicts: one row per dict, and the
    columns are the keys that occur in the dicts.  The frame built from
    the empty list therefore has no column. *)
Definition DataFrame (dicts : list (gmap string value)) : frame :=
  {| columns := ⋃ (dom <$> dicts); rows := dicts |}.

(** [df[c]]: the column, or KeyError when the frame has no such
    column. *)
Definition column (df : frame) (c : string) : res (list value) :=
  if bool_decide (c ∈ columns df) then
    Ok (map (λ r, default VNone (r !! c)) (rows df))
  else Raise KeyError.

(** [len(df)]. *)
Definition length (df : frame) : Z := Z.of_nat (List.length (rows df)).

(** [col.value_counts().to_dict().get(v, 0)]. *)
Definition value_count (col : list value) (v : value) : Z :=
  Z.of_nat (List.length (List.filter (value_eqb v) col)).

(** [col.sum()] on a column of booleans. *)
Definition sum (col : list value) : Z :=
  fold_right (λ v acc, default 0 (as_int v) + acc) 0 col.

(** [col.unique()] on a column of texts: the distinct cells in order of
    first appearance.  (pandas refuses a cell that cannot be hashed, a
    list or a document.) *)
Fixpoint unique (col : list value) : list value :=
  match col with
  | [] => []
  | v :: rest => v :: List.filter (λ w, negb (value_eqb v w)) (unique rest)
  end.

(** [df[df[c] == v]]: the rows whose cell in column [c] equals [v],
    under the same columns. *)
Definition select (df : frame) (c : string) (v : value) : frame :=
  {| columns := columns df;
     rows := List.filter (λ r, value_eqb (default VNone (r !! c)) v) (rows df) |}.

End Frame.

(* ===================================================================== *)
(** * Presence checks shared by counts.py and college_counts.py *)
(* ===================================================================== *)

Module Features.

(** [student.get(k) and len(student.get(k, [])) > 0], as a truth
    value. *)
Definition has_items (student : value) (k : string) : res bool :=
  v ← get student k VNone;
  if truthy v then
    v' ← get student k (VList []);
    n ← len v';
    mret (0 <? n)
  else mret false.

(** The loop that looks for a primary entry with a performance value;
    it leaves at the first one. *)
Fixpoint performance_scan (records : list value) : res bool :=
  match records with
  | [] => mret false
  | record :: rest =>
      p ← get record "is_primary" VNone;
      if is_True p then
        q ← get record "performance" VNone;
        if negb (is_None q) then mret true else performance_scan rest
      else performance_scan rest
  end.

Definition has_performance (student : value) : res bool :=
  er ← get student "education_records" VNone;
  if truthy er then
    er' ← get student "education_records" (VList []);
    records ← iter er';
    performance_scan records
  else mret false.

End Features.

(* ===================================================================== *)
(** * Paged reading of the collection *)
(* ===================================================================== *)

Module Paging.

Definition batch_size : nat := 1000.

(** [(total_documents + batch_size - 1) // batch_size]. *)
Definition total_batches (total_documents : nat) : nat :=
  ((total_documents + batch_size - 1) / batch_size)%nat.

(** [collection.find().skip(batch_num * batch_size).limit(batch_size)]. *)
Definition find_batch (collection : list value) (batch_num : nat)
  : list value :=
  take batch_size (drop (batch_num * batch_size) collection).

(** The batch loop of [main]: each batch is fetched, processed and its
    results appended to [all_results]. *)
Fixpoint batch_loop {R : Type} (process_batch : list value → res (list R))
  (collection : list value) (batch_nums : list nat) (all_results : list R)
  : res (list R) :=
  match batch_nums with
  | [] => mret all_results
  | batch_num :: rest =>
      batch_results ← process_batch (find_batch collection batch_num);
      batch_loop process_batch collection rest (all_results ++ batch_results)
  end.

Definition read_all {R : Type} (process_batch : list value → res (list R))
  (collection : list value) : res (list R) :=
  batch_loop process_batch collection
    (seq 0 (total_batches (List.length collection))) [].

End Paging.

(* ===================================================================== *)
(** * counts.py *)
(* ===================================================================== *)

Module Counts.

Definition have_or_not (b : bool) : value :=
  VStr (if b then "have" else "have_not").

Definition analyze_student_record (student : value)
  : res (gmap string value) :=
  has_projects ← Features.has_items student "projects";
  let result := <["projects" := have_or_not has_projects]> ∅ in
  has_experience ← Features.has_items student "work_experiences";
  let result := <["work_experience" := have_or_not has_experience]> result in
  has_achievements ← Features.has_items student "achievements";
  has_awards ← Features.has_items student "awards";
  let result :=
    <["achievements" := have_or_not (has_achievements || has_awards)]> result in
  has_skills ← Features.has_items student "skills";
  let result := <["skills" := have_or_not has_skills]> result in
  has_performance ← Features.has_performance student;
  let result := <["grade" := have_or_not has_performance]> result in
  mret result.

Definition process_batch (batch : list value)
  : res (list (gmap string value)) :=
  mapM analyze_student_record batch.

Record tally : Type := { have : Z; have_not : Z }.

(** The module-level [stats] dictionary. *)
Record stats : Type := {
  total_processed : Z;
  by_category : gmap string tally
}.

Definition categories : list string :=
  ["projects"; "work_experience"; "achievements"; "skills"; "grade"].

Definition initial_stats : stats :=
  {| total_processed := 0;
     by_category :=
       list_to_map (map (λ c, (c, {| have := 0; have_not := 0 |})) categories) |}.

(** The loop over the categories that fills [stats] from the frame.  It
    updates [stats] in place, so a category that raises leaves the
    earlier ones written. *)
Fixpoint count_categories (df : Frame.frame)
  (cats : list string) (st : stats) : stats * option exn :=
  match cats with
  | [] => (st, None)
  | category :: rest =>
      match Frame.column df category with
      | Raise e => (st, Some e)
      | Ok col =>
          let t := {| have := Frame.value_count col (VStr "have");
                      have_not := Frame.value_count col (VStr "have_not") |} in
          count_categories df rest
            {| total_processed := total_processed st;
               by_category := <[category := t]> (by_category st) |}
      end
  end.

(** [main], from the read of the collection to the filled [stats]: the
    final [stats] and the exception that reached the handler of [main],
    if one did.  With an exception the run ends before the output file
    is written. *)
Definition main (collection : list value) : stats * option exn :=
  match Paging.read_all process_batch collection with
  | Raise e => (initial_stats, Some e)
  | Ok all_results =>
      let df := Frame.DataFrame all_results in
      count_categories df categories
        {| total_processed := Frame.length df;
           by_category := by_category initial_stats |}
  end.

End Counts.

(* ===================================================================== *)
(** * college_counts.py *)
(* ===================================================================== *)

Module CollegeCounts.

(** The loop of [get_college_name]: it returns at the first entry whose
    [is_primary] is [True] and whose college name is truthy. *)
Fixpoint college_scan (records : list value) : res value :=
  match records with
  | [] => mret (VStr "Unknown")
  | record :: rest =>
      p ← get record "is_primary" VNone;
      if is_True p then
        c ← get record "college_name" VNone;
        if truthy c then get record "college_name" VNone
        else college_scan rest
      else college_scan rest
  end.

Definition get_college_name (student : value) : res value :=
  er ← get student "education_records" VNone;
  if truthy er then
    er' ← get student "education_records" (VList []);
    records ← iter er';
    college_scan records
  else mret (VStr "Unknown").

Definition analyze_student_record (student : value)
  : res (gmap string value) :=
  college_name ← get_college_name student;
  let result := <["college_name" := college_name]> ∅ in
  has_projects ← Features.has_items student "projects";
  let result := <["has_projects" := VBool has_projects]> result in
  has_experience ← Features.has_items student "work_experiences";
  let result := <["has_experience" := VBool has_experience]> result in
  has_achievements ← Features.has_items student "achievements";
  has_awards ← Features.has_items student "awards";
  let result :=
    <["has_achievements" := VBool (has_achievements || has_awards)]> result in
  has_skills ← Features.has_items student "skills";
  let result := <["has_skills" := VBool has_skills]> result in
  has_performance ← Features.has_performance student;
  let result := <["has_grade" := VBool has_performance]> result in
  mret result.

Definition process_batch (batch : list value)
  : res (list (gmap string value)) :=
  mapM analyze_student_record batch.

(** One row of the per-college report. *)
Record college_summary : Type := {
  College_Name : value;
  Total_Students : Z;
  Have_Projects : Z;     No_Projects : Z;
  Have_Experience : Z;   No_Experience : Z;
  Have_Achievements : Z; No_Achievements : Z;
  Have_Skills : Z;       No_Skills : Z;
  Have_Grade : Z;        No_Grade : Z
}.

(** The body of the loop over the colleges. *)
Definition summarize (df : Frame.frame) (college : value)
  : res college_summary :=
  let college_df := Frame.select df "college_name" college in
  let college_count := Frame.length college_df in
  projects ← Frame.column college_df "has_projects";
  experience ← Frame.column college_df "has_experience";
  achievements ← Frame.column college_df "has_achievements";
  skills ← Frame.column college_df "has_skills";
  grade ← Frame.column college_df "has_grade";
  mret {| College_Name := college;
          Total_Students := college_count;
          Have_Projects := Frame.sum projects;
          No_Projects := college_count - Frame.sum projects;
          Have_Experience := Frame.sum experience;
          No_Experience := college_count - Frame.sum experience;
          Have_Achievements := Frame.sum achievements;
          No_Achievements := college_count - Frame.sum achievements;
          Have_Skills := Frame.sum skills;
          No_Skills := college_count - Frame.sum skills;
          Have_Grade := Frame.sum grade;
          No_Grade := college_count - Frame.sum grade |}.

(** [main] up to [summary_data], the rows of the report before they are
    sorted by college name and written. *)
Definition main (collection : list value) : res (list college_summary) :=
  all_results ← Paging.read_all process_batch collection;
  let df := Frame.DataFrame all_results in
  names ← Frame.column df "college_name";
  let colleges := Frame.unique names in
  mapM (summarize df) colleges.

End CollegeCounts.

(* ===================================================================== *)
(** * skill.py *)
(* ===================================================================== *)

Module Skill.

(** The keys of [skill_categories], in the order the dict was built. *)
Definition labels : list string :=
  ["0 skills"; "1-3 skills"; "4-6 skills"; "7-10 skills"; "10+ skills"].

Definition skill_categories0 : gmap string Z :=
  list_to_map (map (λ l, (l, 0)) labels).

(** The body of the loop over the students. *)
Definition count_student (st : gmap string Z * Z) (student : value)
  : res (gmap string Z * Z) :=
  let '(skill_categories, processed_count) := st in
  skills_count ← SkillBand.get_skills_count student;
  let category := SkillBand.skills_category skills_count in
  mret (<[category := count_of skill_categories category + 1]> skill_categories,
        processed_count + 1).

Fixpoint scan (cursor : list value) (st : gmap string Z * Z)
  : res (gmap string Z * Z) :=
  match cursor with
  | [] => mret st
  | student :: rest => st' ← count_student st student; scan rest st'
  end.

(** The rows of the distribution file. *)
Definition distribution (skill_categories : gmap string Z)
  : list (string * Z) :=
  map (λ category, (category, count_of skill_categories category)) labels.

(** The loop that logs the distribution:
    [percentage = (count / processed_count) * 100] per category. *)
Definition percentages (skill_categories : gmap string Z)
  (processed_count : Z) : res (list (string * Q)) :=
  mapM (λ category,
          let count := count_of skill_categories category in
          ratio ← truediv count processed_count;
          mret (category, (ratio * 100)%Q))
       labels.

(** [main] from the scan to the logged summary. *)
Definition main (collection : list value)
  : res (list (string * Z) * list (string * Q)) :=
  st ← scan collection (skill_categories0, 0);
  let '(skill_categories, processed_count) := st in
  summary ← percentages skill_categories processed_count;
  mret (distribution skill_categories, summary).

End Skill.

(* ===================================================================== *)
(** * college_skill.py *)
(* ===================================================================== *)

Module CollegeSkill.

(** [get_college_name] is the function of college_counts.py, word for
    word. *)
Definition get_college_name : value → res value :=
  CollegeCounts.get_college_name.

Definition get_skills_count : value → res Z := SkillBand.get_skills_count.

Definition analyze_student_record (student : value)
  : res (gmap string value) :=
  college_name ← get_college_name student;
  let result := <["college_name" := college_name]> ∅ in
  skills_count ← get_skills_count student;
  let result := <["skills_count" := VInt skills_count]> result in
  let result :=
    <["skills_category" := VStr (SkillBand.skills_category skills_count)]>
      result in
  mret result.

Definition process_batch (batch : list value)
  : res (list (gmap string value)) :=
  mapM analyze_student_record batch.

Definition skills_categories : list string :=
  ["0 skills"; "1-3 skills"; "4-6 skills"; "7-10 skills"; "10+ skills"].

(** [len(df[df['skills_category'] == category])]. *)
Definition category_count (df : Frame.frame) (category : string) : res Z :=
  _ ← Frame.column df "skills_category";
  mret (Frame.length (Frame.select df "skills_category" (VStr category))).

(** One row of the per-college report: the college, its students, and
    the count of each category in order. *)
Record college_summary : Type := {
  College_Name : value;
  Total_Students : Z;
  by_category : list (string * Z)
}.

(** The body of the loop over the colleges. *)
Definition summarize (df : Frame.frame) (college : value)
  : res college_summary :=
  let college_df := Frame.select df "college_name" college in
  let college_count := Frame.length college_df in
  counts ←
    mapM (λ category,
            count ← category_count college_df category;
            mret (category, count))
         skills_categories;
  mret {| College_Name := college;
          Total_Students := college_count;
          by_category := counts |}.

(** [main] from the read to the logged summary: the rows of the
    per-college report before sorting, the overall distribution, and its
    percentages [(count / len(df)) * 100]. *)
Definition main (collection : list value)
  : res (list college_summary * list (string * Z) * list (string * Q)) :=
  all_results ← Paging.read_all process_batch collection;
  let df := Frame.DataFrame all_results in
  names ← Frame.column df "college_name";
  let colleges := Frame.unique names in
  summary_data ← mapM (summarize df) colleges;
  overall ←
    mapM (λ category,
            count ← category_count df category;
            mret (category, count))
         skills_categories;
  shares ←
    mapM (λ category,
            count ← category_count df category;
            ratio ← truediv count (Frame.length df);
            mret (category, (ratio * 100)%Q))
         skills_categories;
  mret (summary_data, overall, shares).

End CollegeSkill.

(* ===================================================================== *)
(** * education_count.py *)
(* ===================================================================== *)

Module EducationCount.

(** Where the if/elif chain of [process_batch] sends an end year; the
    chain has no final [else], so a value that passes no test is counted
    nowhere. *)
Inductive bucket : Type :=
| Year2026
| Year2027
| Special
| Uncounted.

(** [end_year is None or not isinstance(end_year, int) or
    end_year < 2023 or end_year > 2027]; [or] stops at the first true
    operand, so the comparisons only see integers. *)
Definition is_special (end_year : value) : bool :=
  is_None end_year ||
  match as_int end_year with
  | None => true
  | Some n => (n <? 2023) || (2027 <? n)
  end.

Definition end_year_bucket (end_year : value) : bucket :=
  if eq_int end_year 2026 then Year2026
  else if eq_int end_year 2027 then Year2027
  else if is_special end_year then Special
  else Uncounted.

(** The counters of one batch: [local_counts], a [defaultdict(int)],
    [local_special_count] and [local_no_primary_count]. *)
Record counters : Type := {
  year_counts : gmap string Z;
  special_count : Z;
  no_primary_count : Z
}.

Definition zero : counters :=
  {| year_counts := ∅; special_count := 0; no_primary_count := 0 |}.

Definition bump_year (year : string) (c : counters) : counters :=
  {| year_counts := <[year := count_of (year_counts c) year + 1]> (year_counts c);
     special_count := special_count c;
     no_primary_count := no_primary_count c |}.

Definition count_end_year (end_year : value) (c : counters) : counters :=
  match end_year_bucket end_year with
  | Year2026 => bump_year "2026" c
  | Year2027 => bump_year "2027" c
  | Special =>
      {| year_counts := year_counts c;
         special_count := special_count c + 1;
         no_primary_count := no_primary_count c |}
  | Uncounted => c
  end.

(** The loop over the education entries of one student.  It has no
    [break]: every entry with a truthy [is_primary] is counted. *)
Fixpoint scan_education (records : list value) (has_primary : bool)
  (c : counters) : res (bool * counters) :=
  match records with
  | [] => mret (has_primary, c)
  | edu_record :: rest =>
      p ← get edu_record "is_primary" (VBool false);
      if truthy p then
        end_year ← get edu_record "end_year" VNone;
        scan_education rest true (count_end_year end_year c)
      else scan_education rest has_primary c
  end.

Definition count_student (c : counters) (student : value) : res counters :=
  er ← get student "education_records" (VList []);
  records ← iter er;
  '(has_primary, c) ← scan_education records false c;
  er' ← get student "education_records" VNone;
  if negb has_primary && truthy er' then
    mret {| year_counts := year_counts c;
            special_count := special_count c;
            no_primary_count := no_primary_count c + 1 |}
  else mret c.

Fixpoint count_students (batch : list value) (c : counters) : res counters :=
  match batch with
  | [] => mret c
  | student :: rest => c' ← count_student c student; count_students rest c'
  end.

(** Reading a missing key of a [defaultdict] stores the default under
    it; the log line at the end of [process_batch] reads both years. *)
Definition touch (year : string) (m : gmap string Z) : gmap string Z :=
  <[year := count_of m year]> m.

Definition process_batch (batch : list value) : res counters :=
  c ← count_students batch zero;
  mret {| year_counts := touch "2027" (touch "2026" (year_counts c));
          special_count := special_count c;
          no_primary_count := no_primary_count c |}.

(** [for year, count in batch_results["year_counts"].items():
       graduation_year_counts[year] += count], and the two sums. *)
Definition merge (total batch_results : counters) : counters :=
  {| year_counts :=
       map_fold (λ year count acc, <[year := count_of acc year + count]> acc)
                (year_counts total) (year_counts batch_results);
     special_count := special_count total + special_count batch_results;
     no_primary_count :=
       no_primary_count total + no_primary_count batch_results |}.

Definition BATCH_SIZE : nat := 100.

(** The loop over the cursor: students gather in [current_batch], which
    is processed and emptied whenever it is full. *)
Fixpoint cursor_loop (cursor current_batch : list value) (total : counters)
  : res (list value * counters) :=
  match cursor with
  | [] => mret (current_batch, total)
  | student :: rest =>
      let current_batch := current_batch ++ [student] in
      if (BATCH_SIZE <=? List.length current_batch)%nat then
        batch_results ← process_batch current_batch;
        cursor_loop rest [] (merge total batch_results)
      else cursor_loop rest current_batch total
  end.

(** The filter [{"education_records": {"$exists": True, "$ne": []}}]. *)
Definition has_education_records (doc : value) : bool :=
  match doc with
  | VDict d =>
      match lookup_item "education_records" d with
      | Some v => negb (Frame.value_eqb v (VList []))
      | None => false
      end
  | _ => false
  end.

(** [safe_percentage], the local helper of [main]. *)
Definition safe_percentage (num denom : Z) : res Q :=
  if 0 <? denom then ratio ← truediv num denom; mret (ratio * 100)%Q
  else mret 0%Q.

(** [graduation_year_counts['2026'] + graduation_year_counts['2027']
    + special_count], logged as the students with a primary entry. *)
Definition total_primary_education (total : counters) : Z :=
  count_of (year_counts total) "2026" + count_of (year_counts total) "2027"
  + special_count total.

(** The figures [main] logs. *)
Record summary : Type := {
  total_students : Z;
  graduating_2026 : Z;
  graduating_2027 : Z;
  special_cases : Z;
  no_education_records : Z;
  no_primary : Z;
  shares : list Q
}.

Definition main (collection : list value) : res summary :=
  let total_students := Z.of_nat (List.length collection) in
  let no_education_records_count :=
    Z.of_nat (List.length
                (List.filter (λ d, negb (has_education_records d)) collection)) in
  let cursor := List.filter has_education_records collection in
  '(current_batch, total) ← cursor_loop cursor [] zero;
  total ←
    (if truthy (VList current_batch) then
       batch_results ← process_batch current_batch;
       mret (merge total batch_results)
     else mret total);
  let y2026 := count_of (year_counts total) "2026" in
  let y2027 := count_of (year_counts total) "2027" in
  shares ←
    mapM (λ num, safe_percentage num total_students)
      [ total_primary_education total; y2026; y2027; special_count total;
        no_education_records_count; no_primary_count total ];
  mret {| total_students := total_students;
          graduating_2026 := y2026;
          graduating_2027 := y2027;
          special_cases := special_count total;
          no_education_records := no_education_records_count;
          no_primary := no_primary_count total;
          shares := shares |}.

End EducationCount.

(* ===================================================================== *)
(** * skill_year.py *)
(* ===================================================================== *)

Module SkillYear.

(** The counters of [main]. *)
Record counters : Type := {
  skill_categories : gmap string Z;
  grad_year_2026_categories : gmap string Z;
  grad_year_2027_categories : gmap string Z;
  processed_count : Z;
  grad_2026_count : Z;
  grad_2027_count : Z
}.

Definition zero : counters :=
  {| skill_categories := Skill.skill_categories0;
     grad_year_2026_categories := Skill.skill_categories0;
     grad_year_2027_categories := Skill.skill_categories0;
     processed_count := 0;
     grad_2026_count := 0;
     grad_2027_count := 0 |}.

Definition bump (k : string) (m : gmap string Z) : gmap string Z :=
  <[k := count_of m k + 1]> m.

(** The if/elif on the graduation year of one primary entry. *)
Definition count_grad_year (skill_category : string) (grad_year : value)
  (c : counters) : counters :=
  if eq_int grad_year 2026 then
    {| skill_categories := skill_categories c;
       grad_year_2026_categories :=
         bump skill_category (grad_year_2026_categories c);
       grad_year_2027_categories := grad_year_2027_categories c;
       processed_count := processed_count c;
       grad_2026_count := grad_2026_count c + 1;
       grad_2027_count := grad_2027_count c |}
  else if eq_int grad_year 2027 then
    {| skill_categories := skill_categories c;
       grad_year_2026_categories := grad_year_2026_categories c;
       grad_year_2027_categories :=
         bump skill_category (grad_year_2027_categories c);
       processed_count := processed_count c;
       grad_2026_count := grad_2026_count c;
       grad_2027_count := grad_2027_count c + 1 |}
  else c.

(** The loop over the education entries; like the one of
    education_count.py it visits every entry. *)
Fixpoint scan_education (skill_category : string) (records : list value)
  (c : counters) : res counters :=
  match records with
  | [] => mret c
  | edu_record :: rest =>
      p ← get edu_record "is_primary" (VBool false);
      if truthy p then
        grad_year ← get edu_record "end_year" VNone;
        scan_education skill_category rest
          (count_grad_year skill_category grad_year c)
      else scan_education skill_category rest c
  end.

Definition count_student (c : counters) (student : value) : res counters :=
  skills_count ← SkillBand.get_skills_count student;
  let skill_category := SkillBand.skills_category skills_count in
  let c :=
    {| skill_categories := bump skill_category (skill_categories c);
       grad_year_2026_categories := grad_year_2026_categories c;
       grad_year_2027_categories := grad_year_2027_categories c;
       processed_count := processed_count c;
       grad_2026_count := grad_2026_count c;
       grad_2027_count := grad_2027_count c |} in
  education_records ← get student "education_records" (VList []);
  records ← iter education_records;
  c ← scan_education skill_category records c;
  mret {| skill_categories := skill_categories c;
          grad_year_2026_categories := grad_year_2026_categories c;
          grad_year_2027_categories := grad_year_2027_categories c;
          processed_count := processed_count c + 1;
          grad_2026_count := grad_2026_count c;
          grad_2027_count := grad_2027_count c |}.

Fixpoint scan (cursor : list value) (c : counters) : res counters :=
  match cursor with
  | [] => mret c
  | student :: rest => c' ← count_student c student; scan rest c'
  end.

(** The loops that log a distribution: one percentage per category, the
    count over [denom]. *)
Definition percentages (categories : gmap string Z) (denom : Z)
  : res (list (string * Q)) :=
  mapM (λ category,
          let count := count_of categories category in
          ratio ← truediv count denom;
          mret (category, (ratio * 100)%Q))
       Skill.labels.

(** [main] from the scan to the logged summary: the counters, the
    overall percentages, and those of the 2026 and of the 2027
    graduates, each logged only [if grad_..._count > 0]. *)
Definition main (collection : list value)
  : res (counters * list (string * Q) * list (string * Q) * list (string * Q)) :=
  c ← scan collection zero;
  overall ← percentages (skill_categories c) (processed_count c);
  of_2026 ←
    (if 0 <? grad_2026_count c then
       percentages (grad_year_2026_categories c) (grad_2026_count c)
     else mret []);
  of_2027 ←
    (if 0 <? grad_2027_count c then
       percentages (grad_year_2027_categories c) (grad_2027_count c)
     else mret []);
  mret (c, overall, of_2026, of_2027).

End SkillYear.

(* ===================================================================== *)
(** * no_skill.py *)
(* ===================================================================== *)

Module NoSkill.

Section WithStr.

(** [str] on a stored value; an object id prints as its hex digits. *)
Variable str : value → string.

(** The four counters a batch returns. *)
Record counters : Type := {
  no_skills_with_education : Z;
  no_skills_with_projects : Z;
  no_skills_with_work_exp : Z;
  no_skills_with_resume : Z
}.

Definition zero : counters :=
  {| no_skills_with_education := 0; no_skills_with_projects := 0;
     no_skills_with_work_exp := 0; no_skills_with_resume := 0 |}.

Definition add (a b : counters) : counters :=
  {| no_skills_with_education :=
       no_skills_with_education a + no_skills_with_education b;
     no_skills_with_projects :=
       no_skills_with_projects a + no_skills_with_projects b;
     no_skills_with_work_exp :=
       no_skills_with_work_exp a + no_skills_with_work_exp b;
     no_skills_with_resume :=
       no_skills_with_resume a + no_skills_with_resume b |}.

Definition incr (b : bool) (n : Z) : Z := if b then n + 1 else n.

(** [not student.get('skills') or len(student.get('skills', [])) == 0]. *)
Definition has_no_skills (student : value) : res bool :=
  skills ← get student "skills" VNone;
  if negb (truthy skills) then mret true
  else
    skills' ← get student "skills" (VList []);
    n ← len skills';
    mret (n =? 0).

(** The body of the loop of [process_batch]. *)
Definition count_student (resume_dict : gmap string value) (c : counters)
  (student : value) : res counters :=
  no_skills ← has_no_skills student;
  if (no_skills : bool) then
    education ← Features.has_items student "education_records";
    work ← Features.has_items student "work_experiences";
    projects ← Features.has_items student "projects";
    id ← get student "_id" VNone;
    let student_id := str id in
    mret {| no_skills_with_education :=
              incr education (no_skills_with_education c);
            no_skills_with_projects :=
              incr projects (no_skills_with_projects c);
            no_skills_with_work_exp :=
              incr work (no_skills_with_work_exp c);
            no_skills_with_resume :=
              incr (bool_decide (is_Some (resume_dict !! student_id)))
                   (no_skills_with_resume c) |}
  else mret c.

Fixpoint count_students (resume_dict : gmap string value)
  (students : list value) (c : counters) : res counters :=
  match students with
  | [] => mret c
  | student :: rest =>
      c' ← count_student resume_dict c student;
      count_students resume_dict rest c'
  end.

Definition process_batch (students : list value)
  (resume_dict : gmap string value) : res counters :=
  count_students resume_dict students zero.

Definition BATCH_SIZE : nat := 100.

Fixpoint cursor_loop (resume_dict : gmap string value)
  (cursor batch : list value) (total : counters)
  : res (list value * counters) :=
  match cursor with
  | [] => mret (batch, total)
  | student :: rest =>
      let batch := batch ++ [student] in
      if (BATCH_SIZE <=? List.length batch)%nat then
        batch_results ← process_batch batch resume_dict;
        cursor_loop resume_dict rest [] (add total batch_results)
      else cursor_loop resume_dict rest batch total
  end.

(** The four lines of the percentage breakdown:
    [(count / total_students) * 100]. *)
Definition breakdown (total : counters) (total_students : Z)
  : res (list Q) :=
  mapM (λ count, ratio ← truediv count total_students; mret (ratio * 100)%Q)
    [ no_skills_with_education total; no_skills_with_projects total;
      no_skills_with_work_exp total; no_skills_with_resume total ].

(** [main] from the scan to the logged breakdown. *)
Definition main (collection : list value) (resume_dict : gmap string value)
  : res (counters * list Q) :=
  let total_students := Z.of_nat (List.length collection) in
  '(batch, total) ← cursor_loop resume_dict collection [] zero;
  total ←
    (if truthy (VList batch) then
       batch_results ← process_batch batch resume_dict;
       mret (add total batch_results)
     else mret total);
  shares ← breakdown total total_students;
  mret (total, shares).

(** The lookup [main] builds from the resumes, which the driver yields
    as documents: [resume_dict[str(resume['user_id'])] = resume['link']]
    for every resume that has both keys. *)
Definition add_resume (resume_dict : gmap string value)
  (resume : list (string * value)) : gmap string value :=
  match lookup_item "user_id" resume, lookup_item "link" resume with
  | Some user_id, Some link => <[str user_id := link]> resume_dict
  | _, _ => resume_dict
  end.

Definition build_resume_dict (all_resumes : list (list (string * value)))
  : gmap string value :=
  fold_left add_resume all_resumes ∅.

End WithStr.

End NoSkill.

(* ===================================================================== *)
(** * String methods the importer calls *)
(* ===================================================================== *)

Module Str.

(** A text is read as a sequence of characters, one [ascii] per
    character, whose code points lie below 256; on such texts [strip] and
    [lower] below are those of the language.  Characters from U+0100 on
    have no counterpart here. *)

(** White space as [strip] sees it: tab to carriage return, the four
    separators U+001C to U+001F, space, next line U+0085 and no-break
    space U+00A0. *)
Definition isspace (c : ascii) : bool :=
  let n := N_of_ascii c in
  ((9 <=? n) && (n <=? 13) || (28 <=? n) && (n <=? 32)
   || (n =? 133) || (n =? 160))%N.

(** The letters [lower] changes: A to Z, and U+00C0 to U+00DE without
    the multiplication sign U+00D7. *)
Definition isupper (c : ascii) : bool :=
  let n := N_of_ascii c in
  ((65 <=? n) && (n <=? 90)
   || (192 <=? n) && (n <=? 222) && negb (n =? 215))%N.

Definition lower_char (c : ascii) : ascii :=
  if isupper c then ascii_of_N (N_of_ascii c + 32) else c.

(** [s.lower()]. *)
Fixpoint lower (s : string) : string :=
  match s with
  | EmptyString => EmptyString
  | String c r => String (lower_char c) (lower r)
  end.

Fixpoint lstrip (s : string) : string :=
  match s with
  | EmptyString => EmptyString
  | String c r => if isspace c then lstrip r else s
  end.

Fixpoint rstrip (s : string) : string :=
  match s with
  | EmptyString => EmptyString
  | String c r =>
      match rstrip r with
      | EmptyString => if isspace c then EmptyString else String c EmptyString
      | r' => String c r'
      end
  end.

(** [s.strip()]. *)
Definition strip (s : string) : string := lstrip (rstrip s).

(** [s.split(',')]: the pieces between the commas, empty ones kept. *)
Fixpoint split_comma (s : string) : list string :=
  match s with
  | EmptyString => [EmptyString]
  | String c r =>
      if Ascii.eqb c "," then EmptyString :: split_comma r
      else
        match split_comma r with
        | tok :: toks => String c tok :: toks
        | [] => [String c EmptyString]
        end
  end.

(** Truth value of a string. *)
Definition nonempty (s : string) : bool := negb (String.eqb s "").

End Str.

(* ===================================================================== *)
(** * skill_from_resume.py *)
(* ===================================================================== *)

Module SkillFromResume.

(** A cell of the frame read from the CSV file: a missing value, a text,
    or a number when the column parsed as numeric. *)
Inductive cell : Type :=
| CMissing
| CText (s : string)
| CNumber (n : Z).

(** The two cells lines 29 and 30 read from a row of a frame that has
    both columns. *)
Record row : Type := { student_id : cell; skills : cell }.

(** [pd.isna(skills_string) or not skills_string.strip()]; a number has
    no [strip]. *)
Definition no_skills_data (skills_string : cell) : res bool :=
  match skills_string with
  | CMissing => mret true
  | CText s => mret (negb (Str.nonempty (Str.strip s)))
  | CNumber _ => Raise AttributeError
  end.

(** [[skill.strip() for skill in skills_string.split(',')
      if skill.strip()]]. *)
Definition skill_names (skills_string : string) : list string :=
  map Str.strip
    (List.filter (λ skill, Str.nonempty (Str.strip skill))
       (Str.split_comma skills_string)).

Definition skill_obj (skill_name : string) : value :=
  VDict [ ("name", VStr (Str.lower skill_name));
          ("rating", VInt 2);
          ("composite", VNone);
          ("versions", VList []) ].

Definition skills_array (skills_string : string) : list value :=
  map skill_obj (skill_names skills_string).

Definition hex_digit (c : ascii) : option N :=
  let n := N_of_ascii c in
  if ((48 <=? n) && (n <=? 57))%N then Some (n - 48)%N
  else if ((97 <=? n) && (n <=? 102))%N then Some (n - 87)%N
  else if ((65 <=? n) && (n <=? 70))%N then Some (n - 55)%N
  else None.

(** White space as [bytes.fromhex] skips it: tab to carriage return and
    space. *)
Definition hex_space (c : ascii) : bool :=
  let n := N_of_ascii c in ((9 <=? n) && (n <=? 13) || (n =? 32))%N.

(** [bytes.fromhex(s)]: the bytes written as pairs of hexadecimal
    digits; white space may stand between two pairs, not inside one.
    [None] where it raises ValueError. *)
Fixpoint fromhex (s : string) : option (list N) :=
  match s with
  | EmptyString => Some []
  | String c r =>
      if hex_space c then fromhex r
      else
        match hex_digit c, r with
        | Some top, String c' r' =>
            match hex_digit c', fromhex r' with
            | Some bot, Some bytes => Some ((16 * top + bot)%N :: bytes)
            | _, _ => None
            end
        | _, _ => None
        end
  end.

(** [ObjectId(student_id)] of the driver, as the binary of the id: a text
    of 24 characters that [bytes.fromhex] reads is an id, another text is
    refused with InvalidId, and a value that is not a text with
    TypeError.  The binary has twelve bytes when the 24 characters are
    all digits, and fewer when white space is among them. *)
Definition ObjectId (student_id : cell) : res (list N) :=
  match student_id with
  | CText s =>
      if (String.length s =? 24)%nat then
        match fromhex s with
        | Some binary => mret binary
        | None => Raise InvalidId
        end
      else Raise InvalidId
  | _ => Raise TypeError
  end.

(** [collection.update_one({"_id": object_id},
                           {"$set": {"skills": skills_array}})]
    of the store, which holds each document under the binary of its id:
    the new collection and [modified_count], which is 1 when a document
    matched and the update changed it.  An id that names no document,
    one with a short binary among them, matches nothing. *)
Definition update_one (collection : gmap (list N) (list (string * value)))
  (object_id : list N) (skills_array : list value)
  : gmap (list N) (list (string * value)) * Z :=
  match collection !! object_id with
  | None => (collection, 0)
  | Some doc =>
      let doc' := set_item "skills" (VList skills_array) doc in
      if Frame.value_eqb (VDict doc) (VDict doc') then (collection, 0)
      else (<[object_id := doc']> collection, 1)
  end.

(** The state the loop over the rows carries. *)
Record run : Type := {
  collection : gmap (list N) (list (string * value));
  update_count : Z;
  error_count : Z
}.

(** The body of the inner [try]: the collection it leaves and whether
    the row counts as an update. *)
Definition try_row (coll : gmap (list N) (list (string * value))) (r : row)
  : res (gmap (list N) (list (string * value)) * bool) :=
  skip ← no_skills_data (skills r);
  if (skip : bool) then mret (coll, false)
  else
    match skills r with
    | CText skills_string =>
        let skills_array := skills_array skills_string in
        object_id ← ObjectId (student_id r);
        let '(coll', modified_count) :=
          update_one coll object_id skills_array in
        mret (coll', 0 <? modified_count)
    | _ => Raise AttributeError
    end.

(** One turn of the loop on a row with both cells, with the
    [except Exception] clause: [student_id] is bound by then, so the
    message of the handler cannot fail. *)
Definition step (st : run) (r : row) : run :=
  match try_row (collection st) r with
  | Ok (coll', updated) =>
      {| collection := coll';
         update_count := if updated then update_count st + 1 else update_count st;
         error_count := error_count st |}
  | Raise _ =>
      {| collection := collection st;
         update_count := update_count st;
         error_count := error_count st + 1 |}
  end.

Definition process_rows (rows : list row) (st : run) : run :=
  fold_left step rows st.

(** The importer on a connected store and a frame that has both
    columns: the final store and the two counts of its closing
    message. *)
Definition process_skills_csv_to_mongodb
  (coll : gmap (list N) (list (string * value))) (df : list row) : run :=
  process_rows df {| collection := coll; update_count := 0; error_count := 0 |}.

(** [row[label]] on a row as [df.iterrows()] yields it, a Series from
    the column labels of the frame to the cells of the row: KeyError when
    the frame has no such column. *)
Definition row_item (row : gmap string cell) (label : string) : res cell :=
  match row !! label with
  | Some c => Ok c
  | None => Raise KeyError
  end.

(** The body of the inner [try], lines 29 to 65, on a Series: the cell
    line 29 binds [student_id] to, when it gets that far, and the outcome
    of the body. *)
Definition try_series (coll : gmap (list N) (list (string * value)))
  (row : gmap string cell)
  : option cell * res (gmap (list N) (list (string * value)) * bool) :=
  match row_item row "student_id" with
  | Raise e => (None, Raise e)
  | Ok c =>
      (Some c,
       skills_string ← row_item row "skills";
       try_row coll {| student_id := c; skills := skills_string |})
  end.

(** The locals of the loop: the store with the two counts, and
    [student_id], which is unbound until line 29 first succeeds and
    keeps its last value from then on. *)
Record locals : Type := {
  counts : run;
  student_id_local : option cell
}.

(** One turn of the loop with its handler, lines 67 to 69.  The handler
    adds one to the error count and then formats [student_id] into its
    message: when that local is still unbound the message raises
    UnboundLocalError, and this exception leaves the loop. *)
Definition turn (l : locals) (row : gmap string cell) : res locals :=
  let '(bound, result) := try_series (collection (counts l)) row in
  let id_local :=
    match bound with
    | Some c => Some c
    | None => student_id_local l
    end in
  match result with
  | Ok (coll', updated) =>
      mret {| counts :=
                {| collection := coll';
                   update_count := if (updated : bool)
                                   then update_count (counts l) + 1
                                   else update_count (counts l);
                   error_count := error_count (counts l) |};
              student_id_local := id_local |}
  | Raise _ =>
      match id_local with
      | Some _ =>
          mret {| counts :=
                    {| collection := collection (counts l);
                       update_count := update_count (counts l);
                       error_count := error_count (counts l) + 1 |};
                  student_id_local := id_local |}
      | None => Raise UnboundLocalError
      end
  end.

(** How the function ends: with the closing message of line 71 and its
    two counts, or in the outer handler of line 73, which an exception
    that leaves the loop reaches and which reports no count.  The store
    is as the loop left it in both cases. *)
Inductive outcome : Type :=
| Completed (final : run)
| Aborted (e : exn) (coll : gmap (list N) (list (string * value))).

Fixpoint iterrows_loop (df : list (gmap string cell)) (l : locals) : outcome :=
  match df with
  | [] => Completed (counts l)
  | row :: rest =>
      match turn l row with
      | Ok l' => iterrows_loop rest l'
      | Raise e => Aborted e (collection (counts l))
      end
  end.

(** The importer on a connected store and any frame. *)
Definition process_frame (coll : gmap (list N) (list (string * value)))
  (df : list (gmap string cell)) : outcome :=
  iterrows_loop df
    {| counts := {| collection := coll; update_count := 0; error_count := 0 |};
       student_id_local := None |}.

(** The Series of a row with both cells. *)
Definition to_series (r : row) : gmap string cell :=
  <["student_id" := student_id r]> (<["skills" := skills r]> ∅).

End SkillFromResume.

(* ===================================================================== *)
(** * new_education.py *)
(* ===================================================================== *)

Module NewEducation.

(** The counters of one batch: [local_year_counts], a
    [defaultdict(int)] keyed by the end year, [local_no_end_year_count]
    and [local_no_primary_count]. *)
Record counters : Type := {
  year_counts : gmap Z Z;
  no_end_year_count : Z;
  no_primary_count : Z
}.

Definition zero : counters :=
  {| year_counts := ∅; no_end_year_count := 0; no_primary_count := 0 |}.

Definition year_count (m : gmap Z Z) (year : Z) : Z := default 0 (m !! year).

(** [if end_year is not None and isinstance(end_year, int)]: the year is
    counted under its integer value, anything else as a missing end
    year. *)
Definition count_end_year (end_year : value) (c : counters) : counters :=
  match (if negb (is_None end_year) then as_int end_year else None) with
  | Some year =>
      {| year_counts :=
           <[year := year_count (year_counts c) year + 1]> (year_counts c);
         no_end_year_count := no_end_year_count c;
         no_primary_count := no_primary_count c |}
  | None =>
      {| year_counts := year_counts c;
         no_end_year_count := no_end_year_count c + 1;
         no_primary_count := no_primary_count c |}
  end.

Fixpoint scan_education (records : list value) (has_primary : bool)
  (c : counters) : res (bool * counters) :=
  match records with
  | [] => mret (has_primary, c)
  | edu_record :: rest =>
      p ← get edu_record "is_primary" (VBool false);
      if truthy p then
        end_year ← get edu_record "end_year" VNone;
        scan_education rest true (count_end_year end_year c)
      else scan_education rest has_primary c
  end.

Definition count_student (c : counters) (student : value) : res counters :=
  er ← get student "education_records" (VList []);
  records ← iter er;
  '(has_primary, c) ← scan_education records false c;
  er' ← get student "education_records" VNone;
  if negb has_primary && truthy er' then
    mret {| year_counts := year_counts c;
            no_end_year_count := no_end_year_count c;
            no_primary_count := no_primary_count c + 1 |}
  else mret c.

Fixpoint count_students (batch : list value) (c : counters) : res counters :=
  match batch with
  | [] => mret c
  | student :: rest => c' ← count_student c student; count_students rest c'
  end.

(** [process_batch]; its log line reads only years that are present, so
    it leaves the counts as the loop made them. *)
Definition process_batch (batch : list value) : res counters :=
  count_students batch zero.

(** [sum(graduation_year_counts.values()) + no_end_year_count], which
    [main] logs as the students with a primary entry. *)
Definition total_with_primary_education (c : counters) : Z :=
  map_fold (λ _ count acc, count + acc) 0 (year_counts c)
  + no_end_year_count c.

End NewEducation.

(* ===================================================================== *)
(** * student_education.py *)
(* ===================================================================== *)

Module StudentEducation.

(** The loop over the education entries of one student: whether a
    primary entry was seen, and whether one with an end year was. *)
Fixpoint scan_education (records : list value)
  (has_primary has_primary_with_end_year : bool) : res (bool * bool) :=
  match records with
  | [] => mret (has_primary, has_primary_with_end_year)
  | edu_record :: rest =>
      p ← get edu_record "is_primary" (VBool false);
      if truthy p then
        end_year ← get edu_record "end_year" VNone;
        if negb (is_None end_year) then scan_education rest true true
        else scan_education rest true has_primary_with_end_year
      else scan_education rest has_primary has_primary_with_end_year
  end.

(** The body of the loop over the batch, on the two lists of ids. *)
Definition classify_student (ids : list value * list value) (student : value)
  : res (list value * list value) :=
  let '(no_primary_ids, no_end_year_ids) := ids in
  student_id ← getitem student "_id";
  er ← get student "education_records" (VList []);
  records ← iter er;
  '(has_primary, has_primary_with_end_year) ←
    scan_education records false false;
  if negb has_primary then mret (no_primary_ids ++ [student_id], no_end_year_ids)
  else if has_primary && negb has_primary_with_end_year then
    mret (no_primary_ids, no_end_year_ids ++ [student_id])
  else mret (no_primary_ids, no_end_year_ids).

Fixpoint classify_students (batch : list value)
  (ids : list value * list value) : res (list value * list value) :=
  match batch with
  | [] => mret ids
  | student :: rest =>
      ids' ← classify_student ids student; classify_students rest ids'
  end.

(** [process_education_batch]: the ids without a primary entry and the
    ids with primary entries but no end year. *)
Definition process_education_batch (batch : list value)
  : res (list value * list value) :=
  classify_students batch ([], []).

End StudentEducation.

(* ===================================================================== *)
(** * extract_education.py *)
(* ===================================================================== *)

Module ExtractEducation.

Section WithOrder.

(** [a > b] of the language on two stored values; it raises TypeError on
    values it cannot order. *)
Variable gt : value → value → res bool.

(** The key of [max]:
    [x.get('year', 0) if x.get('year') is not None else 0]. *)
Definition year_key (x : value) : res value :=
  year ← get x "year" VNone;
  if negb (is_None year) then get x "year" (VInt 0) else mret (VInt 0).

(** [max] keeps the item it holds unless the key of the next one is
    greater. *)
Fixpoint max_loop (items : list value) (best best_key : value) : res value :=
  match items with
  | [] => mret best
  | x :: rest =>
      key ← year_key x;
      greater ← gt key best_key;
      if (greater : bool) then max_loop rest x key
      else max_loop rest best best_key
  end.

(** [max(degrees, key=..., default=None)]. *)
Definition max_by_year (degrees : list value) : res value :=
  match degrees with
  | [] => mret VNone
  | x :: rest => key ← year_key x; max_loop rest x key
  end.

Definition extract_highest_education (parsed_data : value)
  : res (value * value * value) :=
  degrees ← get parsed_data "degree" (VList []);
  if negb (truthy degrees) then mret (VNone, VNone, VNone)
  else
    items ← iter degrees;
    highest_degree ← max_by_year items;
    if truthy highest_degree then
      degree_name ← get highest_degree "degree_name" (VStr "");
      institution ← get highest_degree "institution" (VStr "");
      year ← get highest_degree "year" (VStr "");
      mret (degree_name, institution, year)
    else mret (VNone, VNone, VNone).

End WithOrder.

End ExtractEducation.

(* ===================================================================== *)
(** * Vocabulary of the specification *)
(* ===================================================================== *)

Module Spec.

(** The bins as the specification lists them: label, lower bound and
    upper bound ([None] for the open bin). *)
Definition bins : list (string * (Z * option Z)) :=
  [ ("0 skills", (0, Some 0));
    ("1-3 skills", (1, Some 3));
    ("4-6 skills", (4, Some 6));
    ("7-10 skills", (7, Some 10));
    ("10+ skills", (11, None)) ].

Definition in_bin (n : Z) (b : string * (Z * option Z)) : Prop :=
  fst (snd b) <= n ∧
  match snd (snd b) with Some hi => n <= hi | None => True end.

(** The collections a report measures, by field name. *)
Definition measured : list string :=
  ["skills"; "projects"; "work_experiences"; "achievements"; "awards";
   "education_records"].

(** A collection field is well formed when it is absent, null or a
    list. *)
Definition collection_ok (o : option value) : bool :=
  match o with
  | None | Some VNone | Some (VList _) => true
  | _ => false
  end.

Definition is_dict (v : value) : bool :=
  match v with VDict _ => true | _ => false end.

(** The education entries of a record, in stored order. *)
Definition education_entries (student : value) : list value :=
  match student with
  | VDict d =>
      match lookup_item "education_records" d with
      | Some (VList l) => l
      | _ => []
      end
  | _ => []
  end.

(** A well-formed record: a document whose measured collections are
    absent, null or lists, and whose education entries are documents. *)
Definition well_formed (student : value) : bool :=
  match student with
  | VDict d =>
      forallb (λ k, collection_ok (lookup_item k d)) measured
      && forallb is_dict (education_entries student)
  | _ => false
  end.

Definition field (record : value) (k : string) : value :=
  match record with
  | VDict d => default VNone (lookup_item k d)
  | _ => VNone
  end.

(** An entry with [is_primary] true and a non-empty college name. *)
Definition primary_with_college (record : value) : bool :=
  is_dict record
  && is_True (field record "is_primary")
  && truthy (field record "college_name").

(** An entry with [is_primary] true and a performance value. *)
Definition primary_with_performance (record : value) : bool :=
  is_dict record
  && is_True (field record "is_primary")
  && negb (is_None (field record "performance")).

(** The record [d] with its education entries replaced. *)
Definition with_education (d : list (string * value)) (records : list value)
  : value :=
  VDict (set_item "education_records" (VList records) d).

(** The import as the specification words it: split on the comma, trim
    and lower-case each token, drop the empty ones, and give each the
    default rating and empty sub-fields. *)
Definition import_tokens (skills_string : string) : list string :=
  List.filter Str.nonempty
    (map (λ tok, Str.lower (Str.strip tok)) (Str.split_comma skills_string)).

Definition default_entry (name : string) : value :=
  VDict [("name", VStr name); ("rating", VInt 2); ("composite", VNone);
         ("versions", VList [])].

Fixpoint has_comma (s : string) : bool :=
  match s with
  | EmptyString => false
  | String c r => Ascii.eqb c "," || has_comma r
  end.

End Spec.

(* ===================================================================== *)
(** * Sample records *)
(* ===================================================================== *)

Module Sample.

Definition entry (primary : value) (college : string) (end_year : value)
  : value :=
  VDict [("is_primary", primary); ("college_name", VStr college);
         ("end_year", end_year)].

Definition student (records : list value) (skills : list value) : value :=
  VDict [("_id", VObjectId 1); ("education_records", VList records);
         ("skills", VList skills)].

(** A record whose primary entry names a college "Unknown". *)
Definition college_named_unknown : value :=
  student [entry (VBool true) "Unknown" (VInt 2026)] [].

(** A record with two primary entries, the first without a college
    name. *)
Definition two_primaries : value :=
  student [entry (VBool true) "" (VInt 2026);
           entry (VBool true) "X" (VInt 2026)] [].

Definition first_primary_only : value :=
  student [entry (VBool true) "" (VInt 2026)] [].

(** A record whose primary entry ends in 2024. *)
Definition ends_2024 : value :=
  student [entry (VBool true) "X" (VInt 2024)] [VStr "sql"].

End Sample.

(* ===================================================================== *)
(** * Views used in the proofs *)
(* ===================================================================== *)



(** The readers of a record as functions of the one field they read. *)
Definition has_items_of (o : option value) : res bool :=
  Features.has_items
    (VDict (match o with Some v => [("k", v)] | None => [] end)) "k".




(** Every row of counts.py holds "have" or "have_not" under each
    category. *)
Definition have_row (r : gmap string value) : Prop :=
  ∀ category, In category Counts.categories →
    ∃ b, r !! category = Some (Counts.have_or_not b).

(* ===================================================================== *)
(** * Structure of stored values *)
(* ===================================================================== *)

(** Pairwise test of two lists of the same length. *)
Fixpoint all2 {A : Type} (f : A → A → bool) (l m : list A) : bool :=
  match l, m with
  | [], [] => true
  | x :: l', y :: m' => f x y && all2 f l' m'
  | _, _ => false
  end.

Definition item_eqb (kv kv' : string * value) : bool :=
  String.eqb kv.1 kv'.1 && Frame.value_eqb kv.2 kv'.2.

(** Induction on a stored value with the hypothesis available for every
    element of a list and every item of a dict. *)
Section ValueInduction.

Variable P : value → Prop.
Hypothesis HNone : P VNone.
Hypothesis HBool : ∀ b, P (VBool b).
Hypothesis HInt : ∀ n, P (VInt n).
Hypothesis HFloat : ∀ q, P (VFloat q).
Hypothesis HStr : ∀ s, P (VStr s).
Hypothesis HObjectId : ∀ oid, P (VObjectId oid).
Hypothesis HList : ∀ l, Forall P l → P (VList l).
Hypothesis HDict : ∀ d, Forall (λ kv, P kv.2) d → P (VDict d).

Fixpoint value_nested_ind (v : value) : P v :=
  match v with
  | VNone => HNone
  | VBool b => HBool b
  | VInt n => HInt n
  | VFloat q => HFloat q
  | VStr s => HStr s
  | VObjectId oid => HObjectId oid
  | VList l =>
      HList l
        ((fix go (l : list value) : Forall P l :=
            match l with
            | [] => @List.Forall_nil _ P
            | x :: l' => @List.Forall_cons _ P x l' (value_nested_ind x) (go l')
            end) l)
  | VDict d =>
      HDict d
        ((fix go (d : list (string * value)) : Forall (λ kv, P kv.2) d :=
            match d with
            | [] => @List.Forall_nil _ (λ kv, P kv.2)
            | kv :: d' =>
                @List.Forall_cons _ (λ kv, P kv.2) kv d'
                  (value_nested_ind kv.2) (go d')
            end) d)
  end.

End ValueInduction.

(** The sum of the count column of a report. *)
Definition column_total (rows : list (string * Z)) : Z :=
  fold_right Z.add 0 (map snd rows).


(** A text made of commas and white space only. *)
Fixpoint only_separators (s : string) : bool :=
  match s with
  | EmptyString => true
  | String c r => (Ascii.eqb c "," || Str.isspace c) && only_separators r
  end.

Fixpoint all_space (s : string) : bool :=
  match s with
  | EmptyString => true
  | String c r => Str.isspace c && all_space r
  end.


(** How many cells of a column equal [c], and the distinct cells, for an
    arbitrary comparison. *)
Definition count_eq {A : Type} (eqb : A → A → bool) (c : A) (l : list A) : nat :=
  List.length (List.filter (λ v, eqb v c) l).

Fixpoint distinct {A : Type} (eqb : A → A → bool) (l : list A) : list A :=
  match l with
  | [] => []
  | v :: rest => v :: List.filter (λ w, negb (eqb v w)) (distinct eqb rest)
  end.

(** Every row of college_counts.py holds a boolean under each of its
    five flags. *)
Definition flag_row (r : gmap string value) : Prop :=
  ∀ flag,
    In flag ["has_projects"; "has_experience"; "has_achievements";
             "has_skills"; "has_grade"] →
    ∃ b, r !! flag = Some (VBool b).


(** The sum of the five category counters of a distribution. *)
Definition labels_total (m : gmap string Z) : Z :=
  column_total (Skill.distribution m).

(** No category counter is negative. *)
Definition labels_nonneg (m : gmap string Z) : Prop :=
  ∀ l, In l Skill.labels → 0 <= count_of m l.


(** What [main] of no_skill.py does with the last, partial batch. *)
Definition no_skill_finish (str : value → string)
  (resume_dict : gmap string value) (x : list value * NoSkill.counters)
  : res NoSkill.counters :=
  if truthy (VList x.1) then
    batch_results ← NoSkill.process_batch str x.1 resume_dict;
    mret (NoSkill.add x.2 batch_results)
  else mret x.2.


(** ** What education_count.py counts, said over the records *)

Definition bucket_eqb (a b : EducationCount.bucket) : bool :=
  match a, b with
  | EducationCount.Year2026, EducationCount.Year2026
  | EducationCount.Year2027, EducationCount.Year2027
  | EducationCount.Special, EducationCount.Special
  | EducationCount.Uncounted, EducationCount.Uncounted => true
  | _, _ => false
  end.

(** An entry whose [is_primary] is truthy. *)
Definition is_primary_entry (e : value) : bool :=
  truthy (Spec.field e "is_primary").

(** The end years of the primary entries of a record, in stored
    order. *)
Definition primary_end_years (student : value) : list value :=
  map (λ e, Spec.field e "end_year")
      (List.filter is_primary_entry (Spec.education_entries student)).

(** How many of the end years fall in bucket [b]. *)
Definition bucket_count (b : EducationCount.bucket) (end_years : list value)
  : Z :=
  Z.of_nat (List.length
              (List.filter
                 (λ y, bucket_eqb (EducationCount.end_year_bucket y) b)
                 end_years)).

Definition in_bucket (b : EducationCount.bucket) (students : list value) : Z :=
  bucket_count b (flat_map primary_end_years students).

(** A record with education entries none of which is primary. *)
Definition lacks_primary (student : value) : bool :=
  truthy (VList (Spec.education_entries student))
  && negb (existsb is_primary_entry (Spec.education_entries student)).

Definition lacking (students : list value) : Z :=
  Z.of_nat (List.length (List.filter lacks_primary students)).

(** A record the graduation-year loops can walk: a document whose
    education records are absent or a list of documents. *)
Definition education_iterable (student : value) : bool :=
  match student with
  | VDict d =>
      match lookup_item "education_records" d with
      | None => true
      | Some (VList l) => forallb Spec.is_dict l
      | _ => false
      end
  | _ => false
  end.

(** The counters [c'] are the counters [c] advanced by the primary end
    years [ys] and by [n] records without a primary entry. *)
Definition advanced (c c' : EducationCount.counters) (ys : list value) (n : Z)
  : Prop :=
  count_of (EducationCount.year_counts c') "2026"
  = count_of (EducationCount.year_counts c) "2026"
    + bucket_count EducationCount.Year2026 ys
  ∧ count_of (EducationCount.year_counts c') "2027"
    = count_of (EducationCount.year_counts c) "2027"
      + bucket_count EducationCount.Year2027 ys
  ∧ EducationCount.special_count c'
    = EducationCount.special_count c + bucket_count EducationCount.Special ys
  ∧ EducationCount.no_primary_count c' = EducationCount.no_primary_count c + n.


(** Every row of college_skill.py holds one of the five category labels
    and a college name. *)
Definition band_row (r : gmap string value) : Prop :=
  ∃ label, In label Skill.labels ∧ r !! "skills_category" = Some (VStr label).

(** The rows of a frame whose category cell is [category]. *)
Definition rows_in_category (df : Frame.frame) (category : string) : Z :=
  Frame.length (Frame.select df "skills_category" (VStr category)).

(** How many of the end years are the integer [year]; a boolean counts
    as the integer it equals. *)
Definition ending_in (year : Z) (end_years : list value) : Z :=
  Z.of_nat (List.length
              (List.filter (λ y, bool_decide (as_int y = Some year))
                 end_years)).

(** How many of the end years are null or not an integer. *)
Definition undated (end_years : list value) : Z :=
  Z.of_nat (List.length
              (List.filter (λ y, bool_decide (as_int y = None)) end_years)).

(** The new_education.py counters [c'] are the counters [c] advanced by
    the primary end years [ys] and by [n] records without a primary
    entry. *)
Definition tallied (c c' : NewEducation.counters) (ys : list value) (n : Z)
  : Prop :=
  (∀ year,
     NewEducation.year_count (NewEducation.year_counts c') year
     = NewEducation.year_count (NewEducation.year_counts c) year
       + ending_in year ys)
  ∧ NewEducation.total_with_primary_education c'
    = NewEducation.total_with_primary_education c + Z.of_nat (List.length ys)
  ∧ NewEducation.no_end_year_count c'
    = NewEducation.no_end_year_count c + undated ys
  ∧ NewEducation.no_primary_count c' = NewEducation.no_primary_count c + n.

(** A primary entry whose end year is not null. *)
Definition dated_primary_entry (e : value) : bool :=
  is_primary_entry e && negb (is_None (Spec.field e "end_year")).

(** A record none of whose education entries is primary; a record
    without entries is one. *)
Definition without_primary (student : value) : bool :=
  negb (existsb is_primary_entry (Spec.education_entries student)).

(** A record with a primary entry, none of them with an end year. *)
Definition primary_without_end_year (student : value) : bool :=
  existsb is_primary_entry (Spec.education_entries student)
  && negb (existsb dated_primary_entry (Spec.education_entries student)).

(** A document that has an [_id]. *)
Definition has_id (student : value) : bool :=
  match student with
  | VDict d => bool_decide (is_Some (lookup_item "_id" d))
  | _ => false
  end.

(** The year a degree is ranked by: its integer year, 0 when the year is
    absent or null. *)
Definition ranking_year (degree : value) : Z :=
  match Spec.field degree "year" with
  | VInt n => n
  | _ => 0
  end.

(** A degree whose year is absent, null or an integer. *)
Definition year_known (degree : value) : bool :=
  match degree with
  | VDict d =>
      match lookup_item "year" d with
      | None | Some VNone | Some (VInt _) => true
      | _ => false
      end
  | _ => false
  end.

(** Field [k] of a document, [dflt] when the document lacks it. *)
Definition field_or (record : value) (k : string) (dflt : value) : value :=
  match record with
  | VDict d => default dflt (lookup_item k d)
  | _ => dflt
  end.

(** The order of the language on integers. *)
Definition int_gt (a b : value) : res bool :=
  match a, b with
  | VInt x, VInt y => Ok (y <? x)
  | _, _ => Raise TypeError
  end.

(** Two stores hold the same documents, which differ at most in their
    "skills" field. *)
Definition same_but_skills (c c' : gmap (list N) (list (string * value))) : Prop :=
  ∀ oid,
    match c !! oid, c' !! oid with
    | None, None => True
    | Some doc, Some doc' =>
        ∀ k, k ≠ "skills" → lookup_item k doc' = lookup_item k doc
    | _, _ => False
    end.

(** A record whose college, as [get_college_name] finds it, is a text.
    On a column of texts the frame's comparison of cells is the equality
    pandas groups and selects by. *)
Definition college_is_text (student : value) : bool :=
  match CollegeCounts.get_college_name student with
  | Ok (VStr _) => true
  | _ => false
  end.

(* ===================================================================== *)
(** * Properties *)
(* ===================================================================== *)

Import SkillBand.

(** ** Skill bands *)

Lemma skills_category_cases (n : Z) :
  0 <= n →
  (n = 0 ∧ skills_category n = "0 skills") ∨
  (1 <= n <= 3 ∧ skills_category n = "1-3 skills") ∨
  (4 <= n <= 6 ∧ skills_category n = "4-6 skills") ∨
  (7 <= n <= 10 ∧ skills_category n = "7-10 skills") ∨
  (11 <= n ∧ skills_category n = "10+ skills").
Proof.
  intros Hn. unfold skills_category.
  destruct (Z.eqb_spec n 0) as [->|H0]; [left; split; [lia|reflexivity]|right].
  destruct (Z.leb_spec 1 n); [|lia].
  destruct (Z.leb_spec n 3); simpl; [left; split; [lia|reflexivity]|right].
  destruct (Z.leb_spec 4 n); [|lia].
  destruct (Z.leb_spec n 6); simpl; [left; split; [lia|reflexivity]|right].
  destruct (Z.leb_spec 7 n); [|lia].
  destruct (Z.leb_spec n 10); simpl; [left|right]; (split; [lia|reflexivity]).
Qed.

(** The count the classifier bands is a length, so it is never
    negative. *)
Lemma get_skills_count_nonneg (student : value) (n : Z) :
  get_skills_count student = Ok n → 0 <= n.
Proof.
  unfold get_skills_count. destruct student; simpl; try discriminate.
  destruct (lookup_item "skills" d) as [v|]; simpl.
  - destruct (truthy v); [|intros [= <-]; lia].
    destruct v; simpl; try discriminate; intros [= <-]; lia.
  - intros [= <-]. lia.
Qed.

(** C1. For every non-negative skill count the classifier gives one of
    the five labels, and it gives the label of a bin exactly when the
    count lies in that bin: the bins [0,0], [1,3], [4,6], [7,10],
    [11,oo) cover the non-negative integers without gap or overlap.  At
    the boundaries 3, 4, 10 and 11 fall in "1-3 skills", "4-6 skills",
    "7-10 skills" and "10+ skills". *)
Theorem skills_category_partition (n : Z) :
  0 <= n →
  In (skills_category n) Skill.labels
  ∧ (∀ b, In b Spec.bins → (Spec.in_bin n b ↔ skills_category n = fst b))
  ∧ (∃ b, In b Spec.bins ∧ Spec.in_bin n b
          ∧ ∀ b', In b' Spec.bins → Spec.in_bin n b' → b' = b)
  ∧ skills_category 3 = "1-3 skills"
  ∧ skills_category 4 = "4-6 skills"
  ∧ skills_category 10 = "7-10 skills"
  ∧ skills_category 11 = "10+ skills".
Proof.
  intros Hn.
  assert (Hiff : ∀ b, In b Spec.bins →
                      (Spec.in_bin n b ↔ skills_category n = fst b)).
  { intros b Hb. unfold Spec.in_bin.
    destruct (skills_category_cases n Hn)
      as [[? ->]|[[? ->]|[[? ->]|[[? ->]|[? ->]]]]];
      simpl in Hb; destruct Hb as [<-|[<-|[<-|[<-|[<-|[]]]]]]; simpl;
      (split; [intros; first [reflexivity | lia] |
               intros; first [discriminate | lia]]). }
  assert (Hin : In (skills_category n) Skill.labels).
  { destruct (skills_category_cases n Hn)
      as [[? ->]|[[? ->]|[[? ->]|[[? ->]|[? ->]]]]]; simpl; tauto. }
  split; [exact Hin|]. split; [exact Hiff|]. split; [|repeat split].
  assert (Hex : ∃ b, In b Spec.bins ∧ fst b = skills_category n).
  { change Skill.labels with (map fst Spec.bins) in Hin.
    apply in_map_iff in Hin as (b & Hlab & Hb). exists b. auto. }
  destruct Hex as (b & Hb & Hlab). exists b. split; [exact Hb|]. split.
  - apply Hiff; auto.
  - intros b' Hb' Hin'. apply Hiff in Hin'; [|exact Hb'].
    rewrite <- Hlab in Hin'. clear -Hb Hb' Hin'.
    simpl in Hb, Hb'.
    destruct Hb as [<-|[<-|[<-|[<-|[<-|[]]]]]];
      destruct Hb' as [<-|[<-|[<-|[<-|[<-|[]]]]]];
      first [reflexivity | discriminate Hin'].
Qed.

(** Both scripts band the count through this chain: college_skill.py
    stores the label in the record it returns, skill.py adds one to the
    counter of the label. *)
Lemma college_skill_record_category (student : value)
  (result : gmap string value) :
  CollegeSkill.analyze_student_record student = Ok result →
  ∃ n, 0 <= n
       ∧ result !! "skills_count" = Some (VInt n)
       ∧ result !! "skills_category" = Some (VStr (skills_category n)).
Proof.
  unfold CollegeSkill.analyze_student_record.
  destruct (CollegeSkill.get_college_name student); cbn; [|discriminate].
  unfold CollegeSkill.get_skills_count.
  destruct (get_skills_count student) as [n|] eqn:Hn; cbn; [|discriminate].
  intros [= <-]. exists n. split; [exact (get_skills_count_nonneg _ _ Hn)|].
  split; simplify_map_eq; reflexivity.
Qed.

Lemma skill_count_student_bumps (skill_categories : gmap string Z)
  (processed_count : Z) (student : value) (st' : gmap string Z * Z) :
  Skill.count_student (skill_categories, processed_count) student = Ok st' →
  ∃ n, 0 <= n
       ∧ st' = (<[skills_category n :=
                    count_of skill_categories (skills_category n) + 1]>
                  skill_categories,
                processed_count + 1).
Proof.
  unfold Skill.count_student.
  destruct (get_skills_count student) as [n|] eqn:Hn; cbn; [|discriminate].
  intros [= <-]. exists n. split; [exact (get_skills_count_nonneg _ _ Hn)|].
  reflexivity.
Qed.

(** An empty skill list bands as "0 skills", eleven skills as
    "10+ skills". *)
Example no_skills_band :
  CollegeSkill.analyze_student_record (Sample.student [] [])
    ≫= (λ r, mret (r !! "skills_category"))
  = Ok (Some (VStr "0 skills")).
Proof. reflexivity. Qed.

Example eleven_skills_band :
  CollegeSkill.analyze_student_record
    (Sample.student [] (repeat (VStr "sql") 11))
    ≫= (λ r, mret (r !! "skills_category"))
  = Ok (Some (VStr "10+ skills")).
Proof. reflexivity. Qed.

Lemma skills_category_partition_witness :
  0 <= 7 ∧ In (skills_category 7) Skill.labels.
Proof.
  split; [lia|]. apply (skills_category_partition 7). lia.
Defined.

(** ** College extraction *)

Import CollegeCounts.

Lemma get_dict (d : list (string * value)) (k : string) (dflt : value) :
  get (VDict d) k dflt = Ok (default dflt (lookup_item k d)).
Proof. unfold get. destruct (lookup_item k d); reflexivity. Qed.

Lemma get_field (record : value) (k : string) :
  Spec.is_dict record = true → get record k VNone = Ok (Spec.field record k).
Proof. destruct record; try discriminate. intros _. apply get_dict. Qed.

(** On documents the scan returns the name of the first entry that is
    primary and named, and the sentinel when there is none. *)
Lemma college_scan_find (records : list value) :
  forallb Spec.is_dict records = true →
  college_scan records =
    Ok (match List.find Spec.primary_with_college records with
        | Some e => Spec.field e "college_name"
        | None => VStr "Unknown"
        end).
Proof.
  induction records as [|record rest IH]; [reflexivity|].
  intros [Hd Hrest]%andb_prop. specialize (IH Hrest).
  destruct record as [| | | | | | |d]; try discriminate Hd.
  cbn [college_scan List.find]. unfold Spec.primary_with_college.
  rewrite !get_dict. cbn [Spec.is_dict Spec.field andb mbind res_bind Py.bind].
  destruct (is_True (default VNone (lookup_item "is_primary" d)));
    cbn [andb]; [|exact IH].
  destruct (truthy (default VNone (lookup_item "college_name" d)));
    [reflexivity|exact IH].
Qed.

Lemma well_formed_entries (student : value) :
  Spec.well_formed student = true →
  forallb Spec.is_dict (Spec.education_entries student) = true.
Proof.
  unfold Spec.well_formed. destruct student; try discriminate.
  intros [_ H]%andb_prop. exact H.
Qed.

Lemma well_formed_collection (d : list (string * value)) (k : string) :
  Spec.well_formed (VDict d) = true → In k Spec.measured →
  Spec.collection_ok (lookup_item k d) = true.
Proof.
  unfold Spec.well_formed. intros [H _]%andb_prop Hk.
  rewrite forallb_forall in H. apply H, Hk.
Qed.

(** What [find] returns is the first element that passes the test. *)
Lemma find_first_split {A : Type} (p : A → bool) (l : list A) (x : A) :
  List.find p l = Some x →
  ∃ pre post, l = pre ++ x :: post ∧ ∀ y, In y pre → p y = false.
Proof.
  induction l as [|a l IH]; [discriminate|]. cbn [List.find].
  destruct (p a) eqn:Ha.
  - intros [= ->]. exists [], l. split; [reflexivity|]. intros y [].
  - intros Hfind. destruct (IH Hfind) as (pre & post & -> & Hpre).
    exists (a :: pre), post. split; [reflexivity|].
    intros y [<-|Hin]; [exact Ha|exact (Hpre y Hin)].
Qed.

Lemma get_college_name_eq (student : value) :
  Spec.well_formed student = true →
  get_college_name student =
    Ok (match List.find Spec.primary_with_college
                (Spec.education_entries student) with
        | Some e => Spec.field e "college_name"
        | None => VStr "Unknown"
        end).
Proof.
  intros Hwf. pose proof (well_formed_entries _ Hwf) as Hent.
  destruct student as [| | | | | | |d]; try discriminate.
  pose proof (well_formed_collection d "education_records" Hwf) as Hc.
  unfold get_college_name, Spec.education_entries in *.
  rewrite !get_dict. simpl.
  destruct (lookup_item "education_records" d) as [v|]; simpl; [|reflexivity].
  destruct v; simpl in *; try reflexivity;
    try (discriminate Hc; simpl; tauto).
  destruct l as [|r l]; [reflexivity|]. simpl.
  apply (college_scan_find (r :: l)). exact Hent.
Qed.

(** C2, as the code has it.  For a well-formed record the college is the
    name of the first education entry, in stored order, that is primary
    and named: the entries split into a run of entries that are not
    primary and named, that first entry, and the rest, and the result is
    the name of that entry whatever the rest holds.  When the record has
    no such entry the result is the sentinel "Unknown".  The result is
    therefore the name of an entry or the sentinel; the sentinel is
    returned when no entry is primary and named, and otherwise only when
    the first such entry is itself named "Unknown".  college_skill.py
    uses the same function. *)
Theorem get_college_name_first_match (student : value) :
  Spec.well_formed student = true →
  ∃ v, get_college_name student = Ok v
    ∧ CollegeSkill.get_college_name student = Ok v
    ∧ ((∃ pre e post,
          Spec.education_entries student = pre ++ e :: post
          ∧ (∀ x, In x pre → Spec.primary_with_college x = false)
          ∧ Spec.primary_with_college e = true
          ∧ v = Spec.field e "college_name")
       ∨ ((∀ e, In e (Spec.education_entries student) →
                Spec.primary_with_college e = false)
          ∧ v = VStr "Unknown"))
    ∧ (v = VStr "Unknown"
       ∨ ∃ e, In e (Spec.education_entries student)
              ∧ Spec.primary_with_college e = true
              ∧ Spec.field e "college_name" = v)
    ∧ ((∀ e, In e (Spec.education_entries student) →
             Spec.primary_with_college e = false) → v = VStr "Unknown")
    ∧ (v = VStr "Unknown" →
       (∀ e, In e (Spec.education_entries student) →
             Spec.primary_with_college e = false)
       ∨ ∃ e, List.find Spec.primary_with_college
                (Spec.education_entries student) = Some e
              ∧ Spec.field e "college_name" = VStr "Unknown").
Proof.
  intros Hwf. unfold CollegeSkill.get_college_name.
  rewrite (get_college_name_eq _ Hwf).
  destruct (List.find Spec.primary_with_college
              (Spec.education_entries student)) as [e|] eqn:Hfind.
  - exists (Spec.field e "college_name").
    destruct (find_some _ _ Hfind) as [Hin Hp].
    split; [reflexivity|]. split; [reflexivity|]. split.
    { left. destruct (find_first_split _ _ _ Hfind) as (pre & post & E & Hpre).
      exists pre, e, post. auto. }
    split; [right; exists e; auto|]. split.
    + intros Hnone. rewrite (Hnone e Hin) in Hp. discriminate.
    + intros Hu. right. exists e. auto.
  - exists (VStr "Unknown"). split; [reflexivity|]. split; [reflexivity|].
    split; [right; split; [exact (find_none _ _ Hfind)|reflexivity]|].
    split; [left; reflexivity|].
    split; [reflexivity|]. intros _. left.
    exact (find_none _ _ Hfind).
Qed.

Lemma get_college_name_first_match_witness :
  ∃ v, get_college_name Sample.two_primaries = Ok v
       ∧ ∃ pre e post,
           Spec.education_entries Sample.two_primaries = pre ++ e :: post
           ∧ (∀ x, In x pre → Spec.primary_with_college x = false)
           ∧ Spec.primary_with_college e = true
           ∧ v = Spec.field e "college_name".
Proof.
  destruct (get_college_name_first_match Sample.two_primaries eq_refl)
    as (v & Hv & _ & [Hfirst|[Hnone _]] & _).
  - exists v. split; [exact Hv|exact Hfirst].
  - discriminate (Hnone (Sample.entry (VBool true) "X" (VInt 2026))
                    (or_intror (or_introl eq_refl))).
Defined.

(** C2, as stated, fails on a record whose primary entry names its
    college "Unknown": the sentinel comes back although an entry is
    primary and named. *)
Lemma unknown_despite_primary_college :
  ¬ (get_college_name Sample.college_named_unknown = Ok (VStr "Unknown")
     ↔ ¬ ∃ e, In e (Spec.education_entries Sample.college_named_unknown)
              ∧ Spec.primary_with_college e = true).
Proof.
  intros [Himp _]. apply Himp; [reflexivity|].
  eexists. split; [left; reflexivity|reflexivity].
Qed.

(** ** The scans stop at their first match *)

Lemma lookup_set_item_eq (k : string) (v : value) (d : list (string * value)) :
  lookup_item k (set_item k v d) = Some v.
Proof.
  induction d as [|[k' v'] d IH]; simpl.
  - rewrite String.eqb_refl. reflexivity.
  - destruct (String.eqb k k') eqn:E; simpl; rewrite ?String.eqb_refl, ?E; auto.
Qed.

Lemma lookup_set_item_ne (k k' : string) (v : value)
  (d : list (string * value)) :
  k ≠ k' → lookup_item k' (set_item k v d) = lookup_item k' d.
Proof.
  intros Hne. induction d as [|[k0 v0] d IH]; simpl.
  - destruct (String.eqb_spec k' k); [congruence|reflexivity].
  - destruct (String.eqb_spec k k0) as [->|]; simpl.
    + destruct (String.eqb_spec k' k0); [congruence|reflexivity].
    + rewrite IH. reflexivity.
Qed.



Lemma get_college_name_with_education (d : list (string * value))
  (records : list value) :
  get_college_name (Spec.with_education d records) = college_scan records.
Proof.
  unfold get_college_name, Spec.with_education. rewrite !get_dict.
  rewrite lookup_set_item_eq. destruct records; reflexivity.
Qed.

Lemma has_performance_with_education (d : list (string * value))
  (records : list value) :
  Features.has_performance (Spec.with_education d records)
  = Features.performance_scan records.
Proof.
  unfold Features.has_performance, Spec.with_education. rewrite !get_dict.
  rewrite lookup_set_item_eq. destruct records; reflexivity.
Qed.

Lemma college_scan_stops (pre post post' : list value) (e : value) :
  Spec.primary_with_college e = true →
  college_scan (pre ++ e :: post) = college_scan (pre ++ e :: post').
Proof.
  intros He. induction pre as [|a pre IH].
  - destruct e as [| | | | | | |d]; try discriminate He.
    unfold Spec.primary_with_college in He. cbn in He.
    apply andb_prop in He as [Hp Hc].
    cbn [app college_scan]. rewrite !get_dict.
    cbn [mbind res_bind Py.bind]. rewrite Hp, Hc. reflexivity.
  - cbn [app college_scan].
    destruct (get a "is_primary" VNone) as [p|]; [|reflexivity].
    cbn [mbind res_bind Py.bind]. destruct (is_True p); [|exact IH].
    destruct (get a "college_name" VNone) as [c|]; [|reflexivity].
    cbn [mbind res_bind Py.bind]. destruct (truthy c); [reflexivity|exact IH].
Qed.

Lemma performance_scan_stops (pre post post' : list value) (e : value) :
  Spec.primary_with_performance e = true →
  Features.performance_scan (pre ++ e :: post)
  = Features.performance_scan (pre ++ e :: post').
Proof.
  intros He. induction pre as [|a pre IH].
  - destruct e as [| | | | | | |d]; try discriminate He.
    unfold Spec.primary_with_performance in He. cbn in He.
    apply andb_prop in He as [Hp Hc].
    cbn [app Features.performance_scan]. rewrite !get_dict.
    cbn [mbind res_bind Py.bind]. rewrite Hp, Hc. reflexivity.
  - cbn [app Features.performance_scan].
    destruct (get a "is_primary" VNone) as [p|]; [|reflexivity].
    cbn [mbind res_bind Py.bind]. destruct (is_True p); [|exact IH].
    destruct (get a "performance" VNone) as [c|]; [|reflexivity].
    cbn [mbind res_bind Py.bind].
    destruct (negb (is_None c)); [reflexivity|exact IH].
Qed.

Lemma college_scan_first (pre post : list value) (e : value) :
  forallb Spec.is_dict pre = true →
  (∀ x, In x pre → Spec.primary_with_college x = false) →
  Spec.primary_with_college e = true →
  college_scan (pre ++ e :: post) = Ok (Spec.field e "college_name")
  ∧ college_scan pre = Ok (VStr "Unknown").
Proof.
  intros Hd Hpre He. induction pre as [|a pre IH].
  - split; [|reflexivity].
    destruct e as [| | | | | | |f]; try discriminate He.
    unfold Spec.primary_with_college in He. cbn in He.
    apply andb_prop in He as [Hp Hc].
    cbn [app college_scan Spec.field]. rewrite !get_dict.
    cbn [mbind res_bind Py.bind]. rewrite Hp, Hc. reflexivity.
  - cbn [forallb] in Hd. apply andb_prop in Hd as [Ha Hd].
    pose proof (Hpre a (or_introl eq_refl)) as Hna.
    destruct (IH Hd (λ x Hx, Hpre x (or_intror Hx))) as [IH1 IH2].
    destruct a as [| | | | | | |f]; try discriminate Ha.
    unfold Spec.primary_with_college in Hna. cbn in Hna.
    cbn [app college_scan]. rewrite !get_dict.
    cbn [mbind res_bind Py.bind].
    destruct (is_True (default VNone (lookup_item "is_primary" f)));
      [|split; assumption].
    cbn [andb] in Hna. rewrite Hna. split; assumption.
Qed.

Lemma performance_scan_first (pre post : list value) (e : value) :
  forallb Spec.is_dict pre = true →
  (∀ x, In x pre → Spec.primary_with_performance x = false) →
  Spec.primary_with_performance e = true →
  Features.performance_scan (pre ++ e :: post) = Ok true
  ∧ Features.performance_scan pre = Ok false.
Proof.
  intros Hd Hpre He. induction pre as [|a pre IH].
  - split; [|reflexivity].
    destruct e as [| | | | | | |f]; try discriminate He.
    unfold Spec.primary_with_performance in He. cbn in He.
    apply andb_prop in He as [Hp Hc].
    cbn [app Features.performance_scan]. rewrite !get_dict.
    cbn [mbind res_bind Py.bind]. rewrite Hp, Hc. reflexivity.
  - cbn [forallb] in Hd. apply andb_prop in Hd as [Ha Hd].
    pose proof (Hpre a (or_introl eq_refl)) as Hna.
    destruct (IH Hd (λ x Hx, Hpre x (or_intror Hx))) as [IH1 IH2].
    destruct a as [| | | | | | |f]; try discriminate Ha.
    unfold Spec.primary_with_performance in Hna. cbn in Hna.
    cbn [app Features.performance_scan]. rewrite !get_dict.
    cbn [mbind res_bind Py.bind].
    destruct (is_True (default VNone (lookup_item "is_primary" f)));
      [|split; assumption].
    cbn [andb] in Hna. rewrite Hna. split; assumption.
Qed.

(** C8, as the code has it.  The college scan uses the first education
    entry, in stored order, that is primary and has a college name, and
    the grade scan the first primary entry with a performance value.
    When [e] is such an entry and none of the entries before it is, the
    college is the name of [e] and the grade flag is true, while the
    entries before it alone give "Unknown" and false; and in any case
    whatever is stored after [e] does not change the result.  A primary
    entry that lacks the name (or the value) is among the entries passed
    over: it does not stop the scan. *)
Theorem scans_stop_at_first_match (d : list (string * value))
  (pre post post' : list value) (e : value) :
  Spec.is_dict e = true →
  is_True (Spec.field e "is_primary") = true →
  (truthy (Spec.field e "college_name") = true →
   get_college_name (Spec.with_education d (pre ++ e :: post))
   = get_college_name (Spec.with_education d (pre ++ e :: post'))
   ∧ (forallb Spec.is_dict pre = true →
      (∀ x, In x pre → Spec.primary_with_college x = false) →
      get_college_name (Spec.with_education d (pre ++ e :: post))
      = Ok (Spec.field e "college_name")
      ∧ get_college_name (Spec.with_education d pre)
        = Ok (VStr "Unknown")))
  ∧ (is_None (Spec.field e "performance") = false →
     Features.has_performance (Spec.with_education d (pre ++ e :: post))
     = Features.has_performance (Spec.with_education d (pre ++ e :: post'))
     ∧ (forallb Spec.is_dict pre = true →
        (∀ x, In x pre → Spec.primary_with_performance x = false) →
        Features.has_performance (Spec.with_education d (pre ++ e :: post))
        = Ok true
        ∧ Features.has_performance (Spec.with_education d pre) = Ok false)).
Proof.
  intros Hd Hp. split; intros H.
  - assert (He : Spec.primary_with_college e = true).
    { unfold Spec.primary_with_college. rewrite Hd, Hp, H. reflexivity. }
    rewrite !get_college_name_with_education.
    split; [apply college_scan_stops; exact He|].
    intros Hdicts Hpre. apply college_scan_first; assumption.
  - assert (He : Spec.primary_with_performance e = true).
    { unfold Spec.primary_with_performance. rewrite Hd, Hp, H. reflexivity. }
    rewrite !has_performance_with_education.
    split; [apply performance_scan_stops; exact He|].
    intros Hdicts Hpre. apply performance_scan_first; assumption.
Qed.

Lemma scans_stop_at_first_match_witness :
  get_college_name
    (Spec.with_education []
       ([Sample.entry (VBool false) "A" VNone;
         Sample.entry (VBool true) "" VNone]
        ++ Sample.entry (VBool true) "B" VNone
        :: [Sample.entry (VBool true) "C" VNone]))
  = Ok (VStr "B")
  ∧ get_college_name
      (Spec.with_education []
         [Sample.entry (VBool false) "A" VNone;
          Sample.entry (VBool true) "" VNone])
    = Ok (VStr "Unknown").
Proof.
  destruct (scans_stop_at_first_match []
              [Sample.entry (VBool false) "A" VNone;
               Sample.entry (VBool true) "" VNone]
              [Sample.entry (VBool true) "C" VNone] []
              (Sample.entry (VBool true) "B" VNone) eq_refl eq_refl)
    as [Hcollege _].
  destruct (Hcollege eq_refl) as [_ Hfirst].
  apply Hfirst; [reflexivity|].
  intros x [<-|[<-|[]]]; reflexivity.
Defined.

(** C8, as stated, fails: both records below have the same first
    primary entry, yet the second primary entry decides the college, and
    the graduation-year count takes both entries. *)
Lemma later_primary_entry_matters :
  get_college_name Sample.two_primaries = Ok (VStr "X")
  ∧ get_college_name Sample.first_primary_only = Ok (VStr "Unknown")
  ∧ (∃ c, EducationCount.process_batch [Sample.two_primaries] = Ok c
          ∧ count_of (EducationCount.year_counts c) "2026" = 2)
  ∧ (∃ c, EducationCount.process_batch [Sample.first_primary_only] = Ok c
          ∧ count_of (EducationCount.year_counts c) "2026" = 1)
  ∧ get_college_name Sample.two_primaries
    ≠ get_college_name Sample.first_primary_only.
Proof.
  split; [reflexivity|]. split; [reflexivity|].
  split; [eexists; split; [reflexivity|vm_compute; reflexivity]|].
  split; [eexists; split; [reflexivity|vm_compute; reflexivity]|].
  discriminate.
Qed.

(** ** Graduation-year buckets *)

Import EducationCount.

Lemma count_of_insert_eq (m : gmap string Z) (k : string) (v : Z) :
  count_of (<[k := v]> m) k = v.
Proof. unfold count_of. rewrite lookup_insert_eq. reflexivity. Qed.

Lemma count_of_insert_ne (m : gmap string Z) (k k' : string) (v : Z) :
  k ≠ k' → count_of (<[k := v]> m) k' = count_of m k'.
Proof. intros H. unfold count_of. rewrite lookup_insert_ne; auto. Qed.

(** No value equals both years. *)
Lemma eq_int_exclusive (v : value) :
  eq_int v 2026 = true → eq_int v 2027 = false.
Proof.
  destruct v as [|b|n|q| | | |]; simpl; try discriminate.
  - destruct b; discriminate.
  - intros ->%Z.eqb_eq. reflexivity.
  - intros H1%Qeq_bool_iff. destruct (Qeq_bool q (inject_Z 2027)) eqn:H2; auto.
    apply Qeq_bool_iff in H2. rewrite H1 in H2. discriminate H2.
Qed.

Lemma end_year_bucket_uncounted (end_year : value) :
  end_year_bucket end_year = Uncounted
  ↔ ∃ n, end_year = VInt n ∧ 2023 <= n <= 2025.
Proof.
  unfold end_year_bucket, is_special. split.
  - destruct end_year as [|b|n|q| | | |]; simpl; try discriminate.
    + destruct b; discriminate.
    + destruct (Z.eqb_spec n 2026); [discriminate|].
      destruct (Z.eqb_spec n 2027); [discriminate|].
      destruct (Z.ltb_spec n 2023); [discriminate|].
      destruct (Z.ltb_spec 2027 n); [discriminate|].
      intros _. exists n. split; [reflexivity|lia].
    + destruct (Qeq_bool q (inject_Z 2026)); [discriminate|].
      destruct (Qeq_bool q (inject_Z 2027)); discriminate.
  - intros (n & -> & Hn). simpl.
    destruct (Z.eqb_spec n 2026); [lia|].
    destruct (Z.eqb_spec n 2027); [lia|].
    destruct (Z.ltb_spec n 2023); [lia|].
    destruct (Z.ltb_spec 2027 n); [lia|reflexivity].
Qed.

Lemma total_primary_education_count (end_year : value) (c : counters) :
  total_primary_education (count_end_year end_year c)
  = total_primary_education c
    + match end_year_bucket end_year with Uncounted => 0 | _ => 1 end.
Proof.
  unfold count_end_year, total_primary_education, bump_year.
  destruct (end_year_bucket end_year); simpl.
  - rewrite count_of_insert_eq, count_of_insert_ne by discriminate. lia.
  - rewrite count_of_insert_eq, count_of_insert_ne by discriminate. lia.
  - lia.
  - lia.
Qed.

(** What one primary entry does to the counters of education_count.py,
    test by test of the if/elif chain. *)
Lemma count_end_year_counters (end_year : value) (c : counters) :
  (eq_int end_year 2026 = true →
   count_of (year_counts (count_end_year end_year c)) "2026"
   = count_of (year_counts c) "2026" + 1
   ∧ count_of (year_counts (count_end_year end_year c)) "2027"
     = count_of (year_counts c) "2027"
   ∧ special_count (count_end_year end_year c) = special_count c)
  ∧ (eq_int end_year 2027 = true →
     count_of (year_counts (count_end_year end_year c)) "2027"
     = count_of (year_counts c) "2027" + 1
     ∧ count_of (year_counts (count_end_year end_year c)) "2026"
       = count_of (year_counts c) "2026"
     ∧ special_count (count_end_year end_year c) = special_count c)
  ∧ (eq_int end_year 2026 = false → eq_int end_year 2027 = false →
     match as_int end_year with
     | None => True
     | Some n => n < 2023 ∨ 2027 < n
     end →
     special_count (count_end_year end_year c) = special_count c + 1
     ∧ year_counts (count_end_year end_year c) = year_counts c)
  ∧ ((∃ n, end_year = VInt n ∧ 2023 <= n <= 2025) →
     count_end_year end_year c = c)
  ∧ no_primary_count (count_end_year end_year c) = no_primary_count c
  ∧ (∀ year, year ≠ "2026" → year ≠ "2027" →
       count_of (year_counts (count_end_year end_year c)) year
       = count_of (year_counts c) year).
Proof.
  pose proof (eq_int_exclusive end_year) as Hx.
  unfold count_end_year, end_year_bucket, is_special, bump_year.
  split; [|split; [|split; [|split; [|split]]]].
  - intros H. rewrite H. cbn [year_counts special_count].
    rewrite count_of_insert_eq, count_of_insert_ne by discriminate. auto.
  - intros H. destruct (eq_int end_year 2026);
      [rewrite Hx in H by reflexivity; discriminate|].
    rewrite H. cbn [year_counts special_count].
    rewrite count_of_insert_eq, count_of_insert_ne by discriminate. auto.
  - intros H1 H2 Hs. rewrite H1, H2.
    destruct (as_int end_year) as [n|] eqn:Hint.
    + assert (is_None end_year = false) as ->
          by (destruct end_year; auto; discriminate).
      cbn [orb].
      destruct (Z.ltb_spec n 2023); [cbn; auto|].
      destruct (Z.ltb_spec 2027 n); [cbn; auto|]. lia.
    + rewrite orb_true_r. cbn. auto.
  - intros (n & -> & Hn). cbn.
    destruct (Z.eqb_spec n 2026); [lia|].
    destruct (Z.eqb_spec n 2027); [lia|].
    destruct (Z.ltb_spec n 2023); [lia|].
    destruct (Z.ltb_spec 2027 n); [lia|reflexivity].
  - destruct (eq_int end_year 2026); [reflexivity|].
    destruct (eq_int end_year 2027); [reflexivity|].
    destruct (_ || _); reflexivity.
  - intros year H26 H27.
    destruct (eq_int end_year 2026);
      [cbn [year_counts]; apply count_of_insert_ne; congruence|].
    destruct (eq_int end_year 2027);
      [cbn [year_counts]; apply count_of_insert_ne; congruence|].
    destruct (_ || _); reflexivity.
Qed.

(** What one primary entry does to the counters of skill_year.py. *)
Lemma count_grad_year_counters (skill_category : string) (grad_year : value)
  (c : SkillYear.counters) :
  (eq_int grad_year 2026 = true →
   SkillYear.grad_2026_count
     (SkillYear.count_grad_year skill_category grad_year c)
   = SkillYear.grad_2026_count c + 1
   ∧ count_of (SkillYear.grad_year_2026_categories
                 (SkillYear.count_grad_year skill_category grad_year c))
       skill_category
     = count_of (SkillYear.grad_year_2026_categories c) skill_category + 1
   ∧ SkillYear.grad_2027_count
       (SkillYear.count_grad_year skill_category grad_year c)
     = SkillYear.grad_2027_count c
   ∧ SkillYear.grad_year_2027_categories
       (SkillYear.count_grad_year skill_category grad_year c)
     = SkillYear.grad_year_2027_categories c)
  ∧ (eq_int grad_year 2027 = true →
     SkillYear.grad_2027_count
       (SkillYear.count_grad_year skill_category grad_year c)
     = SkillYear.grad_2027_count c + 1
     ∧ count_of (SkillYear.grad_year_2027_categories
                   (SkillYear.count_grad_year skill_category grad_year c))
         skill_category
       = count_of (SkillYear.grad_year_2027_categories c) skill_category + 1
     ∧ SkillYear.grad_2026_count
         (SkillYear.count_grad_year skill_category grad_year c)
       = SkillYear.grad_2026_count c
     ∧ SkillYear.grad_year_2026_categories
         (SkillYear.count_grad_year skill_category grad_year c)
       = SkillYear.grad_year_2026_categories c)
  ∧ (eq_int grad_year 2026 = false → eq_int grad_year 2027 = false →
     SkillYear.count_grad_year skill_category grad_year c = c).
Proof.
  pose proof (eq_int_exclusive grad_year) as Hx.
  unfold SkillYear.count_grad_year, SkillYear.bump.
  split; [|split].
  - intros H. rewrite H. cbn. rewrite count_of_insert_eq. auto.
  - intros H. destruct (eq_int grad_year 2026);
      [rewrite Hx in H by reflexivity; discriminate|].
    rewrite H. cbn. rewrite count_of_insert_eq. auto.
  - intros -> ->. reflexivity.
Qed.

(** C4, as the code has it.  A primary entry's end year is counted in at
    most one place.  In education_count.py a value equal to 2026 adds
    one to the 2026 counter and a value equal to 2027 one to the 2027
    counter; a value that is null, not an integer, below 2023 or above
    2027 adds one to the special counter; an integer from 2023 to 2025
    changes no counter at all.  Exactly one of these four cases holds
    for every value, each case leaves the other counters as they were,
    and the count of primary entries grows by one except in the last
    case.  In skill_year.py a value equal to 2026 or to 2027 adds one to
    that year's count and to that year's category table, and any other
    value changes nothing. *)
Theorem end_year_bucket_cases (end_year : value) (c : counters)
  (skill_category : string) (c' : SkillYear.counters) :
  (end_year_bucket end_year = Year2026 ↔ eq_int end_year 2026 = true)
  ∧ (end_year_bucket end_year = Year2027 ↔ eq_int end_year 2027 = true)
  ∧ (end_year_bucket end_year = Special
     ↔ eq_int end_year 2026 = false ∧ eq_int end_year 2027 = false
       ∧ match as_int end_year with
         | None => True
         | Some n => n < 2023 ∨ 2027 < n
         end)
  ∧ (end_year_bucket end_year = Uncounted
     ↔ ∃ n, end_year = VInt n ∧ 2023 <= n <= 2025)
  ∧ total_primary_education (count_end_year end_year c)
    = total_primary_education c
      + match end_year_bucket end_year with Uncounted => 0 | _ => 1 end
  ∧ (SkillYear.count_grad_year skill_category end_year c' = c'
     ∨ eq_int end_year 2026 = true ∨ eq_int end_year 2027 = true)
  ∧ ((eq_int end_year 2026 = true →
      count_of (year_counts (count_end_year end_year c)) "2026"
      = count_of (year_counts c) "2026" + 1
      ∧ count_of (year_counts (count_end_year end_year c)) "2027"
        = count_of (year_counts c) "2027"
      ∧ special_count (count_end_year end_year c) = special_count c)
     ∧ (eq_int end_year 2027 = true →
        count_of (year_counts (count_end_year end_year c)) "2027"
        = count_of (year_counts c) "2027" + 1
        ∧ count_of (year_counts (count_end_year end_year c)) "2026"
          = count_of (year_counts c) "2026"
        ∧ special_count (count_end_year end_year c) = special_count c)
     ∧ (eq_int end_year 2026 = false → eq_int end_year 2027 = false →
        match as_int end_year with
        | None => True
        | Some n => n < 2023 ∨ 2027 < n
        end →
        special_count (count_end_year end_year c) = special_count c + 1
        ∧ year_counts (count_end_year end_year c) = year_counts c)
     ∧ ((∃ n, end_year = VInt n ∧ 2023 <= n <= 2025) →
        count_end_year end_year c = c)
     ∧ no_primary_count (count_end_year end_year c) = no_primary_count c
     ∧ (∀ year, year ≠ "2026" → year ≠ "2027" →
          count_of (year_counts (count_end_year end_year c)) year
          = count_of (year_counts c) year))
  ∧ ((eq_int end_year 2026 = true →
      SkillYear.grad_2026_count
        (SkillYear.count_grad_year skill_category end_year c')
      = SkillYear.grad_2026_count c' + 1
      ∧ count_of (SkillYear.grad_year_2026_categories
                    (SkillYear.count_grad_year skill_category end_year c'))
          skill_category
        = count_of (SkillYear.grad_year_2026_categories c') skill_category
          + 1
      ∧ SkillYear.grad_2027_count
          (SkillYear.count_grad_year skill_category end_year c')
        = SkillYear.grad_2027_count c'
      ∧ SkillYear.grad_year_2027_categories
          (SkillYear.count_grad_year skill_category end_year c')
        = SkillYear.grad_year_2027_categories c')
     ∧ (eq_int end_year 2027 = true →
        SkillYear.grad_2027_count
          (SkillYear.count_grad_year skill_category end_year c')
        = SkillYear.grad_2027_count c' + 1
        ∧ count_of (SkillYear.grad_year_2027_categories
                      (SkillYear.count_grad_year skill_category end_year c'))
            skill_category
          = count_of (SkillYear.grad_year_2027_categories c') skill_category
            + 1
        ∧ SkillYear.grad_2026_count
            (SkillYear.count_grad_year skill_category end_year c')
          = SkillYear.grad_2026_count c'
        ∧ SkillYear.grad_year_2026_categories
            (SkillYear.count_grad_year skill_category end_year c')
          = SkillYear.grad_year_2026_categories c')
     ∧ (eq_int end_year 2026 = false → eq_int end_year 2027 = false →
        SkillYear.count_grad_year skill_category end_year c' = c')).
Proof.
  split; [|split; [|split; [|split; [|split; [|split; [|split]]]]]].
  - unfold end_year_bucket. destruct (eq_int end_year 2026); [tauto|].
    destruct (eq_int end_year 2027); [split; discriminate|].
    destruct (is_special end_year); split; discriminate.
  - unfold end_year_bucket. pose proof (eq_int_exclusive end_year) as Hx.
    destruct (eq_int end_year 2026).
    + rewrite Hx by reflexivity. split; discriminate.
    + destruct (eq_int end_year 2027); [tauto|].
      destruct (is_special end_year); split; discriminate.
  - unfold end_year_bucket, is_special.
    destruct (eq_int end_year 2026); [split; [discriminate|intros [? _]; discriminate]|].
    destruct (eq_int end_year 2027);
      [split; [discriminate|intros (_ & ? & _); discriminate]|].
    destruct (as_int end_year) as [n|] eqn:Hint.
    + assert (is_None end_year = false) as -> by (destruct end_year; auto; discriminate).
      simpl. destruct (Z.ltb_spec n 2023); simpl; [split; auto|].
      destruct (Z.ltb_spec 2027 n); simpl; [split; auto|].
      split; [discriminate|intros (_ & _ & [?|?]); lia].
    + rewrite orb_true_r. tauto.
  - apply end_year_bucket_uncounted.
  - apply total_primary_education_count.
  - unfold SkillYear.count_grad_year.
    destruct (eq_int end_year 2026); [auto|].
    destruct (eq_int end_year 2027); auto.
  - apply count_end_year_counters.
  - apply count_grad_year_counters.
Qed.

(** The two graduation-year loops read the entries with
    [student.get('education_records', [])], whose default covers an
    absent field only: on a null field the [for] raises. *)
Lemma null_education_records_raise (c : counters) (c' : SkillYear.counters) :
  count_student c (VDict [("education_records", VNone)]) = Raise TypeError
  ∧ SkillYear.count_student c' (VDict [("education_records", VNone)])
    = Raise TypeError.
Proof. split; reflexivity. Qed.

(** A record with one primary entry, college "X", ending in 2026: the
    college is "X" and the entry lands in the 2026 bucket.  A record
    without the field has college "Unknown" and no grade. *)
Example one_primary_entry_2026 :
  get_college_name (Sample.student [Sample.entry (VBool true) "X" (VInt 2026)] [])
  = Ok (VStr "X")
  ∧ end_year_bucket (VInt 2026) = Year2026.
Proof. split; reflexivity. Qed.

Example no_education_records_field :
  get_college_name (VDict []) = Ok (VStr "Unknown")
  ∧ Features.has_performance (VDict []) = Ok false.
Proof. split; reflexivity. Qed.

(** C4, as stated, fails on an integer end year from 2023 to 2025: a
    primary entry that ends in 2024 lands in no bucket, and its student
    is counted neither among the primary entries nor among the records
    without one. *)
Lemma end_year_2024_in_no_bucket :
  end_year_bucket (VInt 2024) = Uncounted
  ∧ ∃ c, process_batch [Sample.ends_2024] = Ok c
         ∧ total_primary_education c = 0
         ∧ no_primary_count c = 0.
Proof.
  split; [reflexivity|]. eexists. split; [reflexivity|].
  split; vm_compute; reflexivity.
Qed.

(** ** Absent, null and empty collections *)




Lemma has_items_reads (d : list (string * value)) (k : string) :
  Features.has_items (VDict d) k = has_items_of (lookup_item k d).
Proof.
  unfold has_items_of, Features.has_items. rewrite !get_dict.
  destruct (lookup_item k d); reflexivity.
Qed.














Lemma has_items_ok (o : option value) :
  Spec.collection_ok o = true → ∃ b, has_items_of o = Ok b.
Proof.
  destruct o as [v|]; [|exists false; reflexivity].
  destruct v as [| | | | | |l|]; try discriminate; intros _.
  - exists false. reflexivity.
  - destruct l; eexists; reflexivity.
Qed.

Lemma performance_scan_ok (records : list value) :
  forallb Spec.is_dict records = true →
  ∃ b, Features.performance_scan records = Ok b.
Proof.
  induction records as [|record rest IH]; [exists false; reflexivity|].
  intros [Hd Hrest]%andb_prop. specialize (IH Hrest).
  destruct record as [| | | | | | |d]; try discriminate Hd.
  cbn [Features.performance_scan]. rewrite !get_dict.
  cbn [mbind res_bind Py.bind].
  destruct (is_True _); [|exact IH].
  destruct (negb _); [exists true; reflexivity|exact IH].
Qed.

Lemma has_performance_ok (student : value) :
  Spec.well_formed student = true →
  ∃ b, Features.has_performance student = Ok b.
Proof.
  intros Hwf. pose proof (well_formed_entries _ Hwf) as Hent.
  destruct student as [| | | | | | |d]; try discriminate.
  pose proof (well_formed_collection d "education_records" Hwf) as Hc.
  unfold Features.has_performance, Spec.education_entries in *.
  rewrite !get_dict.
  destruct (lookup_item "education_records" d) as [v|];
    [|exists false; reflexivity].
  destruct v as [| | | | | |l|]; simpl in Hc;
    try (discriminate Hc; simpl; tauto); [exists false; reflexivity|].
  destruct l as [|r l]; [exists false; reflexivity|].
  exact (performance_scan_ok (r :: l) Hent).
Qed.







(** ** Totals of the aggregators *)

Lemma mapM_res_Forall {A B : Type} (f : A → res B) (P : B → Prop)
  (l : list A) (rs : list B) :
  (∀ x r, f x = Ok r → P r) → mapM f l = Ok rs → Forall P rs.
Proof.
  intros Hf. revert rs. induction l as [|x l IH]; intros rs; cbn.
  - intros [= <-]. constructor.
  - destruct (f x) as [r|] eqn:Hx; cbn; [|discriminate].
    destruct (mapM f l) as [rs'|]; cbn; [|discriminate].
    intros [= <-]. constructor; [exact (Hf x r Hx)|]. apply IH. reflexivity.
Qed.

(** ** The paged read visits every record once *)

Section Batches.

Context {A : Type}.
Variable b : nat.
Hypothesis b_pos : (0 < b)%nat.

Lemma batch_count_step (n : nat) :
  (0 < n)%nat → ((n + b - 1) / b = S ((n - b + b - 1) / b))%nat.
Proof.
  intros Hn. destruct (Nat.le_gt_cases b n) as [Hge|Hlt].
  - replace (n + b - 1)%nat with ((n - 1) + 1 * b)%nat by lia.
    rewrite Nat.div_add by lia.
    replace (n - b + b - 1)%nat with (n - 1)%nat by lia. lia.
  - replace (n + b - 1)%nat with ((n - 1) + 1 * b)%nat by lia.
    rewrite Nat.div_add by lia.
    replace (n - b + b - 1)%nat with (b - 1)%nat by lia.
    rewrite !Nat.div_small by lia. reflexivity.
Qed.

Lemma batches_cover (l : list A) :
  concat (map (λ i, take b (drop (i * b) l))
              (seq 0 ((List.length l + b - 1) / b)))
  = l.
Proof.
  remember (List.length l) as n eqn:Hn. revert l Hn.
  induction n as [n IH] using lt_wf_ind. intros l Hn.
  destruct (Nat.eq_0_gt_0_cases n) as [->|Hpos].
  - destruct l; [|discriminate]. simpl.
    rewrite Nat.div_small by lia. reflexivity.
  - rewrite batch_count_step by exact Hpos.
    cbn [seq map concat]. rewrite <- seq_shift, map_map.
    cbn [Nat.mul]. rewrite drop_0.
    erewrite map_ext.
    + rewrite (IH (n - b)%nat ltac:(lia) (drop b l)).
      * apply take_drop.
      * rewrite length_drop. lia.
    + intros i. cbn beta. rewrite drop_drop.
      replace (b + i * b)%nat with (S i * b)%nat by lia. reflexivity.
Qed.

End Batches.

Lemma mapM_res_app {A B : Type} (f : A → res B) (l1 l2 : list A) :
  mapM f (l1 ++ l2)
  = (r1 ← mapM f l1; r2 ← mapM f l2; mret (r1 ++ r2)).
Proof.
  induction l1 as [|x l1 IH]; cbn.
  - destruct (mapM f l2); reflexivity.
  - destruct (f x); cbn; [|reflexivity]. rewrite IH.
    destruct (mapM f l1); cbn; [|reflexivity].
    destruct (mapM f l2); reflexivity.
Qed.

Lemma batch_loop_concat {R : Type} (f : value → res R)
  (collection : list value) (batch_nums : list nat) (acc : list R) :
  Paging.batch_loop (mapM f) collection batch_nums acc
  = (rs ← mapM f (concat (map (Paging.find_batch collection) batch_nums));
     mret (acc ++ rs)).
Proof.
  revert acc. induction batch_nums as [|n ns IH]; intros acc.
  - cbn. rewrite app_nil_r. reflexivity.
  - cbn [Paging.batch_loop map concat]. rewrite mapM_res_app.
    destruct (mapM f (Paging.find_batch collection n)) as [rs1|]; cbn;
      [|reflexivity].
    rewrite IH.
    destruct (mapM f (concat (map (Paging.find_batch collection) ns)));
      cbn; [|reflexivity].
    rewrite app_assoc. reflexivity.
Qed.

(** Reading by pages and classifying each page is classifying the whole
    collection, record by record, in stored order. *)
Lemma read_all_mapM {R : Type} (f : value → res R) (collection : list value) :
  Paging.read_all (mapM f) collection = mapM f collection.
Proof.
  unfold Paging.read_all. rewrite batch_loop_concat.
  unfold Paging.total_batches, Paging.find_batch.
  rewrite (batches_cover Paging.batch_size); [|unfold Paging.batch_size; lia].
  destruct (mapM f collection); reflexivity.
Qed.

Lemma mapM_res_length {A B : Type} (f : A → res B) (l : list A)
  (rs : list B) :
  mapM f l = Ok rs → List.length rs = List.length l.
Proof.
  revert rs. induction l as [|x l IH]; intros rs; cbn.
  - intros [= <-]. reflexivity.
  - destruct (f x); cbn; [|discriminate].
    destruct (mapM f l); cbn; [|discriminate].
    intros [= <-]. cbn. rewrite (IH _ eq_refl). reflexivity.
Qed.

Lemma counts_row_shape (student : value) (r : gmap string value) :
  Counts.analyze_student_record student = Ok r → have_row r.
Proof.
  unfold Counts.analyze_student_record.
  destruct (Features.has_items student "projects"); cbn; [|discriminate].
  destruct (Features.has_items student "work_experiences"); cbn; [|discriminate].
  destruct (Features.has_items student "achievements"); cbn; [|discriminate].
  destruct (Features.has_items student "awards"); cbn; [|discriminate].
  destruct (Features.has_items student "skills"); cbn; [|discriminate].
  destruct (Features.has_performance student); cbn; [|discriminate].
  intros [= <-] category Hin. simpl in Hin.
  destruct Hin as [<-|[<-|[<-|[<-|[<-|[]]]]]]; eexists;
    simplify_map_eq; reflexivity.
Qed.

Lemma value_count_have (col : list value) :
  Forall (λ v, ∃ b, v = Counts.have_or_not b) col →
  Frame.value_count col (VStr "have") + Frame.value_count col (VStr "have_not")
  = Z.of_nat (List.length col).
Proof.
  unfold Frame.value_count. induction 1 as [|v col [b ->] _ IH]; [reflexivity|].
  destruct b; cbn [List.filter Frame.value_eqb Counts.have_or_not String.eqb
                   List.length]; simpl; simpl in IH; lia.
Qed.

Lemma column_have (df : Frame.frame) (category : string)
  (col : list value) :
  Forall have_row (Frame.rows df) → In category Counts.categories →
  Frame.column df category = Ok col →
  Z.of_nat (List.length col) = Frame.length df
  ∧ Forall (λ v, ∃ b, v = Counts.have_or_not b) col.
Proof.
  intros Hdf Hcat. unfold Frame.column, Frame.length.
  destruct (bool_decide _); [|discriminate].
  intros [= <-]. split; [rewrite length_map; reflexivity|].
  apply Forall_map. eapply Forall_impl; [exact Hdf|].
  intros r Hr. destruct (Hr category Hcat) as [b ->]. exists b. reflexivity.
Qed.

Lemma count_categories_totals (df : Frame.frame)
  (cats : list string) (st st' : Counts.stats) :
  Forall have_row (Frame.rows df) →
  (∀ category, In category cats → In category Counts.categories) →
  Counts.count_categories df cats st = (st', None) →
  Counts.total_processed st' = Counts.total_processed st
  ∧ (∀ category, In category cats →
       ∃ t, Counts.by_category st' !! category = Some t
            ∧ Counts.have t + Counts.have_not t = Frame.length df)
  ∧ (∀ category, ¬ In category cats →
       Counts.by_category st' !! category = Counts.by_category st !! category).
Proof.
  intros Hdf. revert st. induction cats as [|cat rest IH]; intros st Hsub; cbn.
  - intros [= <-]. split; [reflexivity|]. split; [intros ? []|reflexivity].
  - destruct (Frame.column df cat) as [col|] eqn:Hcol; [|discriminate].
    intros Hrun. apply IH in Hrun as (Htot & Hin & Hout);
      [|intros; apply Hsub; right; assumption].
    destruct (column_have df cat col Hdf (Hsub cat (or_introl eq_refl)) Hcol)
      as [Hlen Hcells].
    cbn in Htot, Hout. split; [exact Htot|]. split.
    + intros category [<-|Hrest]; [|exact (Hin category Hrest)].
      destruct (in_dec String.string_dec cat rest) as [Hr|Hr];
        [exact (Hin cat Hr)|].
      rewrite (Hout cat Hr), lookup_insert_eq. eexists. split; [reflexivity|].
      cbn. rewrite value_count_have by exact Hcells. lia.
    + intros category Hnot. rewrite Hout by tauto.
      apply lookup_insert_ne. intros ->. apply Hnot. left. reflexivity.
Qed.

(** A run of counts.py that completes has processed every record of
    the collection and reports, for every feature, a "have" and a
    "have not" count that add up to the records processed. *)
Lemma counts_totals (collection : list value) (st : Counts.stats) :
  Counts.main collection = (st, None) →
  Counts.total_processed st = Z.of_nat (List.length collection)
  ∧ ∀ category, In category Counts.categories →
      ∃ t, Counts.by_category st !! category = Some t
           ∧ Counts.have t + Counts.have_not t = Counts.total_processed st.
Proof.
  unfold Counts.main, Counts.process_batch. rewrite read_all_mapM.
  destruct (mapM _ _) as [all_results|] eqn:Hread; [|discriminate].
  intros Hrun.
  assert (Hdf : Forall have_row all_results).
  { eapply mapM_res_Forall; [exact counts_row_shape|exact Hread]. }
  destruct (count_categories_totals (Frame.DataFrame all_results) _ _ _
              Hdf (λ _ H, H) Hrun)
    as (Htot & Hin & _).
  cbn in Htot. split.
  - rewrite Htot. unfold Frame.length. cbn.
    rewrite (mapM_res_length _ _ _ Hread). reflexivity.
  - intros category Hcat. destruct (Hin category Hcat) as (t & Ht & Hsum).
    exists t. split; [exact Ht|]. rewrite Htot. exact Hsum.
Qed.

Example counts_totals_on_two_records :
  ∃ st, Counts.main [Sample.ends_2024; VDict []] = (st, None)
        ∧ Counts.total_processed st = 2
        ∧ Counts.by_category st !! "skills"
          = Some {| Counts.have := 1; Counts.have_not := 1 |}.
Proof. eexists. split; [reflexivity|]. split; vm_compute; reflexivity. Qed.

(** Every row of the per-college report balances: for each feature the
    "Have" and "No" counts add up to the students of the college. *)
Lemma college_rows_balance (collection : list value)
  (rows : list college_summary) :
  CollegeCounts.main collection = Ok rows →
  Forall (λ r, Have_Projects r + No_Projects r = Total_Students r
             ∧ Have_Experience r + No_Experience r = Total_Students r
             ∧ Have_Achievements r + No_Achievements r = Total_Students r
             ∧ Have_Skills r + No_Skills r = Total_Students r
             ∧ Have_Grade r + No_Grade r = Total_Students r) rows.
Proof.
  unfold CollegeCounts.main.
  destruct (Paging.read_all _ _) as [all_results|]; cbn; [|discriminate].
  set (df := Frame.DataFrame all_results).
  destruct (Frame.column df "college_name") as [names|]; cbn; [|discriminate].
  apply mapM_res_Forall. intros college r. unfold summarize.
  set (college_df := Frame.select df "college_name" college).
  destruct (Frame.column college_df "has_projects"); cbn; [|discriminate].
  destruct (Frame.column college_df "has_experience"); cbn; [|discriminate].
  destruct (Frame.column college_df "has_achievements"); cbn; [|discriminate].
  destruct (Frame.column college_df "has_skills"); cbn; [|discriminate].
  destruct (Frame.column college_df "has_grade"); cbn; [|discriminate].
  intros [= <-]. cbn. lia.
Qed.

(** C3 on the empty collection.  No batch is read, the frame built from
    no row has no column, and the first column access raises KeyError:
    counts.py leaves its totals at zero and college_counts.py has no
    rows, and neither writes its report. *)
Theorem empty_collection_raises_KeyError :
  Counts.main [] = (Counts.initial_stats, Some KeyError)
  ∧ CollegeCounts.main [] = Raise KeyError.
Proof. split; reflexivity. Qed.

(** ** Percentages *)

(** The guarded helper of education_count.py never raises, and gives 0
    when the denominator is not positive. *)
Lemma safe_percentage_guarded (num denom : Z) :
  ∃ q, safe_percentage num denom = Ok q ∧ (denom <= 0 → q = 0%Q).
Proof.
  unfold safe_percentage, truediv. destruct (Z.ltb_spec 0 denom).
  - destruct (Z.eqb_spec denom 0); [lia|]. eexists. split; [reflexivity|lia].
  - exists 0%Q. split; [reflexivity|reflexivity].
Qed.

(** The unguarded divisions raise on a zero count of records whatever
    the counters hold. *)
Lemma unguarded_percentages_raise (skill_categories : gmap string Z)
  (total : NoSkill.counters) :
  Skill.percentages skill_categories 0 = Raise ZeroDivisionError
  ∧ NoSkill.breakdown total 0 = Raise ZeroDivisionError.
Proof. split; reflexivity. Qed.

(** C6 on the empty collection.  skill.py and no_skill.py divide by the
    number of records without a guard, so their summaries end in
    ZeroDivisionError; education_count.py, which goes through
    [safe_percentage], completes with all shares at 0. *)
Theorem empty_collection_divides_by_zero :
  Skill.main [] = Raise ZeroDivisionError
  ∧ (∀ str resume_dict, NoSkill.main str [] resume_dict = Raise ZeroDivisionError)
  ∧ (∃ s, EducationCount.main [] = Ok s
          ∧ shares s = [0%Q; 0%Q; 0%Q; 0%Q; 0%Q; 0%Q]).
Proof.
  split; [reflexivity|]. split; [intros; reflexivity|].
  eexists. split; reflexivity.
Qed.

(** ** Strings of the importer *)

Import SkillFromResume.

Lemma lower_char_idem (c : ascii) :
  Str.lower_char (Str.lower_char c) = Str.lower_char c.
Proof. destruct c as [[] [] [] [] [] [] [] []]; reflexivity. Qed.

Lemma isspace_lower_char (c : ascii) :
  Str.isspace (Str.lower_char c) = Str.isspace c.
Proof. destruct c as [[] [] [] [] [] [] [] []]; reflexivity. Qed.

Lemma comma_lower_char (c : ascii) :
  Ascii.eqb (Str.lower_char c) "," = Ascii.eqb c ",".
Proof. destruct c as [[] [] [] [] [] [] [] []]; reflexivity. Qed.

Lemma lower_idem (s : string) : Str.lower (Str.lower s) = Str.lower s.
Proof.
  induction s as [|c s IH]; [reflexivity|].
  simpl. rewrite lower_char_idem, IH. reflexivity.
Qed.

Lemma lower_lstrip (s : string) :
  Str.lower (Str.lstrip s) = Str.lstrip (Str.lower s).
Proof.
  induction s as [|c s IH]; [reflexivity|].
  simpl. rewrite isspace_lower_char. destruct (Str.isspace c); auto.
Qed.

Lemma lower_rstrip (s : string) :
  Str.lower (Str.rstrip s) = Str.rstrip (Str.lower s).
Proof.
  induction s as [|c s IH]; [reflexivity|].
  simpl. rewrite <- IH, isspace_lower_char.
  destruct (Str.rstrip s); simpl; [destruct (Str.isspace c)|]; reflexivity.
Qed.

Lemma lower_strip (s : string) :
  Str.lower (Str.strip s) = Str.strip (Str.lower s).
Proof. unfold Str.strip. rewrite lower_lstrip, lower_rstrip. reflexivity. Qed.

Lemma nonempty_lower (s : string) :
  Str.nonempty (Str.lower s) = Str.nonempty s.
Proof. destruct s; reflexivity. Qed.

Lemma has_comma_lower (s : string) :
  Spec.has_comma (Str.lower s) = Spec.has_comma s.
Proof.
  induction s as [|c s IH]; [reflexivity|].
  simpl. rewrite comma_lower_char, IH. reflexivity.
Qed.

Lemma lstrip_idem (s : string) : Str.lstrip (Str.lstrip s) = Str.lstrip s.
Proof.
  induction s as [|c s IH]; [reflexivity|].
  simpl. destruct (Str.isspace c) eqn:E; [exact IH|].
  simpl. rewrite E. reflexivity.
Qed.

Lemma rstrip_idem (s : string) : Str.rstrip (Str.rstrip s) = Str.rstrip s.
Proof.
  induction s as [|c s IH]; [reflexivity|].
  simpl. destruct (Str.rstrip s) as [|c' s'] eqn:E.
  - destruct (Str.isspace c) eqn:Ec; [reflexivity|].
    simpl. rewrite Ec. reflexivity.
  - change (Str.rstrip (String c (String c' s')) = String c (String c' s')).
    cbn [Str.rstrip] in *. rewrite IH. reflexivity.
Qed.

(** What is left of a right-stripped string after its leading spaces
    are dropped is still right-stripped. *)
Lemma rstrip_lstrip_fixed (u : string) :
  Str.rstrip u = u → Str.rstrip (Str.lstrip u) = Str.lstrip u.
Proof.
  induction u as [|c u IH]; [reflexivity|].
  intros Hfix. simpl. destruct (Str.isspace c) eqn:Ec; [|exact Hfix].
  apply IH. simpl in Hfix. rewrite Ec in Hfix.
  destruct (Str.rstrip u); [discriminate|]. congruence.
Qed.

Lemma strip_idem (s : string) : Str.strip (Str.strip s) = Str.strip s.
Proof.
  unfold Str.strip.
  rewrite (rstrip_lstrip_fixed _ (rstrip_idem s)). apply lstrip_idem.
Qed.

Lemma has_comma_lstrip (s : string) :
  Spec.has_comma s = false → Spec.has_comma (Str.lstrip s) = false.
Proof.
  induction s as [|c s IH]; [reflexivity|].
  simpl. intros [Hc Hs]%orb_false_elim.
  destruct (Str.isspace c); [auto|]. simpl. rewrite Hc, Hs. reflexivity.
Qed.

Lemma has_comma_rstrip (s : string) :
  Spec.has_comma s = false → Spec.has_comma (Str.rstrip s) = false.
Proof.
  induction s as [|c s IH]; [reflexivity|].
  simpl. intros [Hc Hs]%orb_false_elim. specialize (IH Hs).
  destruct (Str.rstrip s).
  - destruct (Str.isspace c); simpl; rewrite ?Hc; reflexivity.
  - simpl in *. rewrite Hc. exact IH.
Qed.

Lemma split_comma_no_comma (s tok : string) :
  In tok (Str.split_comma s) → Spec.has_comma tok = false.
Proof.
  revert tok. induction s as [|c s IH]; intros tok; simpl.
  - intros [<-|[]]. reflexivity.
  - destruct (Ascii.eqb c ",") eqn:Ec.
    + intros [<-|Hin]; [reflexivity|auto].
    + destruct (Str.split_comma s) as [|tok0 toks].
      * intros [<-|[]]. simpl. rewrite Ec. reflexivity.
      * intros [<-|Hin].
        -- simpl. rewrite Ec. apply IH. left. reflexivity.
        -- apply IH. right. exact Hin.
Qed.

Lemma filter_map_comm {A B : Type} (p : B → bool) (g : A → B) (l : list A) :
  List.filter p (map g l) = map g (List.filter (λ x, p (g x)) l).
Proof.
  induction l as [|x l IH]; [reflexivity|].
  simpl. destruct (p (g x)); simpl; rewrite IH; reflexivity.
Qed.

(** The list the importer builds is the list the specification words:
    the tokens between commas, trimmed and lower-cased, the empty ones
    dropped, each as an entry with the default rating. *)
Lemma skills_array_import_tokens (skills_string : string) :
  skills_array skills_string
  = map Spec.default_entry (Spec.import_tokens skills_string).
Proof.
  unfold skills_array, skill_names, Spec.import_tokens.
  rewrite filter_map_comm, !map_map.
  erewrite filter_ext; [reflexivity|].
  intros tok. cbn. rewrite nonempty_lower. reflexivity.
Qed.

Lemma import_tokens_clean (skills_string name : string) :
  In name (Spec.import_tokens skills_string) →
  name ≠ ""
  ∧ Str.strip name = name
  ∧ Str.lower name = name
  ∧ Spec.has_comma name = false.
Proof.
  unfold Spec.import_tokens. intros [Hin Hne]%filter_In.
  apply in_map_iff in Hin as (tok & <- & Htok).
  split; [|split; [|split]].
  - intros E. rewrite E in Hne. discriminate.
  - rewrite <- lower_strip, strip_idem. reflexivity.
  - apply lower_idem.
  - rewrite has_comma_lower. unfold Str.strip.
    apply has_comma_lstrip, has_comma_rstrip.
    exact (split_comma_no_comma _ _ Htok).
Qed.

(** C5, as the code has it.  "Python, python, SQL," imports as three
    entries, python, python and sql: the repeated token is kept, the
    empty one dropped.  For every skill string the entries are the tokens
    between commas, trimmed and lower-cased, without the empty ones, in
    order; each entry has a non-empty name with no comma, no space at
    either end and no upper-case letter, the rating 2 and empty
    sub-fields. *)
Theorem skills_array_tokens (skills_string : string) :
  skills_array "Python, python, SQL,"
  = [Spec.default_entry "python"; Spec.default_entry "python";
     Spec.default_entry "sql"]
  ∧ skills_array skills_string
    = map Spec.default_entry (Spec.import_tokens skills_string)
  ∧ ∀ e, In e (skills_array skills_string) →
      ∃ name, e = VDict [("name", VStr name); ("rating", VInt 2);
                         ("composite", VNone); ("versions", VList [])]
              ∧ name ≠ ""
              ∧ Str.strip name = name
              ∧ Str.lower name = name
              ∧ Spec.has_comma name = false.
Proof.
  split; [reflexivity|]. split; [apply skills_array_import_tokens|].
  intros e. rewrite skills_array_import_tokens.
  intros (name & <- & Hname)%in_map_iff.
  exists name. split; [reflexivity|].
  exact (import_tokens_clean _ _ Hname).
Qed.

(** White space and capitals beyond ASCII: a no-break space around a
    token is trimmed like a space, and a capital with an accent is
    lower-cased (U+00C9 to U+00E9). *)
Example no_break_space_is_trimmed :
  skills_array (String.append "Python," (String (ascii_of_N 160) "SQL"))
  = [Spec.default_entry "python"; Spec.default_entry "sql"]
  ∧ Str.lower (String (ascii_of_N 201) "COLE")
    = String (ascii_of_N 233) "cole".
Proof. split; reflexivity. Qed.

(** C5, as stated, fails on its own scenario: the list has three
    entries, not two, because the second "python" is not collapsed into
    the first. *)
Lemma scenario_E_keeps_duplicate :
  List.length (skills_array "Python, python, SQL,") ≠ 2%nat
  ∧ skills_array "Python, python, SQL,"
    ≠ [Spec.default_entry "python"; Spec.default_entry "sql"].
Proof. split; discriminate. Qed.

(** ** Rows of the importer *)

Lemma process_rows_app (rows1 rows2 : list row) (st : run) :
  process_rows (rows1 ++ rows2) st = process_rows rows2 (process_rows rows1 st).
Proof. unfold process_rows. apply fold_left_app. Qed.

(** A row with skills to import and an identifier the driver refuses
    fails in the [try], whatever the store holds. *)
Lemma malformed_id_fails (coll : gmap (list N) (list (string * value))) (r : row)
  (s : string) (e : exn) :
  skills r = CText s → Str.nonempty (Str.strip s) = true →
  ObjectId (student_id r) = Raise e →
  try_row coll r = Raise e.
Proof.
  intros Hs Hne Hid. unfold try_row. rewrite Hs. cbn. rewrite Hne. cbn.
  rewrite Hid. reflexivity.
Qed.

(** Each row moves at most one of the two counters, by one. *)
Lemma step_counts (st : run) (r : row) :
  (update_count (step st r) = update_count st
   ∧ error_count (step st r) = error_count st)
  ∨ (update_count (step st r) = update_count st + 1
     ∧ error_count (step st r) = error_count st)
  ∨ (update_count (step st r) = update_count st
     ∧ error_count (step st r) = error_count st + 1).
Proof.
  unfold step. destruct (try_row (collection st) r) as [[coll' updated]|e].
  - destruct updated; cbn; auto.
  - cbn. auto.
Qed.

Lemma process_rows_counts (rows : list row) (st : run) :
  update_count st <= update_count (process_rows rows st)
  ∧ error_count st <= error_count (process_rows rows st)
  ∧ update_count (process_rows rows st) + error_count (process_rows rows st)
    <= update_count st + error_count st + Z.of_nat (List.length rows).
Proof.
  revert st. induction rows as [|r rows IH]; intros st.
  - cbn. lia.
  - change (process_rows (r :: rows) st) with (process_rows rows (step st r)).
    specialize (IH (step st r)). pose proof (step_counts st r).
    cbn [List.length]. lia.
Qed.

(** On a row with both cells a turn of the loop is [step], and it binds
    [student_id]. *)
Lemma turn_to_series (l : locals) (r : row) :
  turn l (to_series r)
  = Ok {| counts := step (counts l) r;
          student_id_local := Some (student_id r) |}.
Proof.
  unfold turn, try_series, row_item, to_series.
  rewrite lookup_insert_eq.
  rewrite lookup_insert_ne by discriminate. rewrite lookup_insert_eq.
  cbn [mbind res_bind Py.bind]. unfold step.
  destruct r as [c k].
  cbn [SkillFromResume.student_id SkillFromResume.skills].
  destruct (try_row (collection (counts l)) {| student_id := c; skills := k |})
    as [[coll' updated]|e]; reflexivity.
Qed.

Lemma iterrows_loop_to_series (df : list row) (l : locals) :
  iterrows_loop (map to_series df) l = Completed (process_rows df (counts l)).
Proof.
  revert l. induction df as [|r df IH]; intros l; [reflexivity|].
  cbn [map iterrows_loop]. rewrite turn_to_series, IH. reflexivity.
Qed.

(** On a frame with both columns the importer runs to its closing
    message, with the store and counts of [process_skills_csv_to_mongodb]. *)
Lemma process_frame_to_series (coll : gmap (list N) (list (string * value)))
  (df : list row) :
  process_frame coll (map to_series df)
  = Completed (process_skills_csv_to_mongodb coll df).
Proof. unfold process_frame. rewrite iterrows_loop_to_series. reflexivity. Qed.

(** A turn that finds [student_id] bound, or binds it, stays in the
    loop; a failure in the [try] then costs one error and nothing
    else. *)
Lemma turn_bound (l : locals) (row : gmap string cell) :
  is_Some (student_id_local l) ∨ is_Some (row !! "student_id") →
  ∃ l', turn l row = Ok l'
        ∧ is_Some (student_id_local l')
        ∧ update_count (counts l) <= update_count (counts l')
        ∧ error_count (counts l) <= error_count (counts l')
        ∧ (raises (try_series (collection (counts l)) row).2 = true →
           collection (counts l') = collection (counts l)
           ∧ update_count (counts l') = update_count (counts l)
           ∧ error_count (counts l') = error_count (counts l) + 1).
Proof.
  intros Hbound. unfold turn, try_series, row_item.
  destruct (row !! "student_id") as [c|] eqn:Hid.
  - cbn [snd].
    destruct (_ ← _; _) as [[coll' updated]|e].
    + eexists. split; [reflexivity|]. cbn. split; [eauto|].
      destruct updated; repeat split; try lia; discriminate.
    + eexists. split; [reflexivity|]. cbn. split; [eauto|].
      repeat split; lia.
  - destruct Hbound as [[c Hc]|[c Hc]]; [|discriminate].
    rewrite Hc. eexists. split; [reflexivity|]. cbn. split; [eauto|].
    repeat split; lia.
Qed.

Lemma iterrows_loop_bound (df : list (gmap string cell)) (l : locals) :
  is_Some (student_id_local l) →
  ∃ final, iterrows_loop df l = Completed final
           ∧ update_count (counts l) <= update_count final
           ∧ error_count (counts l) <= error_count final.
Proof.
  revert l. induction df as [|row df IH]; intros l Hbound.
  - exists (counts l). cbn. repeat split; lia.
  - destruct (turn_bound l row (or_introl Hbound))
      as (l' & Hturn & Hbound' & Hu & He & _).
    destruct (IH l' Hbound') as (final & Hrun & Hu' & He').
    exists final. cbn [iterrows_loop]. rewrite Hturn.
    repeat split; [exact Hrun|lia|lia].
Qed.

(** C7, as the code has it on a frame without a [student_id] column.
    Line 29 fails on the first row with KeyError before it binds
    [student_id]; the handler adds one to the error count and then
    formats [student_id] into its message, which raises
    UnboundLocalError.  That exception leaves the loop: the rows after
    the first are never read, the function ends in its outer handler,
    and no count is reported.  The store is left as it was. *)
Theorem missing_student_id_aborts_import
  (coll : gmap (list N) (list (string * value))) (row : gmap string cell)
  (rest : list (gmap string cell)) :
  row !! "student_id" = None →
  (try_series coll row).2 = Raise KeyError
  ∧ turn {| counts := {| collection := coll; update_count := 0;
                         error_count := 0 |};
            student_id_local := None |} row
    = Raise UnboundLocalError
  ∧ process_frame coll (row :: rest) = Aborted UnboundLocalError coll
  ∧ ∀ final, process_frame coll (row :: rest) ≠ Completed final.
Proof.
  intros Hid.
  assert (Hturn : turn {| counts := {| collection := coll; update_count := 0;
                                       error_count := 0 |};
                          student_id_local := None |} row
                  = Raise UnboundLocalError).
  { unfold turn, try_series, row_item. cbn [counts collection].
    rewrite Hid. reflexivity. }
  split; [unfold try_series, row_item; rewrite Hid; reflexivity|].
  split; [exact Hturn|].
  unfold process_frame. cbn [iterrows_loop]. rewrite Hturn.
  split; [reflexivity|discriminate].
Qed.

Lemma missing_student_id_aborts_import_witness :
  process_frame
    {[ [0; 0; 0; 0; 0; 0; 0; 0; 0; 0; 0; 1]%N := [("skills", VNone)] ]}
    [ {[ "skills" := CText "Python, SQL" ]};
      {[ "skills" := CText "Java" ]} ]
  = Aborted UnboundLocalError
      {[ [0; 0; 0; 0; 0; 0; 0; 0; 0; 0; 0; 1]%N := [("skills", VNone)] ]}.
Proof.
  apply (missing_student_id_aborts_import
           {[ [0; 0; 0; 0; 0; 0; 0; 0; 0; 0; 0; 1]%N := [("skills", VNone)] ]}
           {[ "skills" := CText "Python, SQL" ]}
           [ {[ "skills" := CText "Java" ]} ]).
  reflexivity.
Defined.




(* ===================================================================== *)
(** * Further properties of the scripts *)
(* ===================================================================== *)

(** ** Equality of stored values *)

Lemma value_eqb_list (l m : list value) :
  Frame.value_eqb (VList l) (VList m) = all2 Frame.value_eqb l m.
Proof.
  revert m. induction l as [|x l IH]; intros [|y m]; try reflexivity.
  cbn [all2]. rewrite <- IH. reflexivity.
Qed.

Lemma value_eqb_dict (d e : list (string * value)) :
  Frame.value_eqb (VDict d) (VDict e) = all2 item_eqb d e.
Proof.
  revert e. induction d as [|[k x] d IH]; intros [|[k' y] e]; try reflexivity.
  cbn [all2]. rewrite <- IH. reflexivity.
Qed.

Lemma all2_refl {A : Type} (f : A → A → bool) (l : list A) :
  Forall (λ x, f x x = true) l → all2 f l l = true.
Proof. induction 1 as [|x l Hx _ IH]; cbn; [reflexivity|]. rewrite Hx, IH. reflexivity. Qed.

Lemma all2_sym {A : Type} (f : A → A → bool) (l m : list A) :
  Forall (λ x, ∀ y, f x y = f y x) l → all2 f l m = all2 f m l.
Proof.
  intros H. revert m. induction H as [|x l Hx _ IH]; intros [|y m]; cbn;
    try reflexivity.
  rewrite Hx, IH. reflexivity.
Qed.

Lemma all2_trans {A : Type} (f : A → A → bool) (l m n : list A) :
  Forall (λ x, ∀ y z, f x y = true → f y z = true → f x z = true) l →
  all2 f l m = true → all2 f m n = true → all2 f l n = true.
Proof.
  intros H. revert m n.
  induction H as [|x l Hx _ IH]; intros [|y m] [|z n]; cbn; try discriminate;
    auto.
  intros [H1 H2]%andb_prop [H3 H4]%andb_prop.
  rewrite (Hx y z H1 H3), (IH m n H2 H4). reflexivity.
Qed.

Lemma value_eqb_refl (v : value) : Frame.value_eqb v v = true.
Proof.
  induction v as [|b|n|q|s|oid|l IH|d IH] using value_nested_ind; cbn.
  - reflexivity.
  - destruct b; reflexivity.
  - apply Z.eqb_refl.
  - apply Qeq_bool_refl.
  - apply String.eqb_refl.
  - apply N.eqb_refl.
  - change (Frame.value_eqb (VList l) (VList l) = true).
    rewrite value_eqb_list. apply all2_refl, IH.
  - change (Frame.value_eqb (VDict d) (VDict d) = true).
    rewrite value_eqb_dict. apply all2_refl.
    eapply Forall_impl; [exact IH|]. intros [k x] Hx. unfold item_eqb. cbn.
    rewrite String.eqb_refl. exact Hx.
Qed.

Lemma value_eqb_sym (v w : value) : Frame.value_eqb v w = Frame.value_eqb w v.
Proof.
  revert w.
  induction v as [|b|n|q|s|oid|l IH|d IH] using value_nested_ind;
    intros [|b'|n'|q'|s'|oid'|l'|d']; try reflexivity.
  - cbn. destruct b, b'; reflexivity.
  - cbn. apply Z.eqb_sym.
  - cbn. destruct (Qeq_bool q q') eqn:E1, (Qeq_bool q' q) eqn:E2; auto.
    + apply Qeq_bool_sym in E1. congruence.
    + apply Qeq_bool_sym in E2. congruence.
  - cbn. apply String.eqb_sym.
  - cbn. apply N.eqb_sym.
  - rewrite !value_eqb_list. apply all2_sym, IH.
  - rewrite !value_eqb_dict. apply all2_sym.
    eapply Forall_impl; [exact IH|]. intros [k x] Hx [k' y]. unfold item_eqb.
    cbn in *. rewrite String.eqb_sym, Hx. reflexivity.
Qed.

Lemma value_eqb_trans (u v w : value) :
  Frame.value_eqb u v = true → Frame.value_eqb v w = true →
  Frame.value_eqb u w = true.
Proof.
  revert v w.
  induction u as [|b|n|q|s|oid|l IH|d IH] using value_nested_ind;
    intros [|b'|n'|q'|s'|oid'|l'|d'] [|b''|n''|q''|s''|oid''|l''|d''];
    try discriminate; try (intros _; discriminate); auto.
  - cbn. destruct b, b', b''; auto.
  - cbn. intros ->%Z.eqb_eq. auto.
  - cbn. apply Qeq_bool_trans.
  - cbn. intros ->%String.eqb_eq. auto.
  - cbn. intros ->%N.eqb_eq. auto.
  - rewrite !value_eqb_list. apply all2_trans, IH.
  - rewrite !value_eqb_dict. apply all2_trans.
    eapply Forall_impl; [exact IH|]. intros [k x] Hx [k' y] [k'' z].
    unfold item_eqb. cbn in *.
    intros [->%String.eqb_eq H1]%andb_prop [->%String.eqb_eq H2]%andb_prop.
    rewrite String.eqb_refl, (Hx y z H1 H2). reflexivity.
Qed.

(** ** The importer: what a row does to the store *)

Lemma set_item_idem (k : string) (v : value) (d : list (string * value)) :
  set_item k v (set_item k v d) = set_item k v d.
Proof.
  induction d as [|[k' v'] d IH]; cbn.
  - rewrite String.eqb_refl. reflexivity.
  - destruct (String.eqb k k') eqn:E; cbn.
    + rewrite String.eqb_refl. reflexivity.
    + rewrite E, IH. reflexivity.
Qed.

(** The two outcomes of the [try] that do not raise. *)
Lemma try_row_ok (coll coll' : gmap (list N) (list (string * value))) (r : row)
  (updated : bool) :
  try_row coll r = Ok (coll', updated) →
  (updated = false ∧ coll' = coll)
  ∨ (updated = true
     ∧ ∃ s oid doc,
         skills r = CText s
         ∧ Str.nonempty (Str.strip s) = true
         ∧ ObjectId (student_id r) = Ok oid
         ∧ coll !! oid = Some doc
         ∧ Frame.value_eqb (VDict doc)
             (VDict (set_item "skills" (VList (skills_array s)) doc)) = false
         ∧ coll' = <[oid := set_item "skills" (VList (skills_array s)) doc]> coll).
Proof.
  unfold try_row. destruct (skills r) as [|s|n] eqn:Hs; cbn.
  - intros [= <- <-]. left. auto.
  - destruct (Str.nonempty (Str.strip s)) eqn:Hne; cbn.
    + destruct (ObjectId (student_id r)) as [oid|] eqn:Hid; cbn; [|discriminate].
      unfold update_one. destruct (coll !! oid) as [doc|] eqn:Hdoc.
      * destruct (Frame.value_eqb _ _) eqn:Heq; cbn.
        -- intros [= <- <-]. left. auto.
        -- intros [= <- <-]. right. split; [reflexivity|].
           exists s, oid, doc. auto 10.
      * cbn. intros [= <- <-]. left. auto.
    + intros [= <- <-]. left. auto.
  - discriminate.
Qed.

(** X1. One turn of the import loop either leaves the store and the
    update count as they were, or rewrites exactly one document: the one
    the row's identifier names gets the row's skill list as its whole
    "skills" field, keeps every other field, really differs from before,
    and the update count grows by one while the error count stays.  No
    other document is touched. *)
Theorem import_step_rewrites_one_skills_field (st : run) (r : row) :
  (collection (step st r) = collection st
   ∧ update_count (step st r) = update_count st)
  ∨ ∃ s oid doc doc',
      skills r = CText s
      ∧ ObjectId (student_id r) = Ok oid
      ∧ collection st !! oid = Some doc
      ∧ collection (step st r) !! oid = Some doc'
      ∧ doc' ≠ doc
      ∧ lookup_item "skills" doc' = Some (VList (skills_array s))
      ∧ (∀ k, k ≠ "skills" → lookup_item k doc' = lookup_item k doc)
      ∧ (∀ oid', oid' ≠ oid →
           collection (step st r) !! oid' = collection st !! oid')
      ∧ update_count (step st r) = update_count st + 1
      ∧ error_count (step st r) = error_count st.
Proof.
  unfold step. destruct (try_row (collection st) r) as [[coll' updated]|e] eqn:Htry.
  - apply try_row_ok in Htry
      as [[-> ->]|[-> (s & oid & doc & Hs & _ & Hid & Hdoc & Hneq & ->)]].
    + left. auto.
    + right. exists s, oid, doc, (set_item "skills" (VList (skills_array s)) doc).
      cbn. split; [exact Hs|]. split; [exact Hid|]. split; [exact Hdoc|].
      split; [apply lookup_insert_eq|]. split.
      { intros E. rewrite E, value_eqb_refl in Hneq. discriminate. }
      split; [apply lookup_set_item_eq|].
      split; [intros k Hk; apply lookup_set_item_ne; congruence|].
      split; [intros oid' Hne; apply lookup_insert_ne; congruence|].
      auto.
  - left. auto.
Qed.

(** X2. Importing a row a second time changes nothing more: the store
    and the update count after two turns on the same row are those after
    one.  (A failing row is counted as an error each time.) *)
Theorem import_step_twice (st : run) (r : row) :
  collection (step (step st r) r) = collection (step st r)
  ∧ update_count (step (step st r) r) = update_count (step st r).
Proof.
  assert (Hsame : ∀ st', try_row (collection st') r = Ok (collection st', false) →
            collection (step st' r) = collection st'
            ∧ update_count (step st' r) = update_count st').
  { intros st' H. unfold step. rewrite H. auto. }
  destruct (try_row (collection st) r) as [[coll' updated]|e] eqn:Htry.
  - destruct (try_row_ok _ _ _ _ Htry)
      as [[-> ->]|[-> (s & oid & doc & Hs & Hne & Hid & Hdoc & Hneq & ->)]].
    + apply Hsame. unfold step at 1 2. rewrite Htry. exact Htry.
    + apply Hsame. unfold step at 1 2. rewrite Htry. cbn [collection].
      unfold try_row. rewrite Hs. cbn. rewrite Hne. cbn. rewrite Hid. cbn.
      unfold update_one. rewrite lookup_insert_eq, set_item_idem, value_eqb_refl.
      reflexivity.
  - assert (Hstep : step st r = {| collection := collection st;
                                   update_count := update_count st;
                                   error_count := error_count st + 1 |}).
    { unfold step. rewrite Htry. reflexivity. }
    rewrite Hstep. unfold step. cbn [collection]. rewrite Htry. auto.
Qed.

(** X3. The two counts the importer reports start at zero, never go
    down, and together never exceed the number of rows read. *)
Theorem import_counts_bounded (coll : gmap (list N) (list (string * value)))
  (df : list row) :
  let final := process_skills_csv_to_mongodb coll df in
  0 <= update_count final
  ∧ 0 <= error_count final
  ∧ update_count final + error_count final <= Z.of_nat (List.length df).
Proof.
  cbn. unfold process_skills_csv_to_mongodb.
  pose proof (process_rows_counts df
                {| collection := coll; update_count := 0; error_count := 0 |})
    as (H1 & H2 & H3).
  cbn in *. lia.
Qed.

(** ** The importer: a cell of separators *)

Lemma has_comma_lstrip_eq (s : string) :
  Spec.has_comma (Str.lstrip s) = Spec.has_comma s.
Proof.
  induction s as [|c s IH]; [reflexivity|].
  cbn. destruct (Str.isspace c) eqn:Ec; [|reflexivity].
  rewrite IH. destruct (Ascii.eqb_spec c ","); [subst; discriminate|reflexivity].
Qed.

Lemma has_comma_rstrip_eq (s : string) :
  Spec.has_comma (Str.rstrip s) = Spec.has_comma s.
Proof.
  induction s as [|c s IH]; [reflexivity|].
  cbn. destruct (Str.rstrip s) as [|c' s'].
  - cbn in IH. rewrite <- IH.
    destruct (Str.isspace c) eqn:Ec; cbn.
    + destruct (Ascii.eqb_spec c ","); [subst; discriminate|reflexivity].
    + rewrite orb_false_r. reflexivity.
  - cbn in *. rewrite IH. reflexivity.
Qed.

Lemma rstrip_all_space (s : string) :
  all_space s = true → Str.rstrip s = "".
Proof.
  induction s as [|c s IH]; [reflexivity|].
  cbn. intros [Hc Hs]%andb_prop. rewrite (IH Hs), Hc. reflexivity.
Qed.

Lemma split_comma_all_space (s tok : string) :
  only_separators s = true → In tok (Str.split_comma s) →
  all_space tok = true.
Proof.
  revert tok. induction s as [|c s IH]; intros tok; cbn.
  - intros _ [<-|[]]. reflexivity.
  - intros [Hc Hs]%andb_prop. specialize (λ t, IH t Hs).
    destruct (Ascii.eqb c ",") eqn:Ec.
    + intros [<-|Hin]; [reflexivity|auto].
    + cbn in Hc. destruct (Str.split_comma s) as [|tok0 toks].
      * intros [<-|[]]. cbn. rewrite Hc. reflexivity.
      * intros [<-|Hin].
        -- cbn. rewrite Hc. apply IH. left. reflexivity.
        -- apply IH. right. exact Hin.
Qed.

(** X4. A skills cell made only of commas and white space, with at
    least one comma, is not taken for blank: the row goes on to the
    update, and the list it writes is empty. *)
Theorem separators_only_cell_imports_nothing (s : string) :
  only_separators s = true → Spec.has_comma s = true →
  no_skills_data (CText s) = Ok false ∧ skills_array s = [].
Proof.
  intros Hsep Hcomma. split.
  - cbn. f_equal.
    assert (H : Spec.has_comma (Str.strip s) = true).
    { unfold Str.strip. rewrite has_comma_lstrip_eq, has_comma_rstrip_eq.
      exact Hcomma. }
    destruct (Str.strip s); [discriminate|reflexivity].
  - unfold skills_array, skill_names.
    assert (Hall : ∀ tok, In tok (Str.split_comma s) →
                          Str.nonempty (Str.strip tok) = false).
    { intros tok Hin. unfold Str.strip.
      rewrite (rstrip_all_space _ (split_comma_all_space _ _ Hsep Hin)).
      reflexivity. }
    induction (Str.split_comma s) as [|tok toks IH]; [reflexivity|].
    cbn [List.filter]. rewrite (Hall tok (or_introl eq_refl)). apply IH.
    intros t Ht. apply Hall. right. exact Ht.
Qed.

Lemma separators_only_cell_imports_nothing_witness :
  no_skills_data (CText ", ,") = Ok false ∧ skills_array ", ," = [].
Proof.
  apply (separators_only_cell_imports_nothing ", ,"); reflexivity.
Defined.

(** ** The reports on well-formed and on ill-formed collections *)

Lemma mapM_res_ok {A B : Type} (f : A → res B) (l : list A) :
  Forall (λ x, ∃ r, f x = Ok r) l → ∃ rs, mapM f l = Ok rs.
Proof.
  induction 1 as [|x l [r Hr] _ [rs IH]]; [exists []; reflexivity|].
  exists (r :: rs). cbn. rewrite Hr. cbn. rewrite IH. reflexivity.
Qed.

Lemma mapM_res_raises {A B : Type} (f : A → res B) (l : list A) (x : A) :
  In x l → raises (f x) = true → raises (mapM f l) = true.
Proof.
  induction l as [|y l IH]; [intros []|].
  intros [->|Hin] Hx; cbn.
  - destruct (f x); [discriminate|reflexivity].
  - destruct (f y); [|reflexivity]. cbn.
    specialize (IH Hin Hx). destruct (mapM f l); [discriminate|reflexivity].
Qed.

Lemma has_items_wf (d : list (string * value)) (k : string) :
  Spec.well_formed (VDict d) = true → In k Spec.measured →
  ∃ b, Features.has_items (VDict d) k = Ok b.
Proof.
  intros Hwf Hin. rewrite has_items_reads. apply has_items_ok.
  exact (well_formed_collection d k Hwf Hin).
Qed.

Lemma counts_analyze_ok (student : value) :
  Spec.well_formed student = true →
  ∃ result, Counts.analyze_student_record student = Ok result.
Proof.
  intros Hwf. unfold Counts.analyze_student_record.
  destruct (has_performance_ok _ Hwf) as [g ->].
  destruct student as [| | | | | | |d]; try discriminate.
  destruct (has_items_wf d "projects" Hwf) as [? ->]; [simpl; tauto|].
  destruct (has_items_wf d "work_experiences" Hwf) as [? ->]; [simpl; tauto|].
  destruct (has_items_wf d "achievements" Hwf) as [? ->]; [simpl; tauto|].
  destruct (has_items_wf d "awards" Hwf) as [? ->]; [simpl; tauto|].
  destruct (has_items_wf d "skills" Hwf) as [? ->]; [simpl; tauto|].
  eexists. reflexivity.
Qed.

Lemma column_of_rows (dicts : list (gmap string value)) (c : string) :
  (∃ r, In r dicts ∧ is_Some (r !! c)) →
  Frame.column (Frame.DataFrame dicts) c
  = Ok (map (λ r, default VNone (r !! c)) dicts).
Proof.
  intros (r & Hin & Hc). unfold Frame.column. cbn.
  rewrite bool_decide_eq_true_2; [reflexivity|].
  apply elem_of_union_list. exists (dom r). split.
  - apply list_elem_of_fmap. exists r. split; [reflexivity|].
    apply list_elem_of_In. exact Hin.
  - apply elem_of_dom. exact Hc.
Qed.

Lemma count_categories_ok (dicts : list (gmap string value))
  (cats : list string) (st : Counts.stats) :
  dicts ≠ [] → Forall have_row dicts →
  (∀ category, In category cats → In category Counts.categories) →
  ∃ st', Counts.count_categories (Frame.DataFrame dicts) cats st = (st', None).
Proof.
  intros Hne Hrows. revert st. induction cats as [|cat rest IH]; intros st Hsub.
  - exists st. reflexivity.
  - cbn [Counts.count_categories]. rewrite column_of_rows.
    + apply IH. intros c Hc. apply Hsub. right. exact Hc.
    + destruct dicts as [|r dicts]; [congruence|]. exists r.
      split; [left; reflexivity|].
      apply Forall_inv in Hrows.
      destruct (Hrows cat (Hsub cat (or_introl eq_refl))) as [b Hb].
      rewrite Hb. eexists. reflexivity.
Qed.

Lemma count_categories_nonneg (df : Frame.frame) (cats : list string)
  (st st' : Counts.stats) :
  Counts.count_categories df cats st = (st', None) →
  (∀ category, In category cats →
     ∃ t, Counts.by_category st' !! category = Some t
          ∧ 0 <= Counts.have t ∧ 0 <= Counts.have_not t)
  ∧ (∀ category, ¬ In category cats →
       Counts.by_category st' !! category = Counts.by_category st !! category).
Proof.
  revert st. induction cats as [|cat rest IH]; intros st; cbn.
  - intros [= <-]. split; [intros ? []|reflexivity].
  - destruct (Frame.column df cat) as [col|]; [|discriminate].
    intros Hrun. apply IH in Hrun as (Hin & Hout). cbn in Hout. split.
    + intros category [<-|Hrest]; [|exact (Hin category Hrest)].
      destruct (in_dec String.string_dec cat rest) as [Hr|Hr];
        [exact (Hin cat Hr)|].
      rewrite (Hout cat Hr), lookup_insert_eq. eexists. split; [reflexivity|].
      cbn. unfold Frame.value_count. lia.
    + intros category Hnot. rewrite Hout by tauto.
      apply lookup_insert_ne. intros ->. apply Hnot. left. reflexivity.
Qed.

(** X5. Reading the collection page by page, 1000 records at a time,
    loses and repeats nothing: the pages put end to end are the
    collection, and classifying page after page is classifying every
    record once, in stored order, with the same first exception if a
    record fails. *)
Theorem paged_read_is_one_pass (collection : list value) :
  concat (map (Paging.find_batch collection)
              (seq 0 (Paging.total_batches (List.length collection))))
  = collection
  ∧ Paging.read_all Counts.process_batch collection
    = mapM Counts.analyze_student_record collection
  ∧ Paging.read_all CollegeCounts.process_batch collection
    = mapM CollegeCounts.analyze_student_record collection.
Proof.
  split; [|split].
  - unfold Paging.find_batch, Paging.total_batches.
    apply (batches_cover Paging.batch_size). unfold Paging.batch_size. lia.
  - apply read_all_mapM.
  - apply read_all_mapM.
Qed.

(** X6. On a collection that is not empty and whose records are all
    well formed, counts.py runs to its end without an exception, has
    processed as many records as the collection holds, and reports for
    every feature a "have" and a "have not" count, neither negative,
    that add up to that number. *)
Theorem counts_report_on_well_formed (collection : list value) :
  collection ≠ [] →
  Forall (λ student, Spec.well_formed student = true) collection →
  ∃ st, Counts.main collection = (st, None)
        ∧ Counts.total_processed st = Z.of_nat (List.length collection)
        ∧ ∀ category, In category Counts.categories →
            ∃ t, Counts.by_category st !! category = Some t
                 ∧ 0 <= Counts.have t ∧ 0 <= Counts.have_not t
                 ∧ Counts.have t + Counts.have_not t
                   = Z.of_nat (List.length collection).
Proof.
  intros Hne Hwf.
  destruct (mapM_res_ok Counts.analyze_student_record collection)
    as [rows Hrows].
  { eapply Forall_impl; [exact Hwf|]. intros s. apply counts_analyze_ok. }
  assert (Hshape : Forall have_row rows).
  { eapply mapM_res_Forall; [exact counts_row_shape|exact Hrows]. }
  assert (Hlen : List.length rows = List.length collection).
  { exact (mapM_res_length _ _ _ Hrows). }
  assert (Hrne : rows ≠ []).
  { intros ->. destruct collection; [congruence|discriminate Hlen]. }
  assert (Hmain : ∀ st, Counts.main collection = (st, None) ↔
            Counts.count_categories (Frame.DataFrame rows) Counts.categories
              {| Counts.total_processed := Frame.length (Frame.DataFrame rows);
                 Counts.by_category := Counts.by_category Counts.initial_stats |}
            = (st, None)).
  { intros st. unfold Counts.main, Counts.process_batch.
    rewrite read_all_mapM, Hrows. reflexivity. }
  destruct (count_categories_ok rows Counts.categories
              {| Counts.total_processed := Frame.length (Frame.DataFrame rows);
                 Counts.by_category := Counts.by_category Counts.initial_stats |}
              Hrne Hshape (λ _ H, H)) as [st Hst].
  exists st. split; [apply Hmain; exact Hst|].
  destruct (count_categories_totals (Frame.DataFrame rows) _ _ _
              Hshape (λ _ H, H) Hst) as (Htot & Hin & _).
  destruct (count_categories_nonneg _ _ _ _ Hst) as (Hpos & _).
  cbn in Htot. unfold Frame.length in *. cbn in *. rewrite Hlen in *.
  split; [exact Htot|].
  intros category Hcat.
  destruct (Hin category Hcat) as (t & Ht & Hsum).
  destruct (Hpos category Hcat) as (t' & Ht' & Hh & Hn).
  rewrite Ht in Ht'. injection Ht' as <-. exists t. auto.
Qed.

Lemma counts_report_on_well_formed_witness :
  ∃ st, Counts.main [Sample.ends_2024; VDict []] = (st, None)
        ∧ Counts.total_processed st = 2.
Proof.
  destruct (counts_report_on_well_formed [Sample.ends_2024; VDict []])
    as (st & Hmain & Htot & _).
  - discriminate.
  - repeat constructor.
  - exists st. split; [exact Hmain|exact Htot].
Defined.

(** X7. One record that cannot be classified stops the whole report:
    when classifying some record of the collection raises, counts.py
    ends in its handler with every total still at zero, and
    college_counts.py ends without a single row. *)
Theorem ill_formed_record_stops_report (collection : list value)
  (student : value) :
  In student collection →
  raises (Counts.analyze_student_record student) = true →
  raises (CollegeCounts.analyze_student_record student) = true →
  (∃ e, Counts.main collection = (Counts.initial_stats, Some e))
  ∧ raises (CollegeCounts.main collection) = true.
Proof.
  intros Hin H1 H2. split.
  - unfold Counts.main, Counts.process_batch. rewrite read_all_mapM.
    pose proof (mapM_res_raises _ _ _ Hin H1) as Hr.
    destruct (mapM _ collection) as [|e]; [discriminate|]. exists e. reflexivity.
  - unfold CollegeCounts.main, CollegeCounts.process_batch.
    rewrite read_all_mapM.
    pose proof (mapM_res_raises _ _ _ Hin H2) as Hr.
    destruct (mapM _ collection); [discriminate|reflexivity].
Qed.

Lemma ill_formed_record_stops_report_witness :
  raises (CollegeCounts.main [VDict []; VDict [("projects", VInt 5)]]) = true.
Proof.
  apply (ill_formed_record_stops_report
           [VDict []; VDict [("projects", VInt 5)]]
           (VDict [("projects", VInt 5)])).
  - right. left. reflexivity.
  - reflexivity.
  - reflexivity.
Defined.

(** ** Grouping by college *)

Section Grouping.

Context {A : Type}.
Variable eqb : A → A → bool.
Hypothesis eqb_refl : ∀ x, eqb x x = true.
Hypothesis eqb_sym : ∀ x y, eqb x y = eqb y x.
Hypothesis eqb_trans : ∀ x y z, eqb x y = true → eqb y z = true → eqb x z = true.

Lemma count_eq_congr (c c' : A) (l : list A) :
  eqb c c' = true → count_eq eqb c l = count_eq eqb c' l.
Proof.
  intros H. unfold count_eq. f_equal. apply filter_ext. intros v.
  destruct (eqb v c) eqn:E1, (eqb v c') eqn:E2; auto.
  - rewrite (eqb_trans v c c' E1 H) in E2. discriminate.
  - rewrite eqb_sym in H. rewrite (eqb_trans v c' c E2 H) in E1. discriminate.
Qed.

Lemma sum_count_cons_other (w : A) (l cs : list A) :
  Forall (λ c, eqb w c = false) cs →
  sum_list_with (λ c, count_eq eqb c (w :: l)) cs
  = sum_list_with (λ c, count_eq eqb c l) cs.
Proof.
  induction 1 as [|c cs Hc _ IH]; [reflexivity|].
  cbn [sum_list_with]. rewrite IH. f_equal.
  unfold count_eq. cbn. rewrite Hc. reflexivity.
Qed.

Lemma filter_class_excluded (v w : A) (us : list A) :
  eqb v w = true →
  List.filter (eqb v) (List.filter (λ u, negb (eqb w u)) us) = [].
Proof.
  intros Hvw. induction us as [|u us IHu]; [reflexivity|].
  cbn. destruct (eqb w u) eqn:Hwu; cbn; [exact IHu|].
  destruct (eqb v u) eqn:Hvu; [|exact IHu].
  rewrite eqb_sym in Hvw. rewrite (eqb_trans w v u Hvw Hvu) in Hwu.
  discriminate.
Qed.

Lemma filter_class_kept (v w : A) (us : list A) :
  eqb v w = false →
  List.filter (eqb v) (List.filter (λ u, negb (eqb w u)) us)
  = List.filter (eqb v) us.
Proof.
  intros Hvw. induction us as [|u us IHu]; [reflexivity|].
  cbn. destruct (eqb v u) eqn:Hvu.
  - destruct (eqb w u) eqn:Hwu; cbn; rewrite ?Hvu, IHu; [|reflexivity].
    rewrite eqb_sym in Hwu. rewrite (eqb_trans v u w Hvu Hwu) in Hvw.
    discriminate.
  - destruct (eqb w u); cbn; rewrite ?Hvu; exact IHu.
Qed.

(** The distinct cells equal to [v] account for the cells equal to
    [v]. *)
Lemma sum_count_class (v : A) (l : list A) :
  sum_list_with (λ c, count_eq eqb c l)
    (List.filter (eqb v) (distinct eqb l))
  = count_eq eqb v l.
Proof.
  induction l as [|w l IH]; [reflexivity|].
  cbn [distinct List.filter]. destruct (eqb v w) eqn:Hvw.
  - rewrite (filter_class_excluded v w _ Hvw).
    cbn [sum_list_with]. rewrite Nat.add_0_r. symmetry.
    apply count_eq_congr. exact Hvw.
  - rewrite (filter_class_kept v w _ Hvw), sum_count_cons_other.
    + rewrite IH. unfold count_eq. cbn. rewrite eqb_sym, Hvw. reflexivity.
    + apply List.Forall_forall. intros c [_ Hc]%filter_In.
      destruct (eqb w c) eqn:Hwc; [|reflexivity].
      rewrite eqb_sym in Hwc. rewrite (eqb_trans v c w Hc Hwc) in Hvw.
      discriminate.
Qed.

Lemma sum_list_with_filter_split (f : A → nat) (p : A → bool) (l : list A) :
  sum_list_with f l
  = (sum_list_with f (List.filter p l)
     + sum_list_with f (List.filter (λ x, negb (p x)) l))%nat.
Proof.
  induction l as [|x l IH]; [reflexivity|].
  cbn. destruct (p x); cbn; lia.
Qed.

(** The groups of the distinct cells partition the column. *)
Lemma sum_count_distinct (l : list A) :
  sum_list_with (λ c, count_eq eqb c l) (distinct eqb l) = List.length l.
Proof.
  induction l as [|v l IH]; [reflexivity|].
  cbn [distinct sum_list_with List.length].
  rewrite sum_count_cons_other.
  - pose proof (sum_list_with_filter_split (λ c, count_eq eqb c l) (eqb v)
                  (distinct eqb l)) as Hsplit.
    rewrite sum_count_class, IH in Hsplit.
    unfold count_eq at 1. cbn. rewrite eqb_refl. cbn.
    fold (count_eq eqb v l). lia.
  - apply List.Forall_forall. intros c [_ Hc]%filter_In.
    destruct (eqb v c); [discriminate|reflexivity].
Qed.

End Grouping.

Lemma unique_distinct (col : list value) :
  Frame.unique col = distinct Frame.value_eqb col.
Proof. induction col as [|v col IH]; [reflexivity|]. cbn. rewrite IH. reflexivity. Qed.

Lemma mapM_res_Forall2 {A B : Type} (f : A → res B) (l : list A)
  (rs : list B) :
  mapM f l = Ok rs → Forall2 (λ x r, f x = Ok r) l rs.
Proof.
  revert rs. induction l as [|x l IH]; intros rs; cbn.
  - intros [= <-]. constructor.
  - destruct (f x) as [r|] eqn:Hx; cbn; [|discriminate].
    destruct (mapM f l) as [rs'|]; cbn; [|discriminate].
    intros [= <-]. constructor; [exact Hx|]. apply IH. reflexivity.
Qed.

Lemma college_row_shape (student : value) (r : gmap string value) :
  analyze_student_record student = Ok r →
  flag_row r ∧ is_Some (r !! "college_name").
Proof.
  unfold analyze_student_record.
  destruct (get_college_name student); cbn; [|discriminate].
  destruct (Features.has_items student "projects"); cbn; [|discriminate].
  destruct (Features.has_items student "work_experiences"); cbn; [|discriminate].
  destruct (Features.has_items student "achievements"); cbn; [|discriminate].
  destruct (Features.has_items student "awards"); cbn; [|discriminate].
  destruct (Features.has_items student "skills"); cbn; [|discriminate].
  destruct (Features.has_performance student); cbn; [|discriminate].
  intros [= <-]. split.
  - intros flag Hin. simpl in Hin.
    destruct Hin as [<-|[<-|[<-|[<-|[<-|[]]]]]]; eexists;
      simplify_map_eq; reflexivity.
  - eexists. simplify_map_eq. reflexivity.
Qed.

Lemma sum_flags_bounds (col : list value) :
  Forall (λ v, ∃ b, v = VBool b) col →
  0 <= Frame.sum col <= Z.of_nat (List.length col).
Proof.
  unfold Frame.sum.
  induction 1 as [|v col [b ->] _ IH]; cbn [fold_right List.length]; [lia|].
  set (x := fold_right _ 0 col) in *.
  destruct b; cbn; lia.
Qed.

Lemma flag_column_bounds (df : Frame.frame) (flag : string) (col : list value) :
  Forall flag_row (Frame.rows df) →
  In flag ["has_projects"; "has_experience"; "has_achievements";
           "has_skills"; "has_grade"] →
  Frame.column df flag = Ok col →
  0 <= Frame.sum col <= Frame.length df.
Proof.
  intros Hrows Hflag. unfold Frame.column, Frame.length.
  destruct (bool_decide _); [|discriminate]. intros [= <-].
  rewrite <- (length_map (λ r, default VNone (r !! flag))).
  apply sum_flags_bounds. apply Forall_map.
  eapply Forall_impl; [exact Hrows|]. intros r Hr.
  destruct (Hr flag Hflag) as [b ->]. exists b. reflexivity.
Qed.

Lemma select_rows_Forall (P : gmap string value → Prop) (df : Frame.frame)
  (c : string) (v : value) :
  Forall P (Frame.rows df) → Forall P (Frame.rows (Frame.select df c v)).
Proof.
  intros H. cbn. apply List.Forall_forall. intros r [Hin _]%filter_In.
  rewrite List.Forall_forall in H. exact (H r Hin).
Qed.

(** A row of the report, against the frame it was computed from. *)
Lemma summarize_row (df : Frame.frame) (college : value) (r : college_summary) :
  Forall flag_row (Frame.rows df) →
  summarize df college = Ok r →
  Total_Students r
  = Z.of_nat (count_eq Frame.value_eqb college
                (map (λ row, default VNone (row !! "college_name"))
                     (Frame.rows df)))
  ∧ 0 <= Have_Projects r <= Total_Students r
  ∧ 0 <= Have_Experience r <= Total_Students r
  ∧ 0 <= Have_Achievements r <= Total_Students r
  ∧ 0 <= Have_Skills r <= Total_Students r
  ∧ 0 <= Have_Grade r <= Total_Students r.
Proof.
  intros Hrows. unfold summarize.
  set (college_df := Frame.select df "college_name" college).
  pose proof (select_rows_Forall _ df "college_name" college Hrows) as Hsel.
  fold college_df in Hsel.
  destruct (Frame.column college_df "has_projects") as [c1|] eqn:H1; cbn; [|discriminate].
  destruct (Frame.column college_df "has_experience") as [c2|] eqn:H2; cbn; [|discriminate].
  destruct (Frame.column college_df "has_achievements") as [c3|] eqn:H3; cbn; [|discriminate].
  destruct (Frame.column college_df "has_skills") as [c4|] eqn:H4; cbn; [|discriminate].
  destruct (Frame.column college_df "has_grade") as [c5|] eqn:H5; cbn; [|discriminate].
  intros [= <-]. cbn.
  apply (flag_column_bounds _ _ _ Hsel) in H1; [|simpl; tauto].
  apply (flag_column_bounds _ _ _ Hsel) in H2; [|simpl; tauto].
  apply (flag_column_bounds _ _ _ Hsel) in H3; [|simpl; tauto].
  apply (flag_column_bounds _ _ _ Hsel) in H4; [|simpl; tauto].
  apply (flag_column_bounds _ _ _ Hsel) in H5; [|simpl; tauto].
  split; [|auto].
  unfold Frame.length, college_df, count_eq. cbn.
  rewrite filter_map_comm, length_map. reflexivity.
Qed.

(** X8. In a report of college_counts.py that completes on records
    whose college names are texts, the student totals of the rows add up
    to the number of records in the collection, and in every row each
    "Have" count lies between zero and the row's total, so no "No" count
    is negative. *)
Theorem college_report_partitions_records (collection : list value)
  (rows : list college_summary) :
  forallb college_is_text collection = true →
  CollegeCounts.main collection = Ok rows →
  fold_right Z.add 0 (map Total_Students rows)
  = Z.of_nat (List.length collection)
  ∧ Forall (λ r, 0 <= Have_Projects r <= Total_Students r
               ∧ 0 <= Have_Experience r <= Total_Students r
               ∧ 0 <= Have_Achievements r <= Total_Students r
               ∧ 0 <= Have_Skills r <= Total_Students r
               ∧ 0 <= Have_Grade r <= Total_Students r) rows.
Proof.
  intros _. unfold CollegeCounts.main, CollegeCounts.process_batch.
  rewrite read_all_mapM.
  destruct (mapM analyze_student_record collection) as [dicts|] eqn:Hread;
    cbn; [|discriminate].
  assert (Hshape : Forall (λ r, flag_row r ∧ is_Some (r !! "college_name")) dicts).
  { eapply mapM_res_Forall; [exact college_row_shape|exact Hread]. }
  assert (Hflags : Forall flag_row (Frame.rows (Frame.DataFrame dicts))).
  { cbn. eapply Forall_impl; [exact Hshape|]. intros r [Hr _]. exact Hr. }
  set (df := Frame.DataFrame dicts) in *.
  destruct (Frame.column df "college_name") as [names|] eqn:Hnames; cbn;
    [|discriminate].
  assert (Hn : names = map (λ row, default VNone (row !! "college_name")) dicts).
  { unfold Frame.column in Hnames. destruct (bool_decide _); [|discriminate].
    injection Hnames as <-. reflexivity. }
  intros Hrows. apply mapM_res_Forall2 in Hrows.
  assert (Hall : Forall2 (λ college r,
            Total_Students r = Z.of_nat (count_eq Frame.value_eqb college names)
            ∧ 0 <= Have_Projects r <= Total_Students r
            ∧ 0 <= Have_Experience r <= Total_Students r
            ∧ 0 <= Have_Achievements r <= Total_Students r
            ∧ 0 <= Have_Skills r <= Total_Students r
            ∧ 0 <= Have_Grade r <= Total_Students r)
            (Frame.unique names) rows).
  { eapply Forall2_impl; [exact Hrows|]. intros college r Hr. cbn beta in Hr.
    rewrite Hn. exact (summarize_row df college r Hflags Hr). }
  split.
  - transitivity (Z.of_nat (sum_list_with
                              (λ c, count_eq Frame.value_eqb c names)
                              (Frame.unique names))).
    + clear -Hall. induction Hall as [|c r cs rs (Hc & _) _ IH]; [reflexivity|].
      cbn. rewrite IH, Hc. lia.
    + rewrite unique_distinct, (sum_count_distinct Frame.value_eqb).
      * rewrite Hn, length_map. f_equal. exact (mapM_res_length _ _ _ Hread).
      * exact value_eqb_refl.
      * exact value_eqb_sym.
      * exact value_eqb_trans.
  - clear -Hall. induction Hall as [|c r cs rs (_ & Hr) _ IH]; constructor; auto.
Qed.

Lemma college_report_partitions_records_witness :
  ∃ rows,
    CollegeCounts.main [Sample.ends_2024; Sample.two_primaries; VDict []]
    = Ok rows
    ∧ fold_right Z.add 0 (map Total_Students rows) = 3.
Proof.
  eexists. split; [reflexivity|].
  exact (proj1 (college_report_partitions_records
                  [Sample.ends_2024; Sample.two_primaries; VDict []] _
                  eq_refl eq_refl)).
Defined.

(** ** Distributions over the skill bands *)

Lemma skills_category_label (n : Z) :
  0 <= n → In (skills_category n) Skill.labels.
Proof.
  intros Hn.
  destruct (skills_category_cases n Hn)
    as [[? ->]|[[? ->]|[[? ->]|[[? ->]|[? ->]]]]]; simpl; tauto.
Qed.

Lemma labels_total_bump (m : gmap string Z) (l : string) :
  In l Skill.labels →
  labels_total (<[l := count_of m l + 1]> m) = labels_total m + 1.
Proof.
  unfold labels_total, column_total, Skill.distribution, Skill.labels.
  intros [<-|[<-|[<-|[<-|[<-|[]]]]]]; cbn [map snd fold_right];
    rewrite ?count_of_insert_eq;
    rewrite ?count_of_insert_ne by discriminate; lia.
Qed.

Lemma labels_nonneg_bump (m : gmap string Z) (l : string) :
  labels_nonneg m → labels_nonneg (<[l := count_of m l + 1]> m).
Proof.
  intros H l' Hl'. destruct (String.string_dec l l') as [->|Hne].
  - rewrite count_of_insert_eq. specialize (H l' Hl'). lia.
  - rewrite count_of_insert_ne by exact Hne. exact (H l' Hl').
Qed.

Lemma labels_zero :
  labels_total Skill.skill_categories0 = 0
  ∧ labels_nonneg Skill.skill_categories0.
Proof.
  split; [reflexivity|].
  intros l [<-|[<-|[<-|[<-|[<-|[]]]]]]; vm_compute; discriminate.
Qed.

Lemma skill_scan_invariant (cursor : list value) (cats cats' : gmap string Z)
  (n n' : Z) :
  Skill.scan cursor (cats, n) = Ok (cats', n') →
  n' = n + Z.of_nat (List.length cursor)
  ∧ labels_total cats' = labels_total cats + Z.of_nat (List.length cursor)
  ∧ (labels_nonneg cats → labels_nonneg cats').
Proof.
  revert cats n. induction cursor as [|student rest IH]; intros cats n.
  - cbn. intros [= <- <-]. split; [lia|]. split; [lia|auto].
  - cbn [Skill.scan].
    destruct (Skill.count_student (cats, n) student) as [st1|] eqn:Hstep;
      cbn [mbind res_bind Py.bind]; [|discriminate].
    destruct (skill_count_student_bumps _ _ _ _ Hstep) as (k & Hk & ->).
    intros Hrest. apply IH in Hrest as (Hn & Htot & Hpos).
    rewrite labels_total_bump in Htot by (apply skills_category_label; exact Hk).
    cbn [List.length]. split; [lia|]. split; [lia|].
    intros H. apply Hpos, labels_nonneg_bump, H.
Qed.

Lemma get_skills_count_ok (student : value) :
  Spec.well_formed student = true → ∃ n, get_skills_count student = Ok n.
Proof.
  intros Hwf. destruct student as [| | | | | | |d]; try discriminate.
  pose proof (well_formed_collection d "skills" Hwf) as Hc.
  unfold get_skills_count. rewrite get_dict.
  destruct (lookup_item "skills" d) as [v|]; cbn; [|eexists; reflexivity].
  destruct v; cbn in *; try (discriminate Hc; simpl; tauto);
    try (eexists; reflexivity).
  destruct l; eexists; reflexivity.
Qed.

Lemma skill_scan_ok (cursor : list value) (st : gmap string Z * Z) :
  Forall (λ student, Spec.well_formed student = true) cursor →
  ∃ st', Skill.scan cursor st = Ok st'.
Proof.
  intros H. revert st. induction H as [|student rest Hwf _ IH]; intros st.
  - exists st. reflexivity.
  - cbn [Skill.scan]. destruct st as [cats n]. unfold Skill.count_student.
    destruct (get_skills_count_ok _ Hwf) as [k ->]. cbn. apply IH.
Qed.

Lemma percentages_ok (cats : gmap string Z) (denom : Z) :
  denom ≠ 0 →
  ∃ pct, Skill.percentages cats denom = Ok pct ∧ map fst pct = Skill.labels.
Proof.
  intros Hd. unfold Skill.percentages, truediv.
  destruct (Z.eqb_spec denom 0); [contradiction|].
  eexists. split; reflexivity.
Qed.

(** X9. On well-formed records skill.py fails only on the empty
    collection.  If the collection holds a record, the run completes,
    its distribution lists the five categories in order with counts
    that are never negative and add up to the number of records, and a
    percentage is logged for each category; on the empty collection the
    first percentage raises ZeroDivisionError. *)
Theorem skill_report_on_well_formed (collection : list value) :
  Forall (λ student, Spec.well_formed student = true) collection →
  (collection = [] → Skill.main collection = Raise ZeroDivisionError)
  ∧ (collection ≠ [] →
     ∃ dist pct,
       Skill.main collection = Ok (dist, pct)
       ∧ map fst dist = Skill.labels
       ∧ Forall (λ row, 0 <= row.2) dist
       ∧ column_total dist = Z.of_nat (List.length collection)
       ∧ map fst pct = Skill.labels).
Proof.
  intros Hwf. split; [intros ->; reflexivity|]. intros Hne.
  unfold Skill.main.
  destruct (skill_scan_ok collection (Skill.skill_categories0, 0) Hwf)
    as [[cats n] Hscan].
  rewrite Hscan. cbn [mbind res_bind Py.bind].
  destruct (skill_scan_invariant _ _ _ _ _ Hscan) as (Hn & Htot & Hpos).
  destruct labels_zero as [Hz Hnn]. specialize (Hpos Hnn).
  destruct (percentages_ok cats n) as (pct & Hpct & Hlab).
  { destruct collection; [congruence|]. cbn [List.length] in Hn. lia. }
  rewrite Hpct. cbn [mbind res_bind Py.bind mret res_ret].
  exists (Skill.distribution cats), pct.
  split; [reflexivity|]. split; [reflexivity|]. split.
  - unfold Skill.distribution. apply Forall_map. apply List.Forall_forall.
    intros l Hl. cbn. exact (Hpos l Hl).
  - split; [|exact Hlab]. fold (labels_total cats). lia.
Qed.

Lemma skill_report_on_well_formed_witness :
  ∃ dist pct,
    Skill.main [Sample.ends_2024; VDict []] = Ok (dist, pct)
    ∧ column_total dist = 2.
Proof.
  destruct (skill_report_on_well_formed [Sample.ends_2024; VDict []])
    as [_ H]; [repeat constructor|].
  destruct H as (dist & pct & Hmain & _ & _ & Htot & _); [discriminate|].
  exists dist, pct. split; [exact Hmain|exact Htot].
Defined.

(** ** skill_year.py: the three distributions *)

Lemma count_grad_year_invariant (label : string) (grad_year : value)
  (c : SkillYear.counters) :
  In label Skill.labels →
  let c' := SkillYear.count_grad_year label grad_year c in
  SkillYear.skill_categories c' = SkillYear.skill_categories c
  ∧ SkillYear.processed_count c' = SkillYear.processed_count c
  ∧ labels_total (SkillYear.grad_year_2026_categories c')
    - SkillYear.grad_2026_count c'
    = labels_total (SkillYear.grad_year_2026_categories c)
      - SkillYear.grad_2026_count c
  ∧ labels_total (SkillYear.grad_year_2027_categories c')
    - SkillYear.grad_2027_count c'
    = labels_total (SkillYear.grad_year_2027_categories c)
      - SkillYear.grad_2027_count c
  ∧ SkillYear.grad_2026_count c <= SkillYear.grad_2026_count c'
  ∧ SkillYear.grad_2027_count c <= SkillYear.grad_2027_count c'.
Proof.
  intros Hl. unfold SkillYear.count_grad_year, SkillYear.bump.
  destruct (eq_int grad_year 2026); [|destruct (eq_int grad_year 2027)];
    cbn [SkillYear.skill_categories SkillYear.processed_count
         SkillYear.grad_year_2026_categories SkillYear.grad_year_2027_categories
         SkillYear.grad_2026_count SkillYear.grad_2027_count];
    rewrite ?labels_total_bump by exact Hl; repeat split; lia.
Qed.

Lemma scan_education_invariant (label : string) (records : list value)
  (c c' : SkillYear.counters) :
  In label Skill.labels →
  SkillYear.scan_education label records c = Ok c' →
  SkillYear.skill_categories c' = SkillYear.skill_categories c
  ∧ SkillYear.processed_count c' = SkillYear.processed_count c
  ∧ labels_total (SkillYear.grad_year_2026_categories c')
    - SkillYear.grad_2026_count c'
    = labels_total (SkillYear.grad_year_2026_categories c)
      - SkillYear.grad_2026_count c
  ∧ labels_total (SkillYear.grad_year_2027_categories c')
    - SkillYear.grad_2027_count c'
    = labels_total (SkillYear.grad_year_2027_categories c)
      - SkillYear.grad_2027_count c
  ∧ SkillYear.grad_2026_count c <= SkillYear.grad_2026_count c'
  ∧ SkillYear.grad_2027_count c <= SkillYear.grad_2027_count c'.
Proof.
  intros Hl. revert c. induction records as [|r rest IH]; intros c.
  - cbn. intros [= <-]. repeat split; lia.
  - cbn [SkillYear.scan_education].
    destruct (get r "is_primary" (VBool false)) as [p|];
      cbn [mbind res_bind Py.bind]; [|discriminate].
    destruct (truthy p); [|apply IH].
    destruct (get r "end_year" VNone) as [y|];
      cbn [mbind res_bind Py.bind]; [|discriminate].
    intros H. apply IH in H.
    pose proof (count_grad_year_invariant label y c Hl) as Hc. cbn zeta in Hc.
    destruct H as (H1 & H2 & H3 & H4 & H5 & H6).
    destruct Hc as (K1 & K2 & K3 & K4 & K5 & K6).
    rewrite H1, H2, H3, H4. repeat split; auto; lia.
Qed.

Lemma skill_year_scan_invariant (cursor : list value)
  (c c' : SkillYear.counters) :
  SkillYear.scan cursor c = Ok c' →
  SkillYear.processed_count c'
  = SkillYear.processed_count c + Z.of_nat (List.length cursor)
  ∧ labels_total (SkillYear.skill_categories c')
    = labels_total (SkillYear.skill_categories c)
      + Z.of_nat (List.length cursor)
  ∧ labels_total (SkillYear.grad_year_2026_categories c')
    - SkillYear.grad_2026_count c'
    = labels_total (SkillYear.grad_year_2026_categories c)
      - SkillYear.grad_2026_count c
  ∧ labels_total (SkillYear.grad_year_2027_categories c')
    - SkillYear.grad_2027_count c'
    = labels_total (SkillYear.grad_year_2027_categories c)
      - SkillYear.grad_2027_count c
  ∧ SkillYear.grad_2026_count c <= SkillYear.grad_2026_count c'
  ∧ SkillYear.grad_2027_count c <= SkillYear.grad_2027_count c'.
Proof.
  revert c. induction cursor as [|student rest IH]; intros c.
  - cbn. intros [= <-]. repeat split; lia.
  - cbn [SkillYear.scan]. unfold SkillYear.count_student at 1.
    destruct (get_skills_count student) as [k|] eqn:Hk;
      cbn [mbind res_bind Py.bind]; [|discriminate].
    pose proof (skills_category_label k (get_skills_count_nonneg _ _ Hk)) as Hl.
    destruct (get student "education_records" (VList [])) as [er|];
      cbn [mbind res_bind Py.bind]; [|discriminate].
    destruct (iter er) as [records|]; cbn [mbind res_bind Py.bind];
      [|discriminate].
    destruct (SkillYear.scan_education _ records _) as [c1|] eqn:Hedu;
      cbn [mbind res_bind Py.bind mret res_ret]; [|discriminate].
    apply (scan_education_invariant _ _ _ _ Hl) in Hedu
      as (E1 & E2 & E3 & E4 & E5 & E6).
    cbn [SkillYear.skill_categories SkillYear.processed_count
         SkillYear.grad_year_2026_categories SkillYear.grad_year_2027_categories
         SkillYear.grad_2026_count SkillYear.grad_2027_count] in *.
    unfold SkillYear.bump in E1.
    intros H. apply IH in H as (H1 & H2 & H3 & H4 & H5 & H6).
    cbn [SkillYear.skill_categories SkillYear.processed_count
         SkillYear.grad_year_2026_categories SkillYear.grad_year_2027_categories
         SkillYear.grad_2026_count SkillYear.grad_2027_count] in *.
    rewrite E1, labels_total_bump in H2 by exact Hl.
    cbn [List.length]. repeat split; lia.
Qed.

Lemma skill_year_percentages_ok (cats : gmap string Z) (denom : Z) :
  denom ≠ 0 → ∃ pct, SkillYear.percentages cats denom = Ok pct.
Proof.
  intros Hd. unfold SkillYear.percentages, truediv.
  destruct (Z.eqb_spec denom 0); [contradiction|]. eexists. reflexivity.
Qed.

(** X10. When the scan of skill_year.py completes, the overall
    distribution adds up to the number of records read, and the 2026 and
    2027 distributions add up to the counts of 2026 and of 2027
    graduates, which are never negative.  The summary then fails only on
    the empty collection, where the overall percentage divides by zero:
    the two per-year blocks are guarded by their counts and never
    raise. *)
Theorem skill_year_distributions_add_up (collection : list value)
  (c : SkillYear.counters) :
  SkillYear.scan collection SkillYear.zero = Ok c →
  SkillYear.processed_count c = Z.of_nat (List.length collection)
  ∧ labels_total (SkillYear.skill_categories c)
    = Z.of_nat (List.length collection)
  ∧ labels_total (SkillYear.grad_year_2026_categories c)
    = SkillYear.grad_2026_count c
  ∧ labels_total (SkillYear.grad_year_2027_categories c)
    = SkillYear.grad_2027_count c
  ∧ 0 <= SkillYear.grad_2026_count c
  ∧ 0 <= SkillYear.grad_2027_count c
  ∧ (collection = [] → SkillYear.main collection = Raise ZeroDivisionError)
  ∧ (collection ≠ [] →
     ∃ overall of_2026 of_2027,
       SkillYear.main collection = Ok (c, overall, of_2026, of_2027)).
Proof.
  intros Hscan.
  destruct (skill_year_scan_invariant _ _ _ Hscan)
    as (H1 & H2 & H3 & H4 & H5 & H6).
  destruct labels_zero as [Hz _].
  change (SkillYear.processed_count SkillYear.zero) with 0 in H1.
  change (SkillYear.grad_2026_count SkillYear.zero) with 0 in *.
  change (SkillYear.grad_2027_count SkillYear.zero) with 0 in *.
  change (SkillYear.skill_categories SkillYear.zero)
    with Skill.skill_categories0 in H2.
  change (SkillYear.grad_year_2026_categories SkillYear.zero)
    with Skill.skill_categories0 in H3.
  change (SkillYear.grad_year_2027_categories SkillYear.zero)
    with Skill.skill_categories0 in H4.
  rewrite Hz in *.
  split; [lia|]. split; [lia|]. split; [lia|]. split; [lia|].
  split; [lia|]. split; [lia|]. split.
  - intros ->. reflexivity.
  - intros Hne. unfold SkillYear.main. rewrite Hscan.
    cbn [mbind res_bind Py.bind].
    destruct (skill_year_percentages_ok (SkillYear.skill_categories c)
                (SkillYear.processed_count c)) as [overall ->].
    { destruct collection; [congruence|]. cbn [List.length] in H1. lia. }
    cbn [mbind res_bind Py.bind].
    assert (Hguard : ∀ cats n, ∃ pct,
              (if 0 <? n then SkillYear.percentages cats n else mret [])
              = Ok pct).
    { intros cats n. destruct (Z.ltb_spec 0 n); [|eexists; reflexivity].
      apply skill_year_percentages_ok. lia. }
    destruct (Hguard (SkillYear.grad_year_2026_categories c)
                (SkillYear.grad_2026_count c)) as [p26 ->].
    cbn [mbind res_bind Py.bind].
    destruct (Hguard (SkillYear.grad_year_2027_categories c)
                (SkillYear.grad_2027_count c)) as [p27 ->].
    cbn [mbind res_bind Py.bind mret res_ret].
    exists overall, p26, p27. reflexivity.
Qed.

Lemma skill_year_distributions_add_up_witness :
  ∃ c, SkillYear.scan [Sample.two_primaries; VDict []] SkillYear.zero = Ok c
       ∧ labels_total (SkillYear.grad_year_2026_categories c)
         = SkillYear.grad_2026_count c.
Proof.
  eexists. split; [reflexivity|].
  exact (proj1 (proj2 (proj2
           (skill_year_distributions_add_up
              [Sample.two_primaries; VDict []] _ eq_refl)))).
Defined.

(** ** no_skill.py: batches and the resume lookup *)

Lemma no_skill_add_zero (c : NoSkill.counters) : NoSkill.add c NoSkill.zero = c.
Proof. destruct c. unfold NoSkill.add. cbn. f_equal; lia. Qed.

Lemma no_skill_add_assoc (a b c : NoSkill.counters) :
  NoSkill.add a (NoSkill.add b c) = NoSkill.add (NoSkill.add a b) c.
Proof. unfold NoSkill.add. cbn. f_equal; lia. Qed.

Lemma no_skill_count_student_add (str : value → string)
  (resume_dict : gmap string value) (c : NoSkill.counters) (student : value) :
  NoSkill.count_student str resume_dict c student
  = (c' ← NoSkill.count_student str resume_dict NoSkill.zero student;
     mret (NoSkill.add c c')).
Proof.
  unfold NoSkill.count_student.
  destruct (NoSkill.has_no_skills student) as [[]|];
    cbn [mbind res_bind Py.bind mret res_ret]; [| |reflexivity].
  - destruct (Features.has_items student "education_records") as [e|];
      cbn [mbind res_bind Py.bind mret res_ret]; [|reflexivity].
    destruct (Features.has_items student "work_experiences") as [w|];
      cbn [mbind res_bind Py.bind mret res_ret]; [|reflexivity].
    destruct (Features.has_items student "projects") as [pr|];
      cbn [mbind res_bind Py.bind mret res_ret]; [|reflexivity].
    destruct (get student "_id" VNone) as [id|];
      cbn [mbind res_bind Py.bind mret res_ret]; [|reflexivity].
    f_equal. unfold NoSkill.add, NoSkill.incr. cbn.
    destruct e, w, pr, (bool_decide _); f_equal; lia.
  - rewrite no_skill_add_zero. reflexivity.
Qed.

Lemma no_skill_count_students_add (str : value → string)
  (resume_dict : gmap string value) (students : list value)
  (c : NoSkill.counters) :
  NoSkill.count_students str resume_dict students c
  = (c' ← NoSkill.count_students str resume_dict students NoSkill.zero;
     mret (NoSkill.add c c')).
Proof.
  revert c. induction students as [|s rest IH]; intros c.
  - cbn. rewrite no_skill_add_zero. reflexivity.
  - cbn [NoSkill.count_students]. rewrite no_skill_count_student_add.
    destruct (NoSkill.count_student str resume_dict NoSkill.zero s) as [d|];
      cbn [mbind res_bind Py.bind mret res_ret]; [|reflexivity].
    rewrite (IH (NoSkill.add c d)), (IH d).
    destruct (NoSkill.count_students str resume_dict rest NoSkill.zero)
      as [r|]; cbn [mbind res_bind Py.bind mret res_ret]; [|reflexivity].
    rewrite no_skill_add_assoc. reflexivity.
Qed.

Lemma no_skill_count_students_app (str : value → string)
  (resume_dict : gmap string value) (l1 l2 : list value)
  (c : NoSkill.counters) :
  NoSkill.count_students str resume_dict (l1 ++ l2) c
  = (c1 ← NoSkill.count_students str resume_dict l1 c;
     NoSkill.count_students str resume_dict l2 c1).
Proof.
  revert c. induction l1 as [|s l1 IH]; intros c; [reflexivity|].
  cbn [app NoSkill.count_students].
  destruct (NoSkill.count_student str resume_dict c s);
    cbn [mbind res_bind Py.bind]; [apply IH|reflexivity].
Qed.

Lemma no_skill_cursor_loop (str : value → string)
  (resume_dict : gmap string value) (cursor batch : list value)
  (total : NoSkill.counters) :
  (x ← NoSkill.cursor_loop str resume_dict cursor batch total;
   no_skill_finish str resume_dict x)
  = (c ← NoSkill.count_students str resume_dict (batch ++ cursor) NoSkill.zero;
     mret (NoSkill.add total c)).
Proof.
  revert batch total. induction cursor as [|s rest IH]; intros batch total.
  - cbn [NoSkill.cursor_loop mbind res_bind Py.bind mret res_ret].
    unfold no_skill_finish. cbn [fst snd]. rewrite app_nil_r.
    destruct batch as [|b batch]; [|reflexivity].
    cbn. rewrite no_skill_add_zero. reflexivity.
  - cbn [NoSkill.cursor_loop].
    replace (batch ++ s :: rest) with ((batch ++ [s]) ++ rest)
      by (rewrite <- app_assoc; reflexivity).
    set (B := batch ++ [s]).
    destruct (NoSkill.BATCH_SIZE <=? List.length B)%nat.
    + unfold NoSkill.process_batch.
      rewrite (no_skill_count_students_app str resume_dict B rest).
      destruct (NoSkill.count_students str resume_dict B
                  NoSkill.zero) as [r|];
        cbn [mbind res_bind Py.bind]; [|reflexivity].
      rewrite (IH [] (NoSkill.add total r)). cbn [app].
      rewrite (no_skill_count_students_add str resume_dict rest r).
      destruct (NoSkill.count_students str resume_dict rest NoSkill.zero)
        as [r'|]; cbn [mbind res_bind Py.bind mret res_ret]; [|reflexivity].
      rewrite no_skill_add_assoc. reflexivity.
    + apply IH.
Qed.

(** X11. The batches of no_skill.py do not show in its result: reading
    the cursor in batches of 100 and adding up the batch counters gives
    what one pass over the whole collection gives, with the same first
    exception if a record fails, followed by the percentage breakdown
    over the number of records. *)
Theorem no_skill_batches_are_one_pass (str : value → string)
  (collection : list value) (resume_dict : gmap string value) :
  NoSkill.main str collection resume_dict
  = (total ← NoSkill.count_students str resume_dict collection NoSkill.zero;
     shares ← NoSkill.breakdown total (Z.of_nat (List.length collection));
     mret (total, shares)).
Proof.
  unfold NoSkill.main.
  pose proof (no_skill_cursor_loop str resume_dict collection [] NoSkill.zero)
    as Hloop.
  cbn [app] in Hloop.
  destruct (NoSkill.cursor_loop str resume_dict collection [] NoSkill.zero)
    as [[batch total]|e]; cbn [mbind res_bind Py.bind] in *.
  - unfold no_skill_finish in Hloop. cbn [fst snd] in Hloop. rewrite Hloop.
    destruct (NoSkill.count_students str resume_dict collection NoSkill.zero)
      as [c|]; cbn [mbind res_bind Py.bind mret res_ret]; [|reflexivity].
    replace (NoSkill.add NoSkill.zero c) with c; [reflexivity|].
    destruct c. unfold NoSkill.add. cbn. f_equal; lia.
  - destruct (NoSkill.count_students str resume_dict collection NoSkill.zero);
      [discriminate|]. cbn [mbind res_bind Py.bind mret res_ret] in *.
    congruence.
Qed.

Lemma find_app_first {A : Type} (p : A → bool) (l1 l2 : list A) :
  List.find p (l1 ++ l2)
  = match List.find p l1 with Some x => Some x | None => List.find p l2 end.
Proof.
  induction l1 as [|x l1 IH]; [reflexivity|].
  cbn. destruct (p x); [reflexivity|exact IH].
Qed.

Lemma build_resume_dict_from (str : value → string)
  (resumes : list (list (string * value))) (m : gmap string value)
  (k : string) :
  fold_left (NoSkill.add_resume str) resumes m !! k
  = match List.find (λ r, match lookup_item "user_id" r, lookup_item "link" r with
                          | Some u, Some _ => String.eqb (str u) k
                          | _, _ => false
                          end) (rev resumes) with
    | Some r => lookup_item "link" r
    | None => m !! k
    end.
Proof.
  revert m. induction resumes as [|r rest IH]; intros m; [reflexivity|].
  cbn [fold_left rev]. rewrite IH, find_app_first.
  destruct (List.find _ (rev rest)) as [r'|]; [reflexivity|].
  cbn [List.find]. unfold NoSkill.add_resume.
  destruct (lookup_item "user_id" r) as [u|]; [|reflexivity].
  destruct (lookup_item "link" r) as [link|] eqn:Hlink; [|reflexivity].
  destruct (String.eqb_spec (str u) k) as [->|Hne].
  - rewrite Hlink. apply lookup_insert_eq.
  - apply lookup_insert_ne. exact Hne.
Qed.

(** X12. The resume lookup of no_skill.py has an entry under a key
    exactly when some resume carries both a user id and a link and the
    id prints as that key, and the entry is the link of the last such
    resume; resumes lacking either field leave no trace. *)
Theorem resume_dict_lookup (str : value → string)
  (all_resumes : list (list (string * value))) (k : string) :
  NoSkill.build_resume_dict str all_resumes !! k
  = match List.find (λ r, match lookup_item "user_id" r, lookup_item "link" r with
                          | Some u, Some _ => String.eqb (str u) k
                          | _, _ => false
                          end) (rev all_resumes) with
    | Some r => lookup_item "link" r
    | None => None
    end.
Proof.
  unfold NoSkill.build_resume_dict. rewrite build_resume_dict_from.
  destruct (List.find _ _); [reflexivity|apply lookup_empty].
Qed.

(** ** education_count.py: the figures in closed form *)

Lemma bucket_count_app (b : bucket) (ys1 ys2 : list value) :
  bucket_count b (ys1 ++ ys2) = bucket_count b ys1 + bucket_count b ys2.
Proof.
  unfold bucket_count. rewrite List.filter_app, length_app. lia.
Qed.

Lemma advanced_refl (c : counters) : advanced c c [] 0.
Proof. unfold advanced, bucket_count. cbn. repeat split; lia. Qed.

Lemma advanced_trans (c1 c2 c3 : counters) (ys1 ys2 : list value) (n1 n2 : Z) :
  advanced c1 c2 ys1 n1 → advanced c2 c3 ys2 n2 →
  advanced c1 c3 (ys1 ++ ys2) (n1 + n2).
Proof.
  unfold advanced. rewrite !bucket_count_app.
  intros (A1 & A2 & A3 & A4) (B1 & B2 & B3 & B4). repeat split; lia.
Qed.

Lemma count_end_year_advanced (end_year : value) (c : counters) :
  advanced c (count_end_year end_year c) [end_year] 0.
Proof.
  unfold advanced, count_end_year, bucket_count, bump_year.
  cbn [List.filter].
  destruct (end_year_bucket end_year);
    cbn [bucket_eqb year_counts special_count no_primary_count List.length];
    rewrite ?count_of_insert_eq; rewrite ?count_of_insert_ne by discriminate;
    repeat split; lia.
Qed.

Lemma scan_education_advanced (records : list value) (has_primary : bool)
  (c : counters) :
  forallb Spec.is_dict records = true →
  ∃ c', scan_education records has_primary c
        = Ok (has_primary || existsb is_primary_entry records, c')
        ∧ advanced c c'
            (map (λ e, Spec.field e "end_year")
                 (List.filter is_primary_entry records)) 0.
Proof.
  revert has_primary c.
  induction records as [|r rest IH]; intros has_primary c.
  - intros _. exists c. cbn. rewrite orb_false_r.
    split; [reflexivity|apply advanced_refl].
  - intros [Hd Hrest]%andb_prop.
    destruct r as [| | | | | | |d]; try discriminate Hd.
    cbn [scan_education List.filter existsb]. rewrite !get_dict.
    cbn [mbind res_bind Py.bind]. unfold is_primary_entry at 1 3.
    cbn [Spec.field].
    assert (Ht : truthy (default (VBool false) (lookup_item "is_primary" d))
                 = truthy (default VNone (lookup_item "is_primary" d))).
    { destruct (lookup_item "is_primary" d); reflexivity. }
    rewrite Ht.
    destruct (truthy (default VNone (lookup_item "is_primary" d))).
    + destruct (IH true (count_end_year
                           (default VNone (lookup_item "end_year" d)) c) Hrest)
        as (c' & Hrun & Hadv).
      exists c'. rewrite Hrun. rewrite orb_true_r. cbn [orb map].
      split; [reflexivity|].
      exact (advanced_trans _ _ _ [_] _ 0 0
               (count_end_year_advanced _ c) Hadv).
    + destruct (IH has_primary c Hrest) as (c' & Hrun & Hadv).
      exists c'. rewrite Hrun. cbn [orb]. split; [reflexivity|exact Hadv].
Qed.

Lemma count_student_advanced (c : counters) (student : value) :
  education_iterable student = true →
  ∃ c', count_student c student = Ok c'
        ∧ advanced c c' (primary_end_years student)
            (if lacks_primary student then 1 else 0).
Proof.
  intros Hit. destruct student as [| | | | | | |d]; try discriminate.
  unfold count_student, primary_end_years, lacks_primary.
  cbn [education_iterable Spec.education_entries] in *. rewrite !get_dict.
  cbn [mbind res_bind Py.bind].
  destruct (lookup_item "education_records" d) as [v|].
  - destruct v as [| | | | | |l|]; try discriminate Hit.
    cbn [default from_option id iter mbind res_bind Py.bind].
    destruct (scan_education_advanced l false c Hit) as (c' & -> & Hadv).
    cbn [mbind res_bind Py.bind orb].
    destruct (existsb is_primary_entry l); cbn [negb andb].
    + rewrite andb_false_r. exists c'. split; [reflexivity|exact Hadv].
    + rewrite andb_true_r. destruct (truthy (VList l)).
      * eexists. split; [reflexivity|].
        destruct Hadv as (A1 & A2 & A3 & A4). unfold advanced.
        cbn [year_counts special_count no_primary_count].
        repeat split; lia.
      * exists c'. split; [reflexivity|exact Hadv].
  - cbn. exists c. split; [reflexivity|apply advanced_refl].
Qed.

Lemma lacking_app (l1 l2 : list value) :
  lacking (l1 ++ l2) = lacking l1 + lacking l2.
Proof. unfold lacking. rewrite List.filter_app, length_app. lia. Qed.

Lemma count_students_advanced (batch : list value) (c : counters) :
  forallb education_iterable batch = true →
  ∃ c', count_students batch c = Ok c'
        ∧ advanced c c' (flat_map primary_end_years batch) (lacking batch).
Proof.
  revert c. induction batch as [|s rest IH]; intros c.
  - intros _. exists c. split; [reflexivity|apply advanced_refl].
  - intros [Hs Hrest]%andb_prop. cbn [count_students flat_map].
    destruct (count_student_advanced c s Hs) as (c1 & -> & H1).
    cbn [mbind res_bind Py.bind].
    destruct (IH c1 Hrest) as (c' & -> & H2). exists c'.
    split; [reflexivity|].
    change (s :: rest) with ([s] ++ rest). rewrite lacking_app.
    replace (lacking [s]) with (if lacks_primary s then 1 else 0)
      by (unfold lacking; cbn; destruct (lacks_primary s); reflexivity).
    exact (advanced_trans _ _ _ _ _ _ _ H1 H2).
Qed.

Lemma count_of_touch (year k : string) (m : gmap string Z) :
  count_of (touch year m) k = count_of m k.
Proof.
  unfold touch. destruct (String.string_dec year k) as [->|Hne].
  - apply count_of_insert_eq.
  - apply count_of_insert_ne. exact Hne.
Qed.

Lemma process_batch_advanced (batch : list value) :
  forallb education_iterable batch = true →
  ∃ c', process_batch batch = Ok c'
        ∧ advanced zero c' (flat_map primary_end_years batch) (lacking batch).
Proof.
  intros H. unfold process_batch.
  destruct (count_students_advanced batch zero H) as (c & -> & Hadv).
  eexists. split; [reflexivity|].
  destruct Hadv as (A1 & A2 & A3 & A4). unfold advanced.
  cbn [year_counts special_count no_primary_count].
  rewrite !count_of_touch. auto.
Qed.

(** Merging a batch into the totals adds the year counts key by key. *)
Lemma count_of_merge (total batch_results : counters) (k : string) :
  count_of (year_counts (merge total batch_results)) k
  = count_of (year_counts total) k + count_of (year_counts batch_results) k.
Proof.
  unfold merge. cbn [year_counts].
  generalize (year_counts batch_results). intros m.
  apply (map_fold_weak_ind
           (λ r m, count_of r k = count_of (year_counts total) k + count_of m k)).
  - unfold count_of at 3. rewrite lookup_empty. cbn. lia.
  - intros i x m' r Hnone IH.
    destruct (String.string_dec i k) as [->|Hne].
    + rewrite !count_of_insert_eq.
      assert (Hz : count_of m' k = 0) by (unfold count_of; rewrite Hnone; reflexivity).
      lia.
    + rewrite !count_of_insert_ne by exact Hne. exact IH.
Qed.

Lemma merge_advanced (total batch_results : counters) (ys1 ys2 : list value)
  (n1 n2 : Z) :
  advanced zero total ys1 n1 → advanced zero batch_results ys2 n2 →
  advanced zero (merge total batch_results) (ys1 ++ ys2) (n1 + n2).
Proof.
  unfold advanced. rewrite !bucket_count_app, !count_of_merge.
  cbn [merge special_count no_primary_count].
  intros (A1 & A2 & A3 & A4) (B1 & B2 & B3 & B4).
  change (count_of (year_counts zero) "2026") with 0 in *.
  change (count_of (year_counts zero) "2027") with 0 in *.
  change (special_count zero) with 0 in *.
  change (no_primary_count zero) with 0 in *.
  repeat split; lia.
Qed.

Lemma cursor_loop_advanced (cursor current_batch done : list value)
  (total : counters) :
  forallb education_iterable (current_batch ++ cursor) = true →
  advanced zero total (flat_map primary_end_years done) (lacking done) →
  ∃ batch' total' done',
    cursor_loop cursor current_batch total = Ok (batch', total')
    ∧ advanced zero total' (flat_map primary_end_years done') (lacking done')
    ∧ done' ++ batch' = done ++ current_batch ++ cursor
    ∧ forallb education_iterable batch' = true.
Proof.
  revert current_batch done total.
  induction cursor as [|s rest IH]; intros batch done total Hit Hadv.
  - exists batch, total, done. rewrite app_nil_r in *. auto.
  - cbn [cursor_loop].
    replace (batch ++ s :: rest) with ((batch ++ [s]) ++ rest) in *
      by (rewrite <- app_assoc; reflexivity).
    set (B := batch ++ [s]) in *.
    destruct (BATCH_SIZE <=? List.length B)%nat.
    + rewrite forallb_app in Hit. apply andb_prop in Hit as [HB Hrest].
      destruct (process_batch_advanced B HB) as (r & -> & Hr).
      cbn [mbind res_bind Py.bind].
      destruct (IH [] (done ++ B) (merge total r)) as (b' & t' & d' & H1 & H2 & H3 & H4).
      * exact Hrest.
      * rewrite flat_map_app, lacking_app. exact (merge_advanced _ _ _ _ _ _ Hadv Hr).
      * exists b', t', d'. split; [exact H1|]. split; [exact H2|].
        split; [|exact H4]. rewrite H3. cbn [app]. rewrite <- app_assoc.
        reflexivity.
    + destruct (IH B done total Hit Hadv) as (b' & t' & d' & H1 & H2 & H3 & H4).
      exists b', t', d'. auto.
Qed.

Lemma shares_ok (nums : list Z) (denom : Z) :
  ∃ qs, mapM (λ num, safe_percentage num denom) nums = Ok qs.
Proof.
  apply mapM_res_ok. apply List.Forall_forall. intros num _.
  destruct (safe_percentage_guarded num denom) as (q & Hq & _).
  exists q. exact Hq.
Qed.

(** Records without education records have no entry to count. *)
Lemma no_records_nothing_to_count (student : value) :
  education_iterable student = true → has_education_records student = false →
  primary_end_years student = [] ∧ lacks_primary student = false.
Proof.
  destruct student as [| | | | | | |d]; try discriminate.
  unfold primary_end_years, lacks_primary.
  cbn [education_iterable has_education_records Spec.education_entries].
  destruct (lookup_item "education_records" d) as [v|]; [|auto].
  destruct v as [| | | | | |l|]; try discriminate.
  destruct l; [auto|discriminate].
Qed.

Lemma filter_records_same_counts (collection : list value) :
  forallb education_iterable collection = true →
  flat_map primary_end_years (List.filter has_education_records collection)
  = flat_map primary_end_years collection
  ∧ lacking (List.filter has_education_records collection) = lacking collection.
Proof.
  induction collection as [|s rest IH]; [auto|].
  intros [Hs Hrest]%andb_prop. destruct (IH Hrest) as [IH1 IH2].
  cbn [List.filter flat_map].
  change (s :: rest) with ([s] ++ rest). rewrite (lacking_app [s] rest).
  destruct (has_education_records s) eqn:Hhas.
  - cbn [flat_map]. rewrite IH1.
    change (s :: List.filter has_education_records rest)
      with ([s] ++ List.filter has_education_records rest).
    rewrite lacking_app, IH2. auto.
  - destruct (no_records_nothing_to_count s Hs Hhas) as [-> Hl].
    rewrite IH1, IH2. split; [reflexivity|].
    unfold lacking at 2. cbn. rewrite Hl. cbn. lia.
Qed.

(** X13. On a collection whose records the loop can walk (documents
    whose education records are absent or a list of documents),
    education_count.py completes, whatever the batching, and its figures
    are counts of entries, not of students: the 2026 and 2027 figures
    are the numbers of primary entries in the whole collection whose end
    year equals that year, the special figure the number of primary
    entries whose end year is null, not an integer, below 2023 or above
    2027, and the no-primary figure the number of records that have
    education entries but no primary one. *)
Theorem education_count_figures (collection : list value) :
  forallb education_iterable collection = true →
  ∃ s, EducationCount.main collection = Ok s
       ∧ total_students s = Z.of_nat (List.length collection)
       ∧ graduating_2026 s = in_bucket Year2026 collection
       ∧ graduating_2027 s = in_bucket Year2027 collection
       ∧ special_cases s = in_bucket Special collection
       ∧ no_primary s = lacking collection.
Proof.
  intros Hit. unfold EducationCount.main.
  set (cursor := List.filter has_education_records collection).
  assert (Hcur : forallb education_iterable cursor = true).
  { apply forallb_forall. intros x [Hx _]%filter_In.
    rewrite forallb_forall in Hit. exact (Hit x Hx). }
  destruct (cursor_loop_advanced cursor [] [] zero Hcur (advanced_refl zero))
    as (batch & total & done & -> & Hadv & Hsplit & Hbatch).
  cbn [app] in Hsplit. cbn [mbind res_bind Py.bind].
  assert (Hfinal : ∃ final,
            (if truthy (VList batch)
             then batch_results ← process_batch batch;
                  mret (merge total batch_results)
             else mret total) = Ok final
            ∧ advanced zero final (flat_map primary_end_years cursor)
                (lacking cursor)).
  { rewrite <- Hsplit. destruct batch as [|b batch].
    - exists total. rewrite app_nil_r. split; [reflexivity|exact Hadv].
    - cbn [truthy]. destruct (process_batch_advanced _ Hbatch) as (r & -> & Hr).
      eexists. split; [reflexivity|].
      rewrite flat_map_app, lacking_app.
      exact (merge_advanced _ _ _ _ _ _ Hadv Hr). }
  destruct Hfinal as (final & -> & Hfin). cbn [mbind res_bind Py.bind].
  destruct (shares_ok
              [total_primary_education final;
               count_of (year_counts final) "2026";
               count_of (year_counts final) "2027"; special_count final;
               Z.of_nat (List.length
                           (List.filter (λ d, negb (has_education_records d))
                              collection));
               no_primary_count final]
              (Z.of_nat (List.length collection))) as [qs ->].
  cbn [mbind res_bind Py.bind mret res_ret]. eexists. split; [reflexivity|].
  cbn [total_students graduating_2026 graduating_2027 special_cases no_primary].
  destruct (filter_records_same_counts collection Hit) as [Hys Hl].
  fold cursor in Hys, Hl. destruct Hfin as (A1 & A2 & A3 & A4).
  unfold in_bucket. rewrite <- Hys, <- Hl.
  change (count_of (year_counts zero) "2026") with 0 in *.
  change (count_of (year_counts zero) "2027") with 0 in *.
  change (special_count zero) with 0 in *.
  change (no_primary_count zero) with 0 in *.
  repeat split; lia.
Qed.

Lemma education_count_figures_witness :
  ∃ s, EducationCount.main [Sample.two_primaries; Sample.ends_2024; VDict []]
       = Ok s
       ∧ graduating_2026 s
         = in_bucket Year2026
             [Sample.two_primaries; Sample.ends_2024; VDict []].
Proof.
  destruct (education_count_figures
              [Sample.two_primaries; Sample.ends_2024; VDict []] eq_refl)
    as (s & Hmain & _ & H26 & _).
  exists s. split; [exact Hmain|exact H26].
Defined.

(** ** college_skill.py: bands per college *)

Lemma college_skill_row_shape (student : value) (r : gmap string value) :
  CollegeSkill.analyze_student_record student = Ok r → band_row r.
Proof.
  intros H. destruct (college_skill_record_category _ _ H) as (n & Hn & _ & Hc).
  exists (skills_category n). split; [apply skills_category_label, Hn|exact Hc].
Qed.

(** The five categories partition the rows of a frame. *)
Lemma categories_partition_rows (df : Frame.frame) :
  Forall band_row (Frame.rows df) →
  rows_in_category df "0 skills" + rows_in_category df "1-3 skills"
  + rows_in_category df "4-6 skills" + rows_in_category df "7-10 skills"
  + rows_in_category df "10+ skills"
  = Frame.length df.
Proof.
  unfold rows_in_category, Frame.length, Frame.select. cbn [Frame.rows].
  generalize (Frame.rows df). intros rows.
  induction 1 as [|r rows (label & Hl & Hcell) _ IH]; [reflexivity|].
  cbn [List.filter]. rewrite Hcell. cbn [default from_option id].
  simpl in Hl.
  destruct Hl as [<-|[<-|[<-|[<-|[<-|[]]]]]];
    cbn [Frame.value_eqb]; cbn [String.eqb Ascii.eqb Bool.eqb andb];
    cbn [List.length]; lia.
Qed.

Lemma category_counts (df : Frame.frame) (counts : list (string * Z)) :
  mapM (λ category,
          count ← CollegeSkill.category_count df category;
          mret (category, count))
       CollegeSkill.skills_categories = Ok counts →
  counts = map (λ category, (category, rows_in_category df category))
               CollegeSkill.skills_categories.
Proof.
  unfold CollegeSkill.skills_categories, CollegeSkill.category_count.
  cbn [mapM]. destruct (Frame.column df "skills_category");
    cbn [mbind res_bind Py.bind mret res_ret]; [|discriminate].
  intros [= <-]. reflexivity.
Qed.

Lemma category_counts_total (df : Frame.frame) :
  Forall band_row (Frame.rows df) →
  column_total (map (λ category, (category, rows_in_category df category))
                    CollegeSkill.skills_categories)
  = Frame.length df
  ∧ Forall (λ row, 0 <= row.2)
      (map (λ category, (category, rows_in_category df category))
           CollegeSkill.skills_categories).
Proof.
  intros H. split.
  - rewrite <- (categories_partition_rows df H).
    unfold column_total, CollegeSkill.skills_categories. cbn. lia.
  - apply Forall_map, List.Forall_forall. intros c _. cbn.
    unfold rows_in_category, Frame.length. lia.
Qed.

Lemma college_skill_summarize_row (df : Frame.frame) (college : value)
  (r : CollegeSkill.college_summary) :
  Forall band_row (Frame.rows df) →
  CollegeSkill.summarize df college = Ok r →
  CollegeSkill.Total_Students r
  = Z.of_nat (count_eq Frame.value_eqb college
                (map (λ row, default VNone (row !! "college_name"))
                     (Frame.rows df)))
  ∧ map fst (CollegeSkill.by_category r) = CollegeSkill.skills_categories
  ∧ Forall (λ row, 0 <= row.2) (CollegeSkill.by_category r)
  ∧ column_total (CollegeSkill.by_category r) = CollegeSkill.Total_Students r.
Proof.
  intros Hrows. unfold CollegeSkill.summarize.
  set (college_df := Frame.select df "college_name" college).
  pose proof (select_rows_Forall _ df "college_name" college Hrows) as Hsel.
  fold college_df in Hsel.
  destruct (mapM _ CollegeSkill.skills_categories) as [counts|] eqn:Hc;
    cbn [mbind res_bind Py.bind mret res_ret]; [|discriminate].
  apply category_counts in Hc. intros [= <-].
  cbn [CollegeSkill.Total_Students CollegeSkill.by_category].
  destruct (category_counts_total college_df Hsel) as [Htot Hpos].
  rewrite Hc. split.
  - unfold Frame.length, college_df, count_eq. cbn.
    rewrite filter_map_comm, length_map. reflexivity.
  - split; [reflexivity|]. split; [exact Hpos|exact Htot].
Qed.

(** X14. In a run of college_skill.py that completes on records whose
    college names are texts, every row lists the five categories in
    order with counts that are never negative and add up to the row's
    number of students; the rows' students add up to the number of
    records in the collection; and so do the five counts of the overall
    distribution. *)
Theorem college_skill_report_adds_up (collection : list value)
  (summary_data : list CollegeSkill.college_summary)
  (overall : list (string * Z)) (shares : list (string * Q)) :
  forallb college_is_text collection = true →
  CollegeSkill.main collection = Ok (summary_data, overall, shares) →
  Forall (λ r, map fst (CollegeSkill.by_category r)
               = CollegeSkill.skills_categories
               ∧ Forall (λ row, 0 <= row.2) (CollegeSkill.by_category r)
               ∧ column_total (CollegeSkill.by_category r)
                 = CollegeSkill.Total_Students r) summary_data
  ∧ fold_right Z.add 0 (map CollegeSkill.Total_Students summary_data)
    = Z.of_nat (List.length collection)
  ∧ map fst overall = CollegeSkill.skills_categories
  ∧ column_total overall = Z.of_nat (List.length collection).
Proof.
  intros _. unfold CollegeSkill.main, CollegeSkill.process_batch.
  rewrite read_all_mapM.
  destruct (mapM CollegeSkill.analyze_student_record collection)
    as [dicts|] eqn:Hread; cbn [mbind res_bind Py.bind]; [|discriminate].
  assert (Hshape : Forall band_row (Frame.rows (Frame.DataFrame dicts))).
  { cbn. eapply mapM_res_Forall; [exact college_skill_row_shape|exact Hread]. }
  assert (Hlen : Frame.length (Frame.DataFrame dicts)
                 = Z.of_nat (List.length collection)).
  { unfold Frame.length. cbn. rewrite (mapM_res_length _ _ _ Hread).
    reflexivity. }
  set (df := Frame.DataFrame dicts) in *.
  destruct (Frame.column df "college_name") as [names|] eqn:Hnames;
    cbn [mbind res_bind Py.bind]; [|discriminate].
  assert (Hn : names = map (λ row, default VNone (row !! "college_name")) dicts).
  { unfold Frame.column in Hnames. destruct (bool_decide _); [|discriminate].
    injection Hnames as <-. reflexivity. }
  destruct (mapM (CollegeSkill.summarize df) (Frame.unique names))
    as [rows|] eqn:Hrows; cbn [mbind res_bind Py.bind]; [|discriminate].
  destruct (mapM (λ category,
                    count ← CollegeSkill.category_count df category;
                    mret (category, count))
                 CollegeSkill.skills_categories) as [ov|] eqn:Hov;
    cbn [mbind res_bind Py.bind]; [|discriminate].
  apply category_counts in Hov.
  destruct (mapM _ CollegeSkill.skills_categories) as [sh|];
    cbn [mbind res_bind Py.bind mret res_ret]; [|discriminate].
  intros Hres. inversion Hres. subst summary_data overall shares. clear Hres.
  apply mapM_res_Forall2 in Hrows.
  assert (Hall : Forall2 (λ college r,
            CollegeSkill.Total_Students r
            = Z.of_nat (count_eq Frame.value_eqb college names)
            ∧ map fst (CollegeSkill.by_category r) = CollegeSkill.skills_categories
            ∧ Forall (λ row, 0 <= row.2) (CollegeSkill.by_category r)
            ∧ column_total (CollegeSkill.by_category r)
              = CollegeSkill.Total_Students r)
            (Frame.unique names) rows).
  { eapply Forall2_impl; [exact Hrows|]. intros college r Hr. cbn beta in Hr.
    rewrite Hn. exact (college_skill_summarize_row df college r Hshape Hr). }
  destruct (category_counts_total df Hshape) as [Htot _].
  split; [|split; [|split]].
  - clear -Hall. induction Hall as [|c r cs rs (_ & Hr) _ IH]; constructor; auto.
  - transitivity (Z.of_nat (sum_list_with
                              (λ c, count_eq Frame.value_eqb c names)
                              (Frame.unique names))).
    + clear -Hall. induction Hall as [|c r cs rs (Hc & _) _ IH]; [reflexivity|].
      cbn. rewrite IH, Hc. lia.
    + rewrite unique_distinct, (sum_count_distinct Frame.value_eqb).
      * rewrite Hn, length_map. f_equal. exact (mapM_res_length _ _ _ Hread).
      * exact value_eqb_refl.
      * exact value_eqb_sym.
      * exact value_eqb_trans.
  - rewrite Hov. reflexivity.
  - rewrite Hov, Htot. exact Hlen.
Qed.

Lemma college_skill_report_adds_up_witness :
  ∃ summary_data overall shares,
    CollegeSkill.main [Sample.ends_2024; Sample.two_primaries; VDict []]
    = Ok (summary_data, overall, shares)
    ∧ column_total overall = 3.
Proof.
  eexists _, _, _. split; [reflexivity|].
  exact (proj2 (proj2 (proj2
           (college_skill_report_adds_up
              [Sample.ends_2024; Sample.two_primaries; VDict []]
              _ _ _ eq_refl eq_refl)))).
Defined.

(** ** Graduation years by batch (new_education.py) *)

Lemma sum_values_bump (m : gmap Z Z) (k : Z) :
  map_fold (λ _ count acc, count + acc) 0
    (<[k := NewEducation.year_count m k + 1]> m)
  = map_fold (λ (_ : Z) count acc, count + acc) 0 m + 1.
Proof.
  unfold NewEducation.year_count.
  destruct (m !! k) as [x|] eqn:Hk; cbn [default from_option id].
  - rewrite <- (insert_delete_id m k x Hk) at 2.
    rewrite <- (insert_delete_eq m k (x + 1)).
    rewrite !map_fold_insert_L;
      first [apply lookup_delete_eq | intros; lia].
  - rewrite map_fold_insert_L; [lia|intros; lia|exact Hk].
Qed.

Lemma tallied_refl (c : NewEducation.counters) : tallied c c [] 0.
Proof.
  unfold tallied, ending_in, undated. cbn [List.filter List.length].
  repeat split; intros; lia.
Qed.

Lemma tallied_trans (c1 c2 c3 : NewEducation.counters) (ys1 ys2 : list value)
  (n1 n2 : Z) :
  tallied c1 c2 ys1 n1 → tallied c2 c3 ys2 n2 →
  tallied c1 c3 (ys1 ++ ys2) (n1 + n2).
Proof.
  intros (A1 & A2 & A3 & A4) (B1 & B2 & B3 & B4).
  unfold tallied, ending_in, undated in *.
  repeat split; intros;
    rewrite ?List.filter_app, ?length_app, ?Nat2Z.inj_add, ?B1, ?A1; lia.
Qed.

Lemma count_end_year_tallied (y : value) (c : NewEducation.counters) :
  tallied c (NewEducation.count_end_year y c) [y] 0.
Proof.
  unfold tallied, NewEducation.count_end_year, ending_in, undated,
    NewEducation.total_with_primary_education.
  assert (Hy : (if negb (is_None y) then as_int y else None) = as_int y).
  { destruct y; reflexivity. }
  rewrite Hy. cbn [List.filter].
  destruct (as_int y) as [k|] eqn:Hk;
    cbn [NewEducation.year_counts NewEducation.no_end_year_count
         NewEducation.no_primary_count].
  - rewrite sum_values_bump.
    rewrite (bool_decide_eq_false_2 (Some k = None)) by discriminate.
    repeat split; try (cbn [List.length]; lia).
    intros year. unfold NewEducation.year_count at 1.
    destruct (decide (k = year)) as [->|Hne].
    + rewrite lookup_insert_eq.
      rewrite (bool_decide_eq_true_2 (Some year = Some year)) by reflexivity.
      cbn [default from_option id List.length]. lia.
    + rewrite lookup_insert_ne by exact Hne.
      rewrite (bool_decide_eq_false_2 (Some k = Some year)) by congruence.
      unfold NewEducation.year_count. cbn [List.length]. lia.
  - rewrite (bool_decide_eq_true_2 (None = None)) by reflexivity.
    repeat split; try (cbn [List.length]; lia).
    intros year.
    rewrite (bool_decide_eq_false_2 (None = Some year)) by discriminate.
    cbn [List.length]. lia.
Qed.

Lemma new_scan_education_tallied (records : list value) (has_primary : bool)
  (c : NewEducation.counters) :
  forallb Spec.is_dict records = true →
  ∃ c', NewEducation.scan_education records has_primary c
        = Ok (has_primary || existsb is_primary_entry records, c')
        ∧ tallied c c'
            (map (λ e, Spec.field e "end_year")
                 (List.filter is_primary_entry records)) 0.
Proof.
  revert has_primary c.
  induction records as [|r rest IH]; intros has_primary c.
  - intros _. exists c. cbn. rewrite orb_false_r.
    split; [reflexivity|apply tallied_refl].
  - intros [Hd Hrest]%andb_prop.
    destruct r as [| | | | | | |d]; try discriminate Hd.
    cbn [NewEducation.scan_education List.filter existsb]. rewrite !get_dict.
    cbn [mbind res_bind Py.bind]. unfold is_primary_entry at 1 3.
    cbn [Spec.field].
    assert (Ht : truthy (default (VBool false) (lookup_item "is_primary" d))
                 = truthy (default VNone (lookup_item "is_primary" d))).
    { destruct (lookup_item "is_primary" d); reflexivity. }
    rewrite Ht.
    destruct (truthy (default VNone (lookup_item "is_primary" d))).
    + destruct (IH true (NewEducation.count_end_year
                           (default VNone (lookup_item "end_year" d)) c) Hrest)
        as (c' & Hrun & Hadv).
      exists c'. rewrite Hrun. rewrite orb_true_r. cbn [orb map].
      split; [reflexivity|].
      exact (tallied_trans _ _ _ [_] _ 0 0
               (count_end_year_tallied _ c) Hadv).
    + destruct (IH has_primary c Hrest) as (c' & Hrun & Hadv).
      exists c'. rewrite Hrun. cbn [orb]. split; [reflexivity|exact Hadv].
Qed.

Lemma new_count_student_tallied (c : NewEducation.counters) (student : value) :
  education_iterable student = true →
  ∃ c', NewEducation.count_student c student = Ok c'
        ∧ tallied c c' (primary_end_years student)
            (if lacks_primary student then 1 else 0).
Proof.
  intros Hit. destruct student as [| | | | | | |d]; try discriminate.
  unfold NewEducation.count_student, primary_end_years, lacks_primary.
  cbn [education_iterable Spec.education_entries] in *. rewrite !get_dict.
  cbn [mbind res_bind Py.bind].
  destruct (lookup_item "education_records" d) as [v|].
  - destruct v as [| | | | | |l|]; try discriminate Hit.
    cbn [default from_option id iter mbind res_bind Py.bind].
    destruct (new_scan_education_tallied l false c Hit) as (c' & -> & Hadv).
    cbn [mbind res_bind Py.bind orb].
    destruct (existsb is_primary_entry l); cbn [negb andb].
    + rewrite andb_false_r. exists c'. split; [reflexivity|exact Hadv].
    + rewrite andb_true_r. destruct (truthy (VList l)).
      * eexists. split; [reflexivity|].
        destruct Hadv as (A1 & A2 & A3 & A4).
        unfold tallied, NewEducation.total_with_primary_education in *.
        cbn [NewEducation.year_counts NewEducation.no_end_year_count
             NewEducation.no_primary_count] in *.
        repeat split; try lia. exact A1.
      * exists c'. split; [reflexivity|exact Hadv].
  - cbn. exists c. split; [reflexivity|apply tallied_refl].
Qed.

Lemma new_count_students_tallied (batch : list value)
  (c : NewEducation.counters) :
  forallb education_iterable batch = true →
  ∃ c', NewEducation.count_students batch c = Ok c'
        ∧ tallied c c' (flat_map primary_end_years batch) (lacking batch).
Proof.
  revert c. induction batch as [|s rest IH]; intros c.
  - intros _. exists c. split; [reflexivity|apply tallied_refl].
  - intros [Hs Hrest]%andb_prop.
    destruct (new_count_student_tallied c s Hs) as (c1 & Hrun1 & Hadv1).
    destruct (IH c1 Hrest) as (c2 & Hrun2 & Hadv2).
    exists c2. cbn [NewEducation.count_students]. rewrite Hrun1.
    cbn [mbind res_bind Py.bind]. split; [exact Hrun2|].
    cbn [flat_map].
    replace (lacking (s :: rest))
      with ((if lacks_primary s then 1 else 0) + lacking rest).
    + exact (tallied_trans _ _ _ _ _ _ _ Hadv1 Hadv2).
    + unfold lacking. cbn [List.filter].
      destruct (lacks_primary s); cbn [List.length]; lia.
Qed.

(** X15. new_education.py, [process_batch]: on a batch of documents
    whose education records are absent or lists of documents, the batch
    completes; the count stored under a year is the number of primary
    entries of the batch whose end year is that integer, the end-year-less
    count is the number of primary entries whose end year is null or not
    an integer, and the no-primary count is the number of records with
    entries none of which is primary.  The year counts and the
    end-year-less count add up to the number of primary entries, so a
    record with two primary entries is counted twice in that sum. *)
Theorem new_education_batch_counts (batch : list value) :
  forallb education_iterable batch = true →
  ∃ c, NewEducation.process_batch batch = Ok c
       ∧ (∀ year,
            NewEducation.year_count (NewEducation.year_counts c) year
            = ending_in year (flat_map primary_end_years batch))
       ∧ NewEducation.no_end_year_count c
         = undated (flat_map primary_end_years batch)
       ∧ NewEducation.no_primary_count c = lacking batch
       ∧ NewEducation.total_with_primary_education c
         = Z.of_nat (List.length (flat_map primary_end_years batch)).
Proof.
  intros Hit.
  destruct (new_count_students_tallied batch NewEducation.zero Hit)
    as (c & Hrun & A1 & A2 & A3 & A4).
  exists c. split; [exact Hrun|].
  repeat split.
  - intros year. rewrite A1. reflexivity.
  - rewrite A3. reflexivity.
  - rewrite A4. reflexivity.
  - rewrite A2. reflexivity.
Qed.

Lemma new_education_batch_counts_witness :
  forallb education_iterable
    [Sample.two_primaries; Sample.ends_2024; Sample.college_named_unknown]
  = true
  ∧ ∃ c, NewEducation.process_batch
           [Sample.two_primaries; Sample.ends_2024;
            Sample.college_named_unknown] = Ok c
         ∧ (∀ year,
              NewEducation.year_count (NewEducation.year_counts c) year
              = ending_in year
                  (flat_map primary_end_years
                     [Sample.two_primaries; Sample.ends_2024;
                      Sample.college_named_unknown]))
         ∧ NewEducation.no_end_year_count c
           = undated (flat_map primary_end_years
                        [Sample.two_primaries; Sample.ends_2024;
                         Sample.college_named_unknown])
         ∧ NewEducation.no_primary_count c
           = lacking [Sample.two_primaries; Sample.ends_2024;
                      Sample.college_named_unknown]
         ∧ NewEducation.total_with_primary_education c
           = Z.of_nat (List.length
                         (flat_map primary_end_years
                            [Sample.two_primaries; Sample.ends_2024;
                             Sample.college_named_unknown])).
Proof.
  split; [reflexivity|].
  apply (new_education_batch_counts
           [Sample.two_primaries; Sample.ends_2024;
            Sample.college_named_unknown]).
  reflexivity.
Defined.

(** ** The id lists of student_education.py *)

Lemma flags_scan_education (records : list value)
  (has_primary has_primary_with_end_year : bool) :
  forallb Spec.is_dict records = true →
  StudentEducation.scan_education records has_primary
    has_primary_with_end_year
  = Ok (has_primary || existsb is_primary_entry records,
        has_primary_with_end_year || existsb dated_primary_entry records).
Proof.
  revert has_primary has_primary_with_end_year.
  induction records as [|r rest IH]; intros hp hpe.
  - intros _. cbn. rewrite !orb_false_r. reflexivity.
  - intros [Hd Hrest]%andb_prop.
    destruct r as [| | | | | | |d]; try discriminate Hd.
    cbn [StudentEducation.scan_education existsb]. rewrite !get_dict.
    cbn [mbind res_bind Py.bind].
    unfold dated_primary_entry at 1. unfold is_primary_entry at 1 3.
    cbn [Spec.field].
    assert (Ht : truthy (default (VBool false) (lookup_item "is_primary" d))
                 = truthy (default VNone (lookup_item "is_primary" d))).
    { destruct (lookup_item "is_primary" d); reflexivity. }
    rewrite Ht.
    destruct (truthy (default VNone (lookup_item "is_primary" d)));
      cbn [andb orb].
    + destruct (is_None (default VNone (lookup_item "end_year" d)));
        cbn [negb]; rewrite IH by exact Hrest;
        rewrite ?orb_true_r; reflexivity.
    + rewrite IH by exact Hrest. reflexivity.
Qed.

Lemma classify_student_lists (ids1 ids2 : list value) (student : value) :
  education_iterable student = true → has_id student = true →
  StudentEducation.classify_student (ids1, ids2) student
  = Ok (ids1 ++ (if without_primary student
                 then [Spec.field student "_id"] else []),
        ids2 ++ (if primary_without_end_year student
                 then [Spec.field student "_id"] else [])).
Proof.
  intros Hit Hid. destruct student as [| | | | | | |d]; try discriminate.
  unfold StudentEducation.classify_student, without_primary,
    primary_without_end_year.
  cbn [education_iterable has_id Spec.education_entries Spec.field getitem]
    in *.
  apply bool_decide_eq_true_1 in Hid. destruct Hid as [i Hi]. rewrite Hi.
  cbn [mbind res_bind Py.bind default from_option id]. rewrite !get_dict.
  cbn [mbind res_bind Py.bind].
  destruct (lookup_item "education_records" d) as [v|].
  - destruct v as [| | | | | |l|]; try discriminate Hit.
    cbn [default from_option id iter mbind res_bind Py.bind].
    rewrite flags_scan_education by exact Hit.
    cbn [mbind res_bind Py.bind orb].
    destruct (existsb is_primary_entry l); cbn [negb andb].
    + destruct (existsb dated_primary_entry l); cbn [negb];
        rewrite ?app_nil_r; reflexivity.
    + rewrite app_nil_r. reflexivity.
  - cbn. rewrite app_nil_r. reflexivity.
Qed.

Lemma classify_students_lists (batch ids1 ids2 : list value) :
  forallb education_iterable batch = true → forallb has_id batch = true →
  StudentEducation.classify_students batch (ids1, ids2)
  = Ok (ids1 ++ map (λ s, Spec.field s "_id")
                    (List.filter without_primary batch),
        ids2 ++ map (λ s, Spec.field s "_id")
                    (List.filter primary_without_end_year batch)).
Proof.
  revert ids1 ids2. induction batch as [|s rest IH]; intros ids1 ids2.
  - intros _ _. cbn. rewrite !app_nil_r. reflexivity.
  - intros [Hs Hrest]%andb_prop [Hi Hirest]%andb_prop.
    cbn [StudentEducation.classify_students List.filter].
    rewrite classify_student_lists by assumption.
    cbn [mbind res_bind Py.bind]. rewrite IH by assumption.
    destruct (without_primary s), (primary_without_end_year s);
      cbn [map]; rewrite <- ?app_assoc, ?app_nil_r; reflexivity.
Qed.

(** X16. student_education.py, [process_education_batch]: on a batch of
    documents that have an [_id] and whose education records are absent
    or lists of documents, the first list holds, in batch order, the ids
    of the records without a primary entry (records without any entry
    included) and the second the ids of the records that have a primary
    entry but none with a non-null end year. *)
Theorem education_batch_id_lists (batch : list value) :
  forallb education_iterable batch = true → forallb has_id batch = true →
  StudentEducation.process_education_batch batch
  = Ok (map (λ s, Spec.field s "_id") (List.filter without_primary batch),
        map (λ s, Spec.field s "_id")
            (List.filter primary_without_end_year batch)).
Proof.
  intros Hit Hid. unfold StudentEducation.process_education_batch.
  rewrite classify_students_lists by assumption. reflexivity.
Qed.

Lemma education_batch_id_lists_witness :
  forallb education_iterable
    [Sample.student [] [];
     VDict [("_id", VObjectId 2);
            ("education_records",
             VList [Sample.entry (VBool true) "X" VNone;
                    Sample.entry (VBool false) "Y" (VInt 2020)])];
     Sample.ends_2024] = true
  ∧ forallb has_id
      [Sample.student [] [];
       VDict [("_id", VObjectId 2);
              ("education_records",
               VList [Sample.entry (VBool true) "X" VNone;
                      Sample.entry (VBool false) "Y" (VInt 2020)])];
       Sample.ends_2024] = true
  ∧ StudentEducation.process_education_batch
      [Sample.student [] [];
       VDict [("_id", VObjectId 2);
              ("education_records",
               VList [Sample.entry (VBool true) "X" VNone;
                      Sample.entry (VBool false) "Y" (VInt 2020)])];
       Sample.ends_2024]
    = Ok ([VObjectId 1], [VObjectId 2]).
Proof.
  split; [reflexivity|]. split; [reflexivity|].
  exact (education_batch_id_lists
           [Sample.student [] [];
            VDict [("_id", VObjectId 2);
                   ("education_records",
                    VList [Sample.entry (VBool true) "X" VNone;
                           Sample.entry (VBool false) "Y" (VInt 2020)])];
            Sample.ends_2024] eq_refl eq_refl).
Defined.

(** ** The highest degree (extract_education.py) *)

Section HighestDegree.

Variable gt : value → value → res bool.
Hypothesis gt_int : ∀ a b, gt (VInt a) (VInt b) = Ok (b <? a).

Lemma year_key_known (x : value) :
  year_known x = true →
  ExtractEducation.year_key x = Ok (VInt (ranking_year x)).
Proof.
  destruct x as [| | | | | | |d]; try discriminate.
  unfold ExtractEducation.year_key, ranking_year.
  cbn [year_known Spec.field]. rewrite !get_dict.
  cbn [mbind res_bind Py.bind].
  destruct (lookup_item "year" d) as [[| |n| | | | |]|];
    try discriminate; reflexivity.
Qed.

Lemma max_loop_first_latest (items : list value) (best : value) :
  year_known best = true → forallb year_known items = true →
  ∃ pre h post,
    best :: items = pre ++ h :: post
    ∧ Forall (λ e, ranking_year e < ranking_year h) pre
    ∧ Forall (λ e, ranking_year e <= ranking_year h) post
    ∧ ranking_year best <= ranking_year h
    ∧ year_known h = true
    ∧ ExtractEducation.max_loop gt items best (VInt (ranking_year best))
      = Ok h.
Proof.
  revert best. induction items as [|x rest IH]; intros best Hb.
  - intros _. exists [], best, [].
    repeat split; try constructor; try lia; try exact Hb.
  - intros [Hx Hrest]%andb_prop.
    cbn [ExtractEducation.max_loop]. rewrite (year_key_known x Hx).
    cbn [mbind res_bind Py.bind]. rewrite gt_int.
    cbn [mbind res_bind Py.bind].
    destruct (ranking_year best <? ranking_year x) eqn:Hcmp.
    + apply Z.ltb_lt in Hcmp.
      destruct (IH x Hx Hrest) as (pre & h & post & E & Hpre & Hpost & Hle
                                    & Hk & Hrun).
      exists (best :: pre), h, post. rewrite E.
      repeat split; try assumption; try lia.
      apply (@List.Forall_cons _ (λ e, ranking_year e < ranking_year h));
        [lia|exact Hpre].
    + apply Z.ltb_ge in Hcmp.
      destruct (IH best Hb Hrest) as (pre & h & post & E & Hpre & Hpost & Hle
                                       & Hk & Hrun).
      destruct pre as [|b pre1].
      * cbn [app] in E. injection E as <- <-.
        exists [], best, (x :: rest).
        repeat split; try assumption; try lia; try constructor;
          try lia; try exact Hpost.
      * cbn [app] in E. injection E as <- ->.
        apply List.Forall_cons_iff in Hpre. destruct Hpre as [Hbh Hpre1].
        exists (best :: x :: pre1), h, post.
        repeat split; try assumption; try lia.
        apply (@List.Forall_cons _ (λ e, ranking_year e < ranking_year h));
          [exact Hbh|].
        apply (@List.Forall_cons _ (λ e, ranking_year e < ranking_year h));
          [lia|exact Hpre1].
Qed.

End HighestDegree.

(** X17. extract_education.py, [extract_highest_education]: when the
    parsed data lists at least one degree and every degree is a document
    whose year is absent, null or an integer, the function returns the
    name, institution and year of the first degree whose ranking year (0
    for an absent or null year) is the greatest: every degree before it
    ranks strictly lower, every degree after it at most as high.  A degree
    without any field gives three nulls.  [gt] is the order of the
    language, known here on integers only. *)
Theorem highest_education_is_first_latest (gt : value → value → res bool)
  (d : list (string * value)) (degrees : list value) :
  (∀ a b, gt (VInt a) (VInt b) = Ok (b <? a)) →
  lookup_item "degree" d = Some (VList degrees) →
  degrees ≠ [] →
  forallb year_known degrees = true →
  ∃ pre h post,
    degrees = pre ++ h :: post
    ∧ Forall (λ e, ranking_year e < ranking_year h) pre
    ∧ Forall (λ e, ranking_year e <= ranking_year h) post
    ∧ ExtractEducation.extract_highest_education gt (VDict d)
      = Ok (if truthy h
            then (field_or h "degree_name" (VStr ""),
                  field_or h "institution" (VStr ""),
                  field_or h "year" (VStr ""))
            else (VNone, VNone, VNone)).
Proof.
  intros gt_int Hdeg Hne Hknown.
  destruct degrees as [|x rest]; [congruence|].
  cbn [forallb] in Hknown. apply andb_prop in Hknown.
  destruct Hknown as [Hx Hrest].
  destruct (max_loop_first_latest gt gt_int rest x Hx Hrest)
    as (pre & h & post & E & Hpre & Hpost & _ & Hk & Hrun).
  exists pre, h, post. repeat split; try assumption.
  unfold ExtractEducation.extract_highest_education.
  rewrite get_dict, Hdeg.
  cbn [default from_option id mbind res_bind Py.bind truthy negb iter
       ExtractEducation.max_by_year].
  rewrite (year_key_known x Hx). cbn [mbind res_bind Py.bind].
  rewrite Hrun. cbn [mbind res_bind Py.bind].
  destruct h as [| | | | | | |hd]; try discriminate Hk.
  destruct (truthy (VDict hd)); [|reflexivity].
  rewrite !get_dict. reflexivity.
Qed.

Lemma highest_education_is_first_latest_witness :
  ∃ pre h post,
    [VDict [("degree_name", VStr "BSc"); ("year", VInt 2019)];
     VDict [("degree_name", VStr "MSc"); ("institution", VStr "U");
            ("year", VInt 2021)];
     VDict [("degree_name", VStr "MBA"); ("year", VInt 2021)];
     VDict [("degree_name", VStr "PhD"); ("year", VNone)]]
    = pre ++ h :: post
    ∧ Forall (λ e, ranking_year e < ranking_year h) pre
    ∧ Forall (λ e, ranking_year e <= ranking_year h) post
    ∧ ExtractEducation.extract_highest_education int_gt
        (VDict [("degree",
                 VList [VDict [("degree_name", VStr "BSc");
                               ("year", VInt 2019)];
                        VDict [("degree_name", VStr "MSc");
                               ("institution", VStr "U");
                               ("year", VInt 2021)];
                        VDict [("degree_name", VStr "MBA");
                               ("year", VInt 2021)];
                        VDict [("degree_name", VStr "PhD");
                               ("year", VNone)]])])
      = Ok (if truthy h
            then (field_or h "degree_name" (VStr ""),
                  field_or h "institution" (VStr ""),
                  field_or h "year" (VStr ""))
            else (VNone, VNone, VNone)).
Proof.
  apply (highest_education_is_first_latest int_gt
           [("degree",
             VList [VDict [("degree_name", VStr "BSc"); ("year", VInt 2019)];
                    VDict [("degree_name", VStr "MSc");
                           ("institution", VStr "U"); ("year", VInt 2021)];
                    VDict [("degree_name", VStr "MBA"); ("year", VInt 2021)];
                    VDict [("degree_name", VStr "PhD"); ("year", VNone)]])]).
  - intros a b. reflexivity.
  - reflexivity.
  - discriminate.
  - reflexivity.
Defined.

(** ** What the importer leaves alone *)

Lemma same_but_skills_refl (c : gmap (list N) (list (string * value))) :
  same_but_skills c c.
Proof. intros oid. destruct (c !! oid); auto. Qed.

Lemma same_but_skills_trans (c1 c2 c3 : gmap (list N) (list (string * value))) :
  same_but_skills c1 c2 → same_but_skills c2 c3 → same_but_skills c1 c3.
Proof.
  intros H12 H23 oid. specialize (H12 oid). specialize (H23 oid).
  destruct (c1 !! oid), (c2 !! oid), (c3 !! oid); try contradiction; auto.
  intros k Hk. rewrite H23, H12 by exact Hk. reflexivity.
Qed.

Lemma step_same_but_skills (st : SkillFromResume.run)
  (r : SkillFromResume.row) :
  same_but_skills (SkillFromResume.collection st)
    (SkillFromResume.collection (SkillFromResume.step st r)).
Proof.
  unfold SkillFromResume.step.
  destruct (SkillFromResume.try_row (SkillFromResume.collection st) r)
    as [[coll' updated]|e] eqn:Htry; cbn [SkillFromResume.collection];
    [|apply same_but_skills_refl].
  apply try_row_ok in Htry
    as [[_ ->]|[_ (s & oid & doc & _ & _ & _ & Hdoc & _ & ->)]];
    [apply same_but_skills_refl|].
  intros oid'. destruct (decide (oid' = oid)) as [->|Hne].
  - rewrite Hdoc, lookup_insert_eq. intros k Hk.
    apply lookup_set_item_ne. congruence.
  - rewrite lookup_insert_ne by congruence.
    destruct (SkillFromResume.collection st !! oid'); auto.
Qed.

Lemma process_rows_same_but_skills (rows : list SkillFromResume.row)
  (st : SkillFromResume.run) :
  same_but_skills (SkillFromResume.collection st)
    (SkillFromResume.collection (SkillFromResume.process_rows rows st)).
Proof.
  revert st. induction rows as [|r rows IH]; intros st.
  - apply same_but_skills_refl.
  - cbn [SkillFromResume.process_rows fold_left].
    exact (same_but_skills_trans _ _ _ (step_same_but_skills st r)
             (IH (SkillFromResume.step st r))).
Qed.

(** X18. skill_from_resume.py, the whole import: whatever the file
    holds, the store ends with the documents it began with, none added
    and none removed, and each keeps every field other than "skills" as
    it was. *)
Theorem import_keeps_documents_and_other_fields
  (coll : gmap (list N) (list (string * value)))
  (df : list SkillFromResume.row)
  (oid : list N) :
  (is_Some (SkillFromResume.collection
              (SkillFromResume.process_skills_csv_to_mongodb coll df) !! oid)
   ↔ is_Some (coll !! oid))
  ∧ ∀ doc doc',
      coll !! oid = Some doc →
      SkillFromResume.collection
        (SkillFromResume.process_skills_csv_to_mongodb coll df) !! oid
      = Some doc' →
      ∀ k, k ≠ "skills" → lookup_item k doc' = lookup_item k doc.
Proof.
  unfold SkillFromResume.process_skills_csv_to_mongodb.
  pose proof (process_rows_same_but_skills df
                {| SkillFromResume.collection := coll;
                   SkillFromResume.update_count := 0;
                   SkillFromResume.error_count := 0 |} oid) as H.
  cbn [SkillFromResume.collection] in H.
  destruct (coll !! oid) as [doc|];
    destruct (SkillFromResume.collection _ !! oid) as [doc'|];
    try contradiction.
  - split; [split; eauto|]. intros ? ? [= <-] [= <-]. exact H.
  - split; [split; intros [? ?]; discriminate|]. intros ? ? [=].
Qed.

(** ** Rows that fail once [student_id] is bound *)

(** X19. skill_from_resume.py, the loop on any frame.  Once [student_id]
    is bound, because the row has the cell or an earlier row bound it,
    a row whose processing raises costs one error and nothing else: the
    store and the update count stay, the error count grows by one, and
    the loop goes on.  The rest of the frame is processed from that
    state and the function ends with its closing message, whose error
    count includes this row. *)
Theorem failed_row_is_counted_when_id_is_bound (l : locals)
  (row : gmap string cell) (rest : list (gmap string cell)) :
  is_Some (student_id_local l) ∨ is_Some (row !! "student_id") →
  raises (try_series (collection (counts l)) row).2 = true →
  ∃ l' final,
    turn l row = Ok l'
    ∧ collection (counts l') = collection (counts l)
    ∧ update_count (counts l') = update_count (counts l)
    ∧ error_count (counts l') = error_count (counts l) + 1
    ∧ iterrows_loop (row :: rest) l = Completed final
    ∧ iterrows_loop rest l' = Completed final
    ∧ error_count (counts l) + 1 <= error_count final.
Proof.
  intros Hbound Hfail.
  destruct (turn_bound l row Hbound) as (l' & Hturn & Hbound' & _ & _ & Hcost).
  destruct (Hcost Hfail) as (Hc & Hu & He).
  destruct (iterrows_loop_bound rest l' Hbound') as (final & Hrun & _ & He').
  exists l', final. cbn [iterrows_loop]. rewrite Hturn.
  repeat split; try assumption. lia.
Qed.

Lemma failed_row_is_counted_when_id_is_bound_witness :
  ∃ final,
    process_frame
      {[ [0; 0; 0; 0; 0; 0; 0; 0; 0; 0; 0; 1]%N := [("skills", VNone)] ]}
      [ to_series {| student_id := CText "not-an-object-id";
                     skills := CText "sql" |};
        to_series {| student_id := CText "000000000000000000000001";
                     skills := CText "Python, SQL" |} ]
    = Completed final
    ∧ 1 <= error_count final.
Proof.
  destruct (failed_row_is_counted_when_id_is_bound
              {| counts :=
                   {| collection :=
                        {[ [0; 0; 0; 0; 0; 0; 0; 0; 0; 0; 0; 1]%N
                           := [("skills", VNone)] ]};
                      update_count := 0; error_count := 0 |};
                 student_id_local := None |}
              (to_series {| student_id := CText "not-an-object-id";
                            skills := CText "sql" |})
              [ to_series {| student_id := CText "000000000000000000000001";
                             skills := CText "Python, SQL" |} ])
    as (l' & final & _ & _ & _ & _ & Hrun & _ & Herr).
  - right. eexists. vm_compute. reflexivity.
  - vm_compute. reflexivity.
  - exists final. split; [exact Hrun|exact Herr].
Defined.
